(** * Video management SaaS: ingestion pipeline and range-aware streaming

    A shallow embedding of
    - [services/processing.service.js]  ([simulateAISensitivityScan],
      [extractMetadata], [processVideo], [startProcessing]),
    - [config/socket.js]                ([emitProgress], [emitCompletion],
      [emitError], the connection and room handlers),
    - [controllers/upload.controller.js] ([uploadVideo], [getVideos],
      [getVideoById], [updateProcessingStatus], [deleteVideo]) and the
      routes in front of them,
    - [controllers/streaming.controller.js] ([streamVideo], [getStreamInfo]),
    - [middleware/auth.js], [middleware/tenantIsolation.js],
    - [models/Video.js]                 (the [Video] schema),
    - the progress overlay of [Dashboard.jsx] and the duration badge of
      [VideoCard.jsx],
    followed by the properties of the pipeline state machine, of the
    broadcast ordering, of the byte-range protocol and of the routes.

    Conventions.  A JavaScript number that the code obtains from [parseInt]
    is an [option Z] with [None] for [NaN]; all other numbers are integers
    in [Z].  Strings are [string]s of characters below 256, a code unit
    each.  The MongoDB collections are finite maps from document id to
    document; which strings are ObjectIds is left to the world, except
    that the id of a stored document is one.  Asynchronous functions are
    computations in the monad [Async], which threads the [World]
    (database, file system, socket hub, fault schedule), keeps a trace of
    the stores and broadcasts it makes, and may throw: what was done
    before a throw stays done, as in the source.  A run is executed to its
    end in one piece; interleavings of several runs are not modelled. *)

From Stdlib Require Import ZArith QArith Qround Ascii String List Lia.
From Stdlib Require Import DecimalString DecimalN.
From stdpp Require Import gmap strings list fin_maps.

Local Open Scope Z_scope.

(** ** JavaScript string and number primitives used by the code *)

Module JS.

(** A JS number produced by [parseInt]: [None] is [NaN]. *)
Definition Num := option Z.

Definition is_digit (c : ascii) : option Z :=
  let n := Z.of_nat (nat_of_ascii c) in
  if (48 <=? n) && (n <=? 57) then Some (n - 48) else None.

(** The capital letters among the characters below 256: [A] to [Z], and
    the accented capitals from 192 to 222 without the multiplication
    sign.  The small letter of each is 32 further on. *)
Definition is_upper (c : ascii) : bool :=
  let n := nat_of_ascii c in
  ((Nat.leb 65 n && Nat.leb n 90) ||
   (Nat.leb 192 n && Nat.leb n 222 && negb (Nat.eqb n 215)))%bool.

Definition toLowerCase_char (c : ascii) : ascii :=
  if is_upper c then ascii_of_nat (nat_of_ascii c + 32) else c.

(** [String.prototype.toLowerCase], on strings of characters below 256. *)
Fixpoint toLowerCase (s : string) : string :=
  match s with
  | EmptyString => EmptyString
  | String c s' => String (toLowerCase_char c) (toLowerCase s')
  end.

Fixpoint startsWith (s p : string) {struct p} : bool :=
  match p, s with
  | EmptyString, _ => true
  | String a p', String b s' => if ascii_dec a b then startsWith s' p' else false
  | String _ _, EmptyString => false
  end.

(** [String.prototype.includes]: [sub] occurs somewhere in [s]. *)
Fixpoint includes (s sub : string) : bool :=
  startsWith s sub ||
  match s with
  | EmptyString => false
  | String _ s' => includes s' sub
  end.

Fixpoint drop (n : nat) (s : string) : string :=
  match n, s with
  | O, _ => s
  | S n', String _ s' => drop n' s'
  | S _, EmptyString => EmptyString
  end.

(** [s.replace(/pat/, '')] for a literal pattern: the first occurrence of
    [pat] is removed, the rest of [s] is kept. *)
Fixpoint replace_first_by_empty (pat s : string) : string :=
  if startsWith s pat then drop (String.length pat) s
  else match s with
       | EmptyString => EmptyString
       | String c s' => String c (replace_first_by_empty pat s')
       end.

(** [s.split(sep)] for a one-character separator; never the empty list. *)
Fixpoint split (sep : ascii) (s : string) : list string :=
  match s with
  | EmptyString => [EmptyString]
  | String c s' =>
      if ascii_dec c sep then EmptyString :: split sep s'
      else match split sep s' with
           | p :: ps => String c p :: ps
           | [] => [String c EmptyString]
           end
  end.

(** The white space that [trim] and [parseInt] strip, among the
    characters below 256: tab to carriage return, the space and the
    no-break space. *)
Definition is_space (c : ascii) : bool :=
  let n := nat_of_ascii c in
  (Nat.leb 9 n && Nat.leb n 13) || Nat.eqb n 32 || Nat.eqb n 160.

Fixpoint trimStart (s : string) : string :=
  match s with
  | String c s' => if is_space c then trimStart s' else s
  | EmptyString => EmptyString
  end.

(** The longest prefix of decimal digits, read left to right; [acc] is
    [None] as long as no digit has been read. *)
Fixpoint parse_digits (s : string) (acc : Num) : Num :=
  match s with
  | EmptyString => acc
  | String c s' =>
      match is_digit c with
      | Some d => parse_digits s' (Some (10 * default 0 acc + d))
      | None => acc
      end
  end.

(** [parseInt(s, 10)]: leading white space, an optional sign, then the
    longest run of digits; [NaN] when there is no digit. *)
Definition parseInt (s : string) : Num :=
  match trimStart s with
  | String "-" s' => Z.opp <$> parse_digits s' None
  | String "+" s' => parse_digits s' None
  | s' => parse_digits s' None
  end%char.

(** Decimal rendering of a natural number. *)
Definition dec (n : N) : string := NilEmpty.string_of_uint (N.to_uint n).

(** [String(x)] / template interpolation of a number. *)
Definition Number_toString (x : Num) : string :=
  match x with
  | None => "NaN"
  | Some z => if z <? 0 then "-" +:+ dec (Z.to_N (- z)) else dec (Z.to_N z)
  end.

(** Truthiness of a string: only the empty string is falsy. *)
Definition truthy (s : string) : bool :=
  match s with EmptyString => false | _ => true end.

(** [a >= b] on numbers: false as soon as one side is [NaN]. *)
Definition ge (a b : Num) : bool :=
  match a, b with
  | Some x, Some y => y <=? x
  | _, _ => false
  end.

Definition sub (a b : Num) : Num :=
  match a, b with Some x, Some y => Some (x - y) | _, _ => None end.

Definition add (a b : Num) : Num :=
  match a, b with Some x, Some y => Some (x + y) | _, _ => None end.

(** [Math.round] on a rational: the nearest integer, halves upward. *)
Definition Math_round (q : Q) : Z := Qfloor (q + (1 # 2)).

(** The one-character string holding a double quote. *)
Definition dquote : string := String (ascii_of_nat 34) EmptyString.

End JS.

(** ** Data model ([models/Video.js], [models/User.js], [models/Tenant.js]) *)

Inductive Status := PENDING | PROCESSING | COMPLETED | FLAGGED.
Inductive Role := ADMIN | EDITOR | VIEWER.

#[global] Instance Status_eq_dec : EqDecision Status.
Proof. solve_decision. Defined.
#[global] Instance Role_eq_dec : EqDecision Role.
Proof. solve_decision. Defined.

Definition terminal (s : Status) : bool :=
  match s with COMPLETED | FLAGGED => true | _ => false end.

(** The [metadata] sub-document of a video. *)
Record VideoMetadata := {
  md_width : option Z;
  md_height : option Z;
  md_bitrate : option Z;
  md_codec : option string;
  md_frameRate : option Q;
}.

(** A document of the [Video] collection; its [_id] is the key under which
    the collection holds it. *)
Record Video := {
  title : string;
  originalFilename : string;
  filePath : string;
  mimeType : string;
  duration : option Z;
  processingStatus : Status;
  processingError : option string;
  metadata : option VideoMetadata;
  tenantId : string;
  uploadedBy : string;
  isPublic : bool;
  views : Z;
}.

#[global] Instance Q_eq_dec : EqDecision Q.
Proof. solve_decision. Defined.
#[global] Instance VideoMetadata_eq_dec : EqDecision VideoMetadata.
Proof. solve_decision. Defined.
#[global] Instance Video_eq_dec : EqDecision Video.
Proof. solve_decision. Defined.

Definition set_processingStatus (s : Status) (v : Video) : Video :=
  {| title := title v; originalFilename := originalFilename v;
     filePath := filePath v; mimeType := mimeType v; duration := duration v;
     processingStatus := s; processingError := processingError v;
     metadata := metadata v; tenantId := tenantId v;
     uploadedBy := uploadedBy v; isPublic := isPublic v; views := views v |}.

Definition set_processingError (e : string) (v : Video) : Video :=
  {| title := title v; originalFilename := originalFilename v;
     filePath := filePath v; mimeType := mimeType v; duration := duration v;
     processingStatus := processingStatus v; processingError := Some e;
     metadata := metadata v; tenantId := tenantId v;
     uploadedBy := uploadedBy v; isPublic := isPublic v; views := views v |}.

Definition set_duration (d : Z) (v : Video) : Video :=
  {| title := title v; originalFilename := originalFilename v;
     filePath := filePath v; mimeType := mimeType v; duration := Some d;
     processingStatus := processingStatus v;
     processingError := processingError v;
     metadata := metadata v; tenantId := tenantId v;
     uploadedBy := uploadedBy v; isPublic := isPublic v; views := views v |}.

Definition set_metadata (m : VideoMetadata) (v : Video) : Video :=
  {| title := title v; originalFilename := originalFilename v;
     filePath := filePath v; mimeType := mimeType v; duration := duration v;
     processingStatus := processingStatus v;
     processingError := processingError v;
     metadata := Some m; tenantId := tenantId v;
     uploadedBy := uploadedBy v; isPublic := isPublic v; views := views v |}.

Definition set_views (n : Z) (v : Video) : Video :=
  {| title := title v; originalFilename := originalFilename v;
     filePath := filePath v; mimeType := mimeType v; duration := duration v;
     processingStatus := processingStatus v;
     processingError := processingError v;
     metadata := metadata v; tenantId := tenantId v;
     uploadedBy := uploadedBy v; isPublic := isPublic v; views := n |}.

Record User := {
  user_role : Role;
  user_isActive : bool;
  user_tenantId : string;
}.

Record Tenant := {
  tenant_isActive : bool;
}.

(** What the probing tool reports ([extractedMetadata] in the source). *)
Record ExtractedMetadata := {
  x_duration : Q;
  x_width : option Z;
  x_height : option Z;
  x_bitrate : option Z;
  x_codec : option string;
  x_frameRate : option Q;
  x_audioCodec : option string;
  x_size : option Z;
}.

(** ** Broadcast events ([config/socket.js]) *)

Inductive ScanStatus := SAFE | SCAN_FLAGGED.

(** The fields spread into a progress payload besides [message]. *)
Inductive Extra :=
| NoExtra
| MetadataExtra (e_duration : option Z) (e_resolution : string)
                (e_codec : option string)
| ScanExtra (e_scanResult : ScanStatus)
| StatusExtra (e_status : Status).

Record ProgressData := {
  pd_message : string;
  pd_extra : Extra;
}.

(** The [video] object sent with the completion event. *)
Record Snapshot := {
  snap_id : string;
  snap_title : string;
  snap_processingStatus : Status;
  snap_duration : option Z;
  snap_metadata : option VideoMetadata;
}.

(** An event as delivered to a room; the wall-clock [timestamp] field is
    left out. *)
Inductive Event :=
| video_processing_progress (room videoId : string) (progress : Z)
                            (stage : string) (data : ProgressData)
| video_processing_complete (room videoId : string) (status : Status)
                            (snapshot : Snapshot)
| video_processing_error (room videoId : string) (error : string).

(** ** The world the server code runs in *)

Record World := {
  videos : gmap string Video;
  users : gmap string User;
  tenants : gmap string Tenant;
  files : gmap string (list Byte.byte);
  io : bool;                          (* has [initializeSocket] run? *)
  db_faults : list (option string);   (* fate of the next database calls *)
  object_ids : string -> bool;        (* the strings that are ObjectIds *)
}.

Definition with_videos (m : gmap string Video) (w : World) : World :=
  {| videos := m; users := users w; tenants := tenants w; files := files w;
     io := io w; db_faults := db_faults w; object_ids := object_ids w |}.

Definition with_db_faults (fs : list (option string)) (w : World) : World :=
  {| videos := videos w; users := users w; tenants := tenants w;
     files := files w; io := io w; db_faults := fs;
     object_ids := object_ids w |}.

(** What the code takes from outside the process. *)
Record Env := {
  ffprobe : string -> string + ExtractedMetadata;  (* error text or data *)
  Math_random : Q;                                 (* the next draw *)
  jwt_verify : string -> option string;            (* token to [userId] *)
  development : bool;                              (* NODE_ENV *)
}.

(** ** The monad of asynchronous, throwing computations *)

(** What a computation leaves behind that others can see, in order: a
    [save()] that reached the collection, or an event sent to a room, kept
    together with the collection as it was at that moment. *)
Inductive Obs :=
| Saved (id : string) (doc : Video)
| Emitted (ev : Event) (persisted : gmap string Video).

Inductive Outcome (A : Type) :=
| Return (a : A)
| Throw (message : string).
Arguments Return {A} a.
Arguments Throw {A} message.

(** One run of a computation: how it ended, the world it left, and what it
    did on the way (oldest first). *)
Record Run (A : Type) := {
  outcome : Outcome A;
  after : World;
  trace : list Obs;
}.
Arguments outcome {A} r.
Arguments after {A} r.
Arguments trace {A} r.

Definition Async (A : Type) : Type := World -> Run A.

#[global] Instance Async_ret : MRet Async := fun A a w =>
  {| outcome := Return a; after := w; trace := [] |}.

#[global] Instance Async_bind : MBind Async := fun A B k m w =>
  let r := m w in
  match outcome r with
  | Return a =>
      let r' := k a (after r) in
      {| outcome := outcome r'; after := after r';
         trace := trace r ++ trace r' |}
  | Throw e => {| outcome := Throw e; after := after r; trace := trace r |}
  end.

Definition throw {A} (message : string) : Async A :=
  fun w => {| outcome := Throw message; after := w; trace := [] |}.

(** [try { body } catch (error) { handler(error) }]: what the body did
    before it threw stays done. *)
Definition try_catch {A} (body : Async A) (handler : string -> Async A)
  : Async A :=
  fun w =>
    let r := body w in
    match outcome r with
    | Return a => r
    | Throw e =>
        let r' := handler e (after r) in
        {| outcome := outcome r'; after := after r';
           trace := trace r ++ trace r' |}
    end.

(** Reading the world without changing it. *)
Definition gets {A} (f : World -> A) : Async A :=
  fun w => {| outcome := Return (f w); after := w; trace := [] |}.

(** A call to the database: it rejects when the fault schedule says so and
    runs [op] otherwise.  An exhausted schedule means no more faults. *)
Definition db_call {A} (op : Async A) : Async A :=
  fun w =>
    match db_faults w with
    | Some message :: rest => throw message (with_db_faults rest w)
    | None :: rest => op (with_db_faults rest w)
    | [] => op w
    end.

(** What Mongoose throws for an [_id] that is no ObjectId. *)
Definition CastError (id : string) : string :=
  "Cast to ObjectId failed for value " +:+ JS.dquote +:+ id +:+ JS.dquote +:+
  " (type string) at path " +:+ JS.dquote +:+ "_id" +:+ JS.dquote +:+
  " for model " +:+ JS.dquote +:+ "Video" +:+ JS.dquote.

(** A query by [_id]: the id is cast to an ObjectId before anything is
    sent, and a string that is none makes the query throw without a call
    to the database.  The ids of the documents the collection holds are
    ObjectIds; of the other strings [object_ids] says which are. *)
Definition by_id {A} (id : string) (select : World -> A) : Async A :=
  mbind (M := Async) (fun stored : option Video =>
    match stored with
    | Some _ => db_call (gets select)
    | None =>
        mbind (M := Async) (fun valid : bool =>
          if valid then db_call (gets select) else throw (CastError id))
          (gets (fun w => object_ids w id))
    end) (gets (fun w => videos w !! id)).

(** [Video.findById(id)] *)
Definition Video_findById (id : string) : Async (option Video) :=
  by_id id (fun w => videos w !! id).

(** [doc.save()] for the document held under [id], [loaded] being the
    document as it was read or last saved.  Mongoose sends the paths
    that changed since then, and sends nothing when none did.  Run
    sequentially, a save of the changed paths is a store of the
    document. *)
Definition Video_save (id : string) (loaded doc : Video) : Async unit :=
  if bool_decide (doc = loaded) then mret (M := Async) tt
  else
    db_call (fun w =>
      {| outcome := Return tt;
         after := with_videos (<[id := doc]> (videos w)) w;
         trace := [Saved id doc] |}).

(** ** [config/socket.js] *)

Definition tenantRoom (tenantId : string) : string := "tenant_" +:+ tenantId.

(** [io.to(room).emit(...)] behind the [if (!io)] guard of each emitter:
    without a hub there is a warning and nothing is sent. *)
Definition io_emit (ev : Event) : Async unit :=
  fun w =>
    {| outcome := Return tt; after := w;
       trace := if io w then [Emitted ev (videos w)] else [] |}.

Definition emitProgress (tenantId videoId : string) (progress : Z)
    (stage : string) (data : ProgressData) : Async unit :=
  io_emit (video_processing_progress (tenantRoom tenantId) videoId
             progress stage data).

Definition emitCompletion (tenantId videoId : string) (status : Status)
    (videoData : Snapshot) : Async unit :=
  io_emit (video_processing_complete (tenantRoom tenantId) videoId
             status videoData).

Definition emitError (tenantId videoId : string) (error : string)
  : Async unit :=
  io_emit (video_processing_error (tenantRoom tenantId) videoId error).

(** ** The file system *)

(** The content of the file at [path], if there is one: what
    [fs.existsSync] and [fs.statSync] look at. *)
Definition fs_read (path : string) : Async (option (list Byte.byte)) :=
  gets (fun w => files w !! path).

(** [fs.createReadStream(path, {start, end})] following Node's contract:
    both bounds must be non-negative integers with [start <= end], else
    the call throws [ERR_OUT_OF_RANGE]; the stream then yields the bytes
    from [start] to [end] inclusive, as far as the file goes. *)
Definition fs_createReadStream (content : list Byte.byte)
    (start end_ : JS.Num) : Async (list Byte.byte) :=
  match start, end_ with
  | Some s, Some e =>
      if (s <? 0) || (e <? 0) || (e <? s) then throw "ERR_OUT_OF_RANGE"
      else mret (take (Z.to_nat (e - s + 1)) (drop (Z.to_nat s) content))
  | _, _ => throw "ERR_OUT_OF_RANGE"
  end.

(** ** [services/processing.service.js] *)

Definition SENSITIVITY_KEYWORDS : list string :=
  ["test_flag"; "flag"; "sensitive"; "nsfw"; "explicit"].

(** The file must exist, then the probing tool answers.  The reshaping of
    the raw probe output into [extractedMetadata] is part of [ffprobe]. *)
Definition extractMetadata (env : Env) (filePath : string)
  : Async ExtractedMetadata :=
  present ← fs_read filePath;
  match present with
  | None => throw "Video file not found"
  | Some _ =>
      match ffprobe env filePath with
      | inl message => throw ("FFprobe error: " +:+ message)
      | inr extractedMetadata => mret extractedMetadata
      end
  end.

Record ScanResult := {
  scan_status : ScanStatus;
  scan_reason : option string;
}.

Definition keyword_in (filenameLower keyword : string) : bool :=
  JS.includes filenameLower (JS.toLowerCase keyword).

(** The ten-second delay of the source is not part of the model. *)
Definition simulateAISensitivityScan (env : Env) (filename : string)
  : Async ScanResult :=
  let filenameLower := JS.toLowerCase filename in
  let hasKeyword := existsb (keyword_in filenameLower) SENSITIVITY_KEYWORDS in
  if hasKeyword then
    let matchedKeyword :=
      List.find (keyword_in filenameLower) SENSITIVITY_KEYWORDS in
    mret {| scan_status := SCAN_FLAGGED;
            scan_reason :=
              Some ("Sensitivity keyword detected: " +:+ JS.dquote +:+
                    default "undefined" matchedKeyword +:+ JS.dquote) |}
  else
    let randomFlag := negb (Qle_bool (1 # 10) (Math_random env)) in
    if randomFlag then
      mret {| scan_status := SCAN_FLAGGED;
              scan_reason :=
                Some "AI analysis detected potential content issues" |}
    else
      mret {| scan_status := SAFE; scan_reason := None |}.

(** [`${x}`] for a number or [null]. *)
Definition show_dim (x : option Z) : string :=
  match x with None => "null" | Some z => JS.Number_toString (Some z) end.

(** [a || b] on an optional string: [undefined] and [''] are falsy. *)
Definition or_else (a : option string) (b : string) : string :=
  match a with
  | Some s => if JS.truthy s then s else b
  | None => b
  end.

Definition processVideo (env : Env) (videoId tenantId : string)
  : Async unit :=
  try_catch
    (found ← Video_findById videoId;
     match found with
     | None => throw "Video not found"
     | Some loaded =>
         let video := set_processingStatus PROCESSING loaded in
         Video_save videoId loaded video;;
         let saved := video in
         emitProgress tenantId videoId 0 "Initializing"
           {| pd_message := "Video processing started";
              pd_extra := NoExtra |};;
         emitProgress tenantId videoId 10 "Extracting Metadata"
           {| pd_message := "Analyzing video file...";
              pd_extra := NoExtra |};;
         probed ← try_catch (extractMetadata env (filePath video))
           (fun message =>
              throw ("Metadata extraction failed: " +:+ message));
         let video :=
           set_metadata
             {| md_width := x_width probed;
                md_height := x_height probed;
                md_bitrate := x_bitrate probed;
                md_codec := x_codec probed;
                md_frameRate := x_frameRate probed |}
             (set_duration (JS.Math_round (x_duration probed)) video) in
         emitProgress tenantId videoId 25 "Metadata Extracted"
           {| pd_message := "Video metadata extracted successfully";
              pd_extra :=
                MetadataExtra (duration video)
                  (show_dim (x_width probed) +:+ "x" +:+
                   show_dim (x_height probed))
                  (x_codec probed) |};;
         emitProgress tenantId videoId 30 "AI Sensitivity Scan"
           {| pd_message := "Running AI content analysis...";
              pd_extra := NoExtra |};;
         scanResult ← simulateAISensitivityScan env (originalFilename video);
         emitProgress tenantId videoId 75 "AI Scan Complete"
           {| pd_message := "Content analysis completed";
              pd_extra := ScanExtra (scan_status scanResult) |};;
         emitProgress tenantId videoId 90 "Finalizing"
           {| pd_message := "Finalizing video processing...";
              pd_extra := NoExtra |};;
         let video :=
           match scan_status scanResult with
           | SCAN_FLAGGED =>
               set_processingError
                 (or_else (scan_reason scanResult)
                    "Content flagged by AI analysis")
                 (set_processingStatus FLAGGED video)
           | SAFE => set_processingStatus COMPLETED video
           end in
         Video_save videoId saved video;;
         emitProgress tenantId videoId 100 "Completed"
           {| pd_message := "Video processing completed";
              pd_extra := StatusExtra (processingStatus video) |};;
         emitCompletion tenantId videoId (processingStatus video)
           {| snap_id := videoId;
              snap_title := title video;
              snap_processingStatus := processingStatus video;
              snap_duration := duration video;
              snap_metadata := metadata video |}
     end)
    (fun error =>
       try_catch
         (found ← Video_findById videoId;
          match found with
          | Some video =>
              Video_save videoId video
                (set_processingError error
                   (set_processingStatus FLAGGED video))
          | None => mret tt
          end)
         (fun updateError => mret tt);;
       emitError tenantId videoId error).

(** [processVideo(...).catch(...)]: whatever the run still throws is
    logged.  The source schedules the run in the background; here it is
    run to its end. *)
Definition startProcessing (env : Env) (videoId tenantId : string)
  : Async unit :=
  try_catch (processVideo env videoId tenantId) (fun error => mret tt).

(** ** HTTP requests and responses *)

(** [req.user] as the authentication middleware builds it. *)
Record ReqUser := {
  ru_id : string;
  ru_role : Role;
  ru_tenantId : string;
}.

Record Request := {
  params_id : string;               (* req.params.id *)
  req_user : option ReqUser;        (* req.user *)
  query_token : option string;      (* req.query.token *)
  headers_range : option string;    (* req.headers.range *)
}.

(** The JSON objects the controllers answer with on their error paths. *)
Record JsonBody := {
  success : bool;
  message : string;
  j_processingStatus : option Status;
  j_processingError : option string;
  j_error : option string;
}.

(** The [video] object of the stream-info answer. *)
Record StreamInfo := {
  si_id : string;
  si_title : string;
  si_duration : option Z;
  si_fileSize : Z;
  si_mimeType : string;
  si_processingStatus : Status;
  si_metadata : option VideoMetadata;
  si_uploadedBy : string;
  si_views : Z;
  si_streamUrl : string;
}.

Inductive Body :=
| Json (j : JsonBody)
| VideoDoc (note : option string) (id : string) (doc : Video)
| Info (i : StreamInfo)
| Listing (page : list (string * Video)) (total : Z)
| FileStream (bytes : list Byte.byte).    (* what is piped into [res] *)

Record Response := {
  status : Z;
  res_headers : list (string * string);
  res_body : Body;
}.

Definition json (code : Z) (msg : string) : Response :=
  {| status := code; res_headers := [];
     res_body := Json {| success := false; message := msg;
                         j_processingStatus := None;
                         j_processingError := None; j_error := None |} |}.

(** The generic handler of every controller: a 500 whose [error] field is
    filled in development only. *)
Definition json500 (env : Env) (msg error : string) : Response :=
  {| status := 500; res_headers := [];
     res_body := Json {| success := false; message := msg;
                         j_processingStatus := None;
                         j_processingError := None;
                         j_error := if development env then Some error
                                    else None |} |}.

(** ** Queries on the [Video] collection *)

Inductive Clause :=
| c_isPublic (b : bool)
| c_uploadedBy (u : string).

Record Query := {
  q_id : string;
  q_tenantId : string;
  q_or : option (list Clause);
}.

Definition clause_holds (v : Video) (c : Clause) : bool :=
  match c with
  | c_isPublic b => Bool.eqb (isPublic v) b
  | c_uploadedBy u => String.eqb (uploadedBy v) u
  end.

Definition query_matches (q : Query) (v : Video) : bool :=
  String.eqb (tenantId v) (q_tenantId q) &&
  match q_or q with
  | None => true
  | Some cs => existsb (clause_holds v) cs
  end.

(** [Video.findOne(query)] for a query with an [_id]. *)
Definition Video_findOne (q : Query) : Async (option Video) :=
  by_id (q_id q) (fun w =>
    match videos w !! q_id q with
    | Some v => if query_matches q v then Some v else None
    | None => None
    end).

(** [User.findById(id).populate('tenantId')]: the user with the tenant
    document in place of the reference, [null] where it is missing. *)
Definition User_findById_populated (id : string)
  : Async (option (User * option Tenant)) :=
  db_call (gets (fun w =>
    match users w !! id with
    | Some u => Some (u, tenants w !! user_tenantId u)
    | None => None
    end)).

(** The query every reading controller builds: the id, the requester's
    tenant and, for a VIEWER, public-or-own. *)
Definition access_query (id userId : string) (userRole : Role)
    (tenant : string) : Query :=
  {| q_id := id; q_tenantId := tenant;
     q_or := match userRole with
             | VIEWER => Some [c_isPublic true; c_uploadedBy userId]
             | _ => None
             end |}.

(** ** [controllers/streaming.controller.js] *)

Definition mime_or_default (v : Video) : string :=
  if JS.truthy (mimeType v) then mimeType v else "video/mp4".

(** The identity of the requester: [req.user] when a session middleware
    set it, else the [token] query parameter.  [inl] is the answer that
    ends the request. *)
Definition resolve_identity (env : Env) (req : Request)
  : Async (Response + string * Role * string) :=
  match req_user req with
  | Some u => mret (inr (ru_id u, ru_role u, ru_tenantId u))
  | None =>
      match query_token req with
      | Some token =>
          if JS.truthy token then
            try_catch
              (match jwt_verify env token with
               | None => throw "invalid token"
               | Some userId =>
                   found ← User_findById_populated userId;
                   match found with
                   | Some (user, Some tenant) =>
                       if user_isActive user && tenant_isActive tenant
                       then mret (inr (userId, user_role user,
                                       user_tenantId user))
                       else mret (inl (json 401 "Unauthorized"))
                   | _ => mret (inl (json 401 "Unauthorized"))
                   end
               end)
              (fun error => mret (inl (json 401 "Invalid token")))
          else mret (inl (json 401 "Authentication required"))
      | None => mret (inl (json 401 "Authentication required"))
      end
  end.

(** The part of [streamVideo] that runs once the file is known to exist:
    [fileSize] is [stat.size], [range] the header. *)
Definition serve_file (video : Video) (content : list Byte.byte)
    (range : option string) : Async Response :=
  let fileSize := Z.of_nat (length content) in
  match range with
  | Some range =>
      if JS.truthy range then
        let parts := JS.split "-" (JS.replace_first_by_empty "bytes=" range) in
        let start := JS.parseInt (default EmptyString (parts !! 0%nat)) in
        let end_ :=
          match parts !! 1%nat with
          | Some p => if JS.truthy p then JS.parseInt p
                      else Some (fileSize - 1)
          | None => Some (fileSize - 1)
          end in
        if JS.ge start (Some fileSize) || JS.ge end_ (Some fileSize) then
          mret (json 416 "Range Not Satisfiable")
        else
          let chunksize := JS.add (JS.sub end_ start) (Some 1) in
          file ← fs_createReadStream content start end_;
          mret {| status := 206;
                  res_headers :=
                    [("Content-Range",
                      "bytes " +:+ JS.Number_toString start +:+ "-" +:+
                      JS.Number_toString end_ +:+ "/" +:+
                      JS.Number_toString (Some fileSize));
                     ("Accept-Ranges", "bytes");
                     ("Content-Length", JS.Number_toString chunksize);
                     ("Content-Type", mime_or_default video);
                     ("Cache-Control", "no-cache")];
                  res_body := FileStream file |}
      else
        mret {| status := 200;
                res_headers :=
                  [("Content-Length", JS.Number_toString (Some fileSize));
                   ("Content-Type", mime_or_default video);
                   ("Accept-Ranges", "bytes")];
                res_body := FileStream content |}
  | None =>
      mret {| status := 200;
              res_headers :=
                [("Content-Length", JS.Number_toString (Some fileSize));
                 ("Content-Type", mime_or_default video);
                 ("Accept-Ranges", "bytes")];
              res_body := FileStream content |}
  end.

(** What [streamVideo] does with the document it found: the status gate,
    the look at the disk, the answer. *)
Definition stream_found (video : Video) (range : option string)
  : Async Response :=
  if bool_decide (processingStatus video = FLAGGED) then
    mret {| status := 403; res_headers := [];
            res_body := Json
              {| success := false;
                 message := "This video has been flagged and cannot be streamed";
                 j_processingStatus := Some (processingStatus video);
                 j_processingError := processingError video;
                 j_error := None |} |}
  else if bool_decide (processingStatus video <> COMPLETED) then
    mret {| status := 403; res_headers := [];
            res_body := Json
              {| success := false;
                 message := "Video is still processing";
                 j_processingStatus := Some (processingStatus video);
                 j_processingError := None;
                 j_error := None |} |}
  else
    present ← fs_read (filePath video);
    match present with
    | None => mret (json 404 "Video file not found")
    | Some content => serve_file video content range
    end.

Definition streamVideo (env : Env) (req : Request) : Async Response :=
  try_catch
    (let id := params_id req in
     who ← resolve_identity env req;
     match who with
     | inl answer => mret answer
     | inr (userId, userRole, tenant) =>
         found ← Video_findOne (access_query id userId userRole tenant);
         match found with
         | None => mret (json 404 "Video not found or access denied")
         | Some video => stream_found video (headers_range req)
         end
     end)
    (fun error => mret (json500 env "Error streaming video" error)).

(** [getStreamInfo]: the document is selected without [filePath], so the
    existence test that follows sees no path and the size stays 0. *)
Definition getStreamInfo (env : Env) (id : string) (user : ReqUser)
  : Async Response :=
  try_catch
    (found ← Video_findOne
               (access_query id (ru_id user) (ru_role user) (ru_tenantId user));
     match found with
     | None => mret (json 404 "Video not found or access denied")
     | Some video =>
         mret {| status := 200; res_headers := [];
                 res_body := Info
                   {| si_id := id; si_title := title video;
                      si_duration := duration video; si_fileSize := 0;
                      si_mimeType := mimeType video;
                      si_processingStatus := processingStatus video;
                      si_metadata := metadata video;
                      si_uploadedBy := uploadedBy video;
                      si_views := views video;
                      si_streamUrl := "/api/videos/stream/" +:+ id |} |}
     end)
    (fun error => mret (json500 env "Error getting stream info" error)).

(** ** [controllers/upload.controller.js] and its routes *)

Definition getVideoById (env : Env) (id : string) (user : ReqUser)
  : Async Response :=
  try_catch
    (found ← Video_findOne
               (access_query id (ru_id user) (ru_role user) (ru_tenantId user));
     match found with
     | None => mret (json 404 "Video not found or access denied")
     | Some loaded =>
         let video := set_views (views loaded + 1) loaded in
         Video_save id loaded video;;
         mret {| status := 200; res_headers := [];
                 res_body := VideoDoc None id video |}
     end)
    (fun error => mret (json500 env "Error fetching video" error)).

Definition Status_ofString (s : string) : option Status :=
  if String.eqb s "PENDING" then Some PENDING
  else if String.eqb s "PROCESSING" then Some PROCESSING
  else if String.eqb s "COMPLETED" then Some COMPLETED
  else if String.eqb s "FLAGGED" then Some FLAGGED
  else None.

Record StatusPatch := {
  b_processingStatus : string;
  b_processingError : option string;
  b_tenantId : option string;
}.

Definition updateProcessingStatus (env : Env) (id : string) (user : ReqUser)
    (body : StatusPatch) : Async Response :=
  try_catch
    (match Status_ofString (b_processingStatus body) with
     | None => mret (json 400 "Invalid processing status")
     | Some st =>
         found ← Video_findOne
                   {| q_id := id; q_tenantId := ru_tenantId user;
                      q_or := None |};
         match found with
         | None => mret (json 404 "Video not found")
         | Some loaded =>
             let video := set_processingStatus st loaded in
             let video :=
               match b_processingError body with
               | Some e => if JS.truthy e then set_processingError e video
                           else video
               | None => video
               end in
             Video_save id loaded video;;
             mret {| status := 200; res_headers := [];
                     res_body :=
                       VideoDoc (Some "Processing status updated") id video |}
         end
     end)
    (fun error => mret (json500 env "Error updating processing status" error)).

Definition Role_toString (r : Role) : string :=
  match r with ADMIN => "ADMIN" | EDITOR => "EDITOR" | VIEWER => "VIEWER" end.

Fixpoint join (sep : string) (l : list string) : string :=
  match l with
  | [] => EmptyString
  | [x] => x
  | x :: rest => x +:+ sep +:+ join sep rest
  end.

(** [authorize(...roles)] of [middleware/auth.js] in front of a handler. *)
Definition authorize (roles : list Role) (user : ReqUser)
    (next : Async Response) : Async Response :=
  if bool_decide (ru_role user ∈ roles) then next
  else mret (json 403 ("Access denied. Required role: " +:+
                       join " or " (Role_toString <$> roles))).

(** [ensureTenantAccess] of [middleware/tenantIsolation.js] for a route
    without a tenant parameter: a tenant named in the body must be the
    requester's own. *)
Definition ensureTenantAccess (user : ReqUser) (bodyTenant : option string)
    (next : Async Response) : Async Response :=
  match bodyTenant with
  | Some t =>
      if JS.truthy t && negb (String.eqb t (ru_tenantId user)) then
        mret (json 403
                "Access denied: Cannot create resources for another tenant")
      else next
  | None => next
  end.

(** [router.patch('/:id/status', authorize('ADMIN'), ensureTenantAccess,
    updateProcessingStatus)] *)
Definition route_patch_status (env : Env) (id : string) (user : ReqUser)
    (body : StatusPatch) : Async Response :=
  authorize [ADMIN] user
    (ensureTenantAccess user (b_tenantId body)
       (updateProcessingStatus env id user body)).

(** * The vocabulary of the properties *)

(** ** Tests on strings *)

Module JSSpec.
Import JS.

(** Strings all of whose characters satisfy a test. *)
Fixpoint all_chars (P : ascii -> bool) (s : string) : bool :=
  match s with
  | EmptyString => true
  | String c s' => P c && all_chars P s'
  end.

Definition digit_char (c : ascii) : bool :=
  match is_digit c with Some _ => true | None => false end.

(** The value of a digit sequence read after [acc]. *)
Fixpoint uint_value (d : Decimal.uint) (acc : Z) : Z :=
  match d with
  | Decimal.Nil => acc
  | Decimal.D0 d => uint_value d (10 * acc)
  | Decimal.D1 d => uint_value d (10 * acc + 1)
  | Decimal.D2 d => uint_value d (10 * acc + 2)
  | Decimal.D3 d => uint_value d (10 * acc + 3)
  | Decimal.D4 d => uint_value d (10 * acc + 4)
  | Decimal.D5 d => uint_value d (10 * acc + 5)
  | Decimal.D6 d => uint_value d (10 * acc + 6)
  | Decimal.D7 d => uint_value d (10 * acc + 7)
  | Decimal.D8 d => uint_value d (10 * acc + 8)
  | Decimal.D9 d => uint_value d (10 * acc + 9)
  end.

End JSSpec.

(** ** Runs and what they leave behind *)

(** [wp m w Q]: the run of [m] from [w] ends in a state that [Q] accepts. *)
Definition wp {A} (m : Async A) (w : World)
    (Q : Outcome A -> World -> list Obs -> Prop) : Prop :=
  Q (outcome (m w)) (after (m w)) (trace (m w)).

(** The database never rejects a call. *)
Definition no_faults (w : World) : Prop :=
  Forall (fun f => f = None) (db_faults w).

(** The documents a run stored, and the events it sent, oldest first. *)
Definition saves (t : list Obs) : list (string * Video) :=
  omap (fun o => match o with
                 | Saved id doc => Some (id, doc)
                 | Emitted _ _ => None
                 end) t.

Definition emitted (t : list Obs) : list (Event * gmap string Video) :=
  omap (fun o => match o with
                 | Saved _ _ => None
                 | Emitted ev db => Some (ev, db)
                 end) t.

Definition persisted_statuses (t : list Obs) : list Status :=
  (fun p => processingStatus p.2) <$> saves t.

(** The statuses the collection showed for an artifact: the one it had,
    then the ones a run stored. *)
Definition status_sequence (v : Video) (t : list Obs) : list Status :=
  processingStatus v :: persisted_statuses t.

(** ** Concrete worlds *)

Module Sample.

Definition clip : Video :=
  {| title := "Holiday"; originalFilename := "holiday.mp4";
     filePath := "/uploads/holiday.mp4"; mimeType := "video/mp4";
     duration := None; processingStatus := PENDING;
     processingError := None; metadata := None;
     tenantId := "t1"; uploadedBy := "u1"; isPublic := false;
     views := 0 |}.

(** An artifact named after a keyword, whose file is not on disk. *)
Definition orphan : Video :=
  {| title := "Take 2"; originalFilename := "My_Test_FLAG_take2.mp4";
     filePath := "/uploads/missing.mp4"; mimeType := "video/mp4";
     duration := None; processingStatus := PENDING;
     processingError := None; metadata := None;
     tenantId := "t1"; uploadedBy := "u1"; isPublic := false;
     views := 0 |}.

Definition probed : ExtractedMetadata :=
  {| x_duration := 7 # 2; x_width := Some 640; x_height := Some 480;
     x_bitrate := Some 900000; x_codec := Some "h264";
     x_frameRate := Some (25 # 1); x_audioCodec := Some "aac";
     x_size := Some 1000 |}.

Definition env : Env :=
  {| ffprobe := fun _ => inr probed;
     Math_random := 1 # 2;
     jwt_verify := fun token =>
       if String.eqb token "token-of-u2" then Some "u2" else None;
     development := false |}.

Definition bytes (n : nat) : list Byte.byte := repeat Byte.x2a n.

(** In the sample worlds the ObjectIds are the strings that start with
    a [v]. *)
Definition is_id (s : string) : bool := JS.startsWith s "v".

(** One tenant's collection holding [doc] under ["v1"], the file of
    [clip] on disk, the socket hub up, and the database failing as
    [faults] says. *)
Definition world_with (doc : Video) (faults : list (option string))
  : World :=
  {| videos := {[ "v1" := doc ]};
     users := {[ "u1" := {| user_role := EDITOR; user_isActive := true;
                            user_tenantId := "t1" |};
                 "u2" := {| user_role := VIEWER; user_isActive := true;
                            user_tenantId := "t1" |} ]};
     tenants := {[ "t1" := {| tenant_isActive := true |};
                   "t2" := {| tenant_isActive := true |} ]};
     files := {[ "/uploads/holiday.mp4" := bytes 1000 ]};
     io := true;
     db_faults := faults;
     object_ids := is_id |}.

Definition world : World := world_with clip [].

End Sample.

Module SampleRequests.
Definition editor : ReqUser :=
  {| ru_id := "u1"; ru_role := EDITOR; ru_tenantId := "t1" |}.
Definition viewer : ReqUser :=
  {| ru_id := "u2"; ru_role := VIEWER; ru_tenantId := "t1" |}.
Definition outsider : ReqUser :=
  {| ru_id := "u9"; ru_role := ADMIN; ru_tenantId := "t2" |}.

(** A streaming request of [user] for the artifact [id]. *)
Definition fetch (user : ReqUser) (id : string) (range : option string)
  : Request :=
  {| params_id := id; req_user := Some user; query_token := None;
     headers_range := range |}.

Definition completed : Video :=
  set_processingStatus COMPLETED Sample.clip.
End SampleRequests.

(** ** Status sequences *)

(** The two sequences the specification allows. *)
Definition claimed_sequences : list (list Status) :=
  [ [PENDING; PROCESSING; COMPLETED]; [PENDING; PROCESSING; FLAGGED] ].

(** The sequences a run can leave behind, database faults included. *)
Definition forward_sequences : list (list Status) :=
  [ [PENDING]; [PENDING; PROCESSING]; [PENDING; PROCESSING; COMPLETED];
    [PENDING; PROCESSING; FLAGGED]; [PENDING; FLAGGED] ].

(** ** What an event announces *)

Definition persisted_status (db : gmap string Video) (id : string)
  : option Status :=
  processingStatus <$> db !! id.

(** The [video] object of the completion event, read off a document. *)
Definition snapshot_of (id : string) (d : Video) : Snapshot :=
  {| snap_id := id; snap_title := title d;
     snap_processingStatus := processingStatus d;
     snap_duration := duration d; snap_metadata := metadata d |}.

(** The status an event stands for is the one the collection [db] holds:
    PROCESSING for a progress event below 100%, the announced terminal
    status for the 100% event and for the completion event, whose payload
    is read off the stored document. *)
Definition status_persisted (ev : Event) (db : gmap string Video) : Prop :=
  match ev with
  | video_processing_progress _ id _ _ data =>
      match pd_extra data with
      | StatusExtra s => persisted_status db id = Some s /\ terminal s = true
      | _ => persisted_status db id = Some PROCESSING
      end
  | video_processing_complete _ id s snap =>
      terminal s = true /\
      exists d, db !! id = Some d /\ processingStatus d = s /\
                snap = snapshot_of id d
  | video_processing_error _ _ _ => True
  end.

(** The metadata a progress event carries is in the stored document. *)
Definition metadata_persisted (ev : Event) (db : gmap string Video) : Prop :=
  match ev with
  | video_processing_progress _ id _ _ data =>
      match pd_extra data with
      | MetadataExtra dur res codec =>
          exists d m, db !! id = Some d /\ duration d = dur /\
                      metadata d = Some m /\ md_codec m = codec
      | _ => True
      end
  | _ => True
  end.

(** The failure a failure event reports is stored as FLAGGED with the
    message as detail. *)
Definition failure_persisted (ev : Event) (db : gmap string Video) : Prop :=
  match ev with
  | video_processing_error _ id e =>
      exists d, db !! id = Some d /\ processingStatus d = FLAGGED /\
                processingError d = Some e
  | _ => True
  end.

(** The claim of the specification: all three, for every event. *)
Definition announced_is_persisted (p : Event * gmap string Video) : Prop :=
  status_persisted p.1 p.2 /\ metadata_persisted p.1 p.2 /\
  failure_persisted p.1 p.2.

(** What holds instead for the metadata: when the event that carries it
    is sent, the stored document is still the one the run found, marked
    PROCESSING. *)
Definition metadata_pending (before : gmap string Video)
    (p : Event * gmap string Video) : Prop :=
  match p.1 with
  | video_processing_progress _ id _ _ data =>
      match pd_extra data with
      | MetadataExtra _ _ _ =>
          exists v, before !! id = Some v /\
                    p.2 !! id = Some (set_processingStatus PROCESSING v)
      | _ => True
      end
  | _ => True
  end.

(** ** Failures *)

(** The messages of the failure events a run sent. *)
Definition failures (t : list Obs) : list string :=
  omap (fun p => match p.1 with
                 | video_processing_error _ _ e => Some e
                 | _ => None
                 end) (emitted t).





(** ** Repeated starts *)

(** The claim of the specification: the second start does nothing. *)
Definition is_no_op (w : World) (r : Run unit) : Prop :=
  trace r = [] /\ videos (after r) = videos w.

(** The world in which the document under [id] shows status [s]. *)
Definition with_status (id : string) (s : Status) (v : Video) (w : World)
  : World :=
  with_videos (<[id := set_processingStatus s v]> (videos w)) w.

(** ** Keywords *)

(** [name] contains [kw], letter case aside. *)
Definition contains_ci (name kw : string) : Prop :=
  exists pre post, JS.toLowerCase name = pre +:+ JS.toLowerCase kw +:+ post.





(** ** Reads and writes of the record *)

(** Two worlds that differ at most in what is left of the fault
    schedule. *)
Definition same_data (w w' : World) : Prop :=
  videos w' = videos w /\ users w' = users w /\ tenants w' = tenants w /\
  files w' = files w /\ io w' = io w /\ object_ids w' = object_ids w.

(** A run that wrote nothing, sent nothing and answered. *)
Definition read_only {A} (w : World) (o : Outcome A) (w' : World)
    (t : list Obs) : Prop :=
  t = [] /\ same_data w w' /\ exists a, o = Return a.

(** A document that differs from [v] in status and status detail only. *)
Definition status_correction_of (v d : Video) : Prop :=
  exists st, d = set_processingStatus st v \/
             exists e, d = set_processingError e (set_processingStatus st v).

(** The document the status-correction route stores in place of [v]. *)
Definition corrected (st : Status) (detail : option string) (v : Video)
  : Video :=
  match detail with
  | Some e => if JS.truthy e
              then set_processingError e (set_processingStatus st v)
              else set_processingStatus st v
  | None => set_processingStatus st v
  end.

(** The claim of the specification for a read of an artifact that is not
    terminal yet. *)
Definition untouched_by_read (w : World) (r : Run Response) : Prop :=
  saves (trace r) = [] /\ videos (after r) = videos w.

(** ** Fetches *)

(** The same request for another id. *)
Definition for_id (id : string) (req : Request) : Request :=
  {| params_id := id; req_user := req_user req;
     query_token := query_token req; headers_range := headers_range req |}.

(** The artifact is kept from the requester: it is another tenant's, or
    the requester is a VIEWER and it is private and somebody else's. *)
Definition hidden_from (userId : string) (userRole : Role) (tenant : string)
    (v : Video) : Prop :=
  tenantId v <> tenant \/
  (userRole = VIEWER /\ isPublic v = false /\ uploadedBy v <> userId).

(** The answer of a run, if it answered. *)
Definition response (r : Run Response) : option Response :=
  match outcome r with Return resp => Some resp | Throw _ => None end.

(** The requester is identified and the collection hands out [video] for
    the request. *)
Definition authorized_fetch (env : Env) (req : Request) (w : World)
    (video : Video) : Prop :=
  exists userId userRole tenant,
    outcome (resolve_identity env req w)
      = Return (inr (userId, userRole, tenant)) /\
    outcome (Video_findOne
               (access_query (params_id req) userId userRole tenant)
               (after (resolve_identity env req w)))
      = Return (Some video).

Definition flagged_answer (video : Video) : Response :=
  {| status := 403; res_headers := [];
     res_body := Json
       {| success := false;
          message := "This video has been flagged and cannot be streamed";
          j_processingStatus := Some FLAGGED;
          j_processingError := processingError video;
          j_error := None |} |}.

Definition still_processing_answer (s : Status) : Response :=
  {| status := 403; res_headers := [];
     res_body := Json
       {| success := false; message := "Video is still processing";
          j_processingStatus := Some s;
          j_processingError := None; j_error := None |} |}.

(** A response that carries content. *)
Definition streams (resp : Response) : Prop :=
  status resp = 200 \/ status resp = 206 \/
  exists bytes, res_body resp = FileStream bytes.

(** ** Byte ranges *)

(** The header [bytes=start-end], the end given or left out. *)
Definition range_header (start : Z) (end_ : option Z) : string :=
  "bytes=" +:+ JS.dec (Z.to_N start) +:+ "-" +:+
  match end_ with Some e => JS.dec (Z.to_N e) | None => EmptyString end.

(** The bytes of [content] from index [start] to index [last], both
    included. *)
Definition span (content : list Byte.byte) (start last : Z)
  : list Byte.byte :=
  take (Z.to_nat (last - start + 1)) (drop (Z.to_nat start) content).

Definition partial_content (video : Video) (content : list Byte.byte)
    (start last : Z) : Response :=
  {| status := 206;
     res_headers :=
       [("Content-Range",
         "bytes " +:+ JS.dec (Z.to_N start) +:+ "-" +:+
         JS.dec (Z.to_N last) +:+ "/" +:+
         JS.dec (N.of_nat (length content)));
        ("Accept-Ranges", "bytes");
        ("Content-Length", JS.dec (Z.to_N (last - start + 1)));
        ("Content-Type", mime_or_default video);
        ("Cache-Control", "no-cache")];
     res_body := FileStream (span content start last) |}.

Definition full_content (video : Video) (content : list Byte.byte)
  : Response :=
  {| status := 200;
     res_headers :=
       [("Content-Length", JS.dec (N.of_nat (length content)));
        ("Content-Type", mime_or_default video);
        ("Accept-Ranges", "bytes")];
     res_body := FileStream content |}.

(** * More of the server and of the client *)

(** ** More string primitives *)

Module JSMore.

(** [String.prototype.trimEnd], then [trim], on the ASCII white space. *)
Fixpoint trimEnd (s : string) : string :=
  match s with
  | EmptyString => EmptyString
  | String c s' =>
      match trimEnd s' with
      | EmptyString => if JS.is_space c then EmptyString
                       else String c EmptyString
      | t => String c t
      end
  end.

Definition trim (s : string) : string := trimEnd (JS.trimStart s).

(** [a * b] on numbers. *)
Definition mul (a b : JS.Num) : JS.Num :=
  match a, b with Some x, Some y => Some (x * y) | _, _ => None end.

End JSMore.

(** ** More of the file system and of the collections *)

Definition with_files (m : gmap string (list Byte.byte)) (w : World)
  : World :=
  {| videos := videos w; users := users w; tenants := tenants w; files := m;
     io := io w; db_faults := db_faults w; object_ids := object_ids w |}.

(** [fs.unlinkSync(path)]: the file must be there. *)
Definition fs_unlink (path : string) : Async unit :=
  mbind (M := Async) (fun present =>
    match present with
    | None => throw "ENOENT"
    | Some _ =>
        fun w => {| outcome := Return tt;
                    after := with_files (delete path (files w)) w;
                    trace := [] |}
    end) (fs_read path).

(** [Tenant.findById(id)] *)
Definition Tenant_findById (id : string) : Async (option Tenant) :=
  db_call (gets (fun w => tenants w !! id)).

(** [doc.populate(...)]: one more call to the database; what it brings
    is not kept in the model. *)
Definition populate : Async unit := db_call (gets (fun _ => tt)).

(** [Video.deleteOne({ _id: id })] *)
Definition Video_deleteOne (id : string) : Async unit :=
  db_call (fun w =>
    {| outcome := Return tt;
       after := with_videos (delete id (videos w)) w; trace := [] |}).

(** The [required] validators of the schema that a new document can
    fail, in the order of the schema, each with its path and message: a
    required string must not be empty.  (The size and the two references
    are always there: they come from multer and from [req.user].) *)
Definition required_failures (filename : string) (doc : Video)
  : list string :=
  (if JS.truthy (title doc) then []
   else ["title: Video title is required"]) ++
  (if JS.truthy filename then []
   else ["filename: Filename is required"]) ++
  (if JS.truthy (originalFilename doc) then []
   else ["originalFilename: Original filename is required"]) ++
  (if JS.truthy (filePath doc) then []
   else ["filePath: File path is required"]) ++
  (if JS.truthy (mimeType doc) then []
   else ["mimeType: MIME type is required"]).

(** [Video.create(doc)]: the document is validated, then stored under
    the id the driver made for it, [newId]; an id already in use is a
    duplicate key. *)
Definition Video_create (newId filename : string) (doc : Video)
  : Async unit :=
  match required_failures filename doc with
  | [] =>
      db_call
        (mbind (M := Async) (fun existing =>
           match existing with
           | Some _ => throw "E11000 duplicate key error"
           | None =>
               fun w =>
                 {| outcome := Return tt;
                    after := with_videos (<[newId := doc]> (videos w)) w;
                    trace := [Saved newId doc] |}
           end) (gets (fun w => videos w !! newId)))
  | failed => throw ("Video validation failed: " +:+ join ", " failed)
  end.

(** ** [middleware/auth.js]: [authenticate] *)

(** What [jwt.verify] throws for a token it rejects. *)
Inductive JwtFailure :=
| JsonWebTokenError
| TokenExpiredError
| OtherJwtError (message : string).

Definition bearer_hint : string :=
  "No token provided. Authorization header must be in format: Bearer <token>".

(** The middleware either answers ([inl]) or hands on the request with
    [req.user] set ([inr]).  Its handler tells the errors of [jwt.verify]
    by their name; every other error is a 500. *)
Definition authenticate (env : Env) (jwt_failure : string -> JwtFailure)
    (authorization : option string) : Async (Response + ReqUser) :=
  try_catch
    (match authorization with
     | Some authHeader =>
         if JS.truthy authHeader && JS.startsWith authHeader "Bearer " then
           let token := JS.drop 7 authHeader in
           if negb (JS.truthy token) then
             mret (inl (json 401 "No token provided"))
           else
             match jwt_verify env token with
             | None =>
                 match jwt_failure token with
                 | JsonWebTokenError => mret (inl (json 401 "Invalid token"))
                 | TokenExpiredError => mret (inl (json 401 "Token expired"))
                 | OtherJwtError message => throw message
                 end
             | Some userId =>
                 found ← User_findById_populated userId;
                 match found with
                 | None => mret (inl (json 401 "User not found"))
                 | Some (user, populated) =>
                     if negb (user_isActive user) then
                       mret (inl (json 401 "User account is inactive"))
                     else
                       match populated with
                       | Some tenant =>
                           if tenant_isActive tenant then
                             mret (inr {| ru_id := userId;
                                          ru_role := user_role user;
                                          ru_tenantId := user_tenantId user |})
                           else
                             mret (inl (json 403 "Tenant account is inactive"))
                       | None =>
                           mret (inl (json 403 "Tenant account is inactive"))
                       end
                 end
             end
         else mret (inl (json 401 bearer_hint))
     | None => mret (inl (json 401 bearer_hint))
     end)
    (fun error => mret (inl (json 500 "Authentication error"))).

(** ** [middleware/tenantIsolation.js]: [filterByTenant] *)

(** [queryTenant] is [req.query.tenantId]. *)
Definition filterByTenant (user : ReqUser) (queryTenant : option string)
    (next : Async Response) : Async Response :=
  if negb (JS.truthy (ru_tenantId user)) then
    mret (json 401 "Authentication required")
  else
    match queryTenant with
    | Some t =>
        if negb (JS.truthy t) then next
        else if negb (String.eqb t (ru_tenantId user)) then
          mret (json 403
                  "Access denied: Cannot query resources from another tenant")
        else next
    | None => next
    end.

(** The two [router.use] of [routes/video.routes.js], in front of the
    handler of a route other than the streaming one. *)
Definition behind_session (env : Env) (jwt_failure : string -> JwtFailure)
    (authorization queryTenant : option string)
    (handler : ReqUser -> Async Response) : Async Response :=
  who ← authenticate env jwt_failure authorization;
  match who with
  | inl answer => mret answer
  | inr user => filterByTenant user queryTenant (handler user)
  end.

(** ** [config/socket.js]: connections and rooms *)

Record Handshake := {
  hs_auth_token : option string;       (* socket.handshake.auth.token *)
  hs_authorization : option string;    (* ...headers.authorization *)
}.

Record SocketIdentity := {
  sock_userId : string;
  sock_userRole : Role;
  sock_tenantId : string;
}.

(** [auth.token || headers.authorization?.replace('Bearer ', '')] *)
Definition handshake_token (h : Handshake) : option string :=
  let from_header :=
    match hs_authorization h with
    | Some a => Some (JS.replace_first_by_empty "Bearer " a)
    | None => None
    end in
  match hs_auth_token h with
  | Some t => if JS.truthy t then Some t else from_header
  | None => from_header
  end.

(** The middleware of [io.use]: [inl] is the message of the error given
    to [next], [inr] what is attached to the socket. *)
Definition socket_authenticate (env : Env)
    (jwt_failure : string -> JwtFailure) (h : Handshake)
  : Async (string + SocketIdentity) :=
  try_catch
    (match handshake_token h with
     | Some token =>
         if JS.truthy token then
           match jwt_verify env token with
           | None =>
               match jwt_failure token with
               | JsonWebTokenError =>
                   mret (inl "Authentication error: Invalid token")
               | TokenExpiredError =>
                   mret (inl "Authentication error: Token expired")
               | OtherJwtError message => throw message
               end
           | Some userId =>
               found ← User_findById_populated userId;
               match found with
               | Some (user, populated) =>
                   if negb (user_isActive user) then
                     mret (inl "Authentication error: Invalid or inactive user")
                   else
                     match populated with
                     | Some tenant =>
                         if tenant_isActive tenant then
                           mret (inr {| sock_userId := userId;
                                        sock_userRole := user_role user;
                                        sock_tenantId := user_tenantId user |})
                         else
                           mret (inl "Authentication error: Tenant is inactive")
                     | None =>
                         mret (inl "Authentication error: Tenant is inactive")
                     end
               | None =>
                   mret (inl "Authentication error: Invalid or inactive user")
               end
           end
         else mret (inl "Authentication error: No token provided")
     | None => mret (inl "Authentication error: No token provided")
     end)
    (fun error => mret (inl ("Authentication error: " +:+ error))).

(** A connected socket: who it is and the rooms this code put it in.
    (The room socket.io opens for each socket under the socket's own id
    takes no part: the emitters address tenant rooms only.) *)
Record Socket := {
  socket_who : SocketIdentity;
  socket_rooms : gset string;
}.

Inductive ClientMessage :=
| join_room (roomName : string)
| leave_room (roomName : string).

Inductive Reply :=
| connected (tenantId room : string)
| room_joined (room : string)
| room_error (message : string)
| room_left (room : string).

(** The handler of ['connection']. *)
Definition on_connection (who : SocketIdentity) : Socket * Reply :=
  let room := tenantRoom (sock_tenantId who) in
  ({| socket_who := who; socket_rooms := {[ room ]} |},
   connected (sock_tenantId who) room).

(** The handlers of ['join_room'] and ['leave_room']. *)
Definition on_message (s : Socket) (m : ClientMessage) : Socket * Reply :=
  match m with
  | join_room roomName =>
      if JS.startsWith roomName (tenantRoom (sock_tenantId (socket_who s)))
      then ({| socket_who := socket_who s;
               socket_rooms := {[ roomName ]} ∪ socket_rooms s |},
            room_joined roomName)
      else (s, room_error "Unauthorized room access")
  | leave_room roomName =>
      ({| socket_who := socket_who s;
          socket_rooms := socket_rooms s ∖ {[ roomName ]} |},
       room_left roomName)
  end.

(** The socket after a connection and the messages that followed. *)
Definition socket_after (who : SocketIdentity) (ms : list ClientMessage)
  : Socket :=
  foldl (fun s m => (on_message s m).1) (on_connection who).1 ms.

(** The room an event was sent to, and the artifact it is about. *)
Definition event_room (ev : Event) : string :=
  match ev with
  | video_processing_progress room _ _ _ _ => room
  | video_processing_complete room _ _ _ => room
  | video_processing_error room _ _ => room
  end.

Definition event_videoId (ev : Event) : string :=
  match ev with
  | video_processing_progress _ videoId _ _ _ => videoId
  | video_processing_complete _ videoId _ _ => videoId
  | video_processing_error _ videoId _ => videoId
  end.

(** [io.to(room).emit(...)] reaches the sockets that are in the room. *)
Definition delivered_to (s : Socket) (ev : Event) : bool :=
  bool_decide (event_room ev ∈ socket_rooms s).

(** ** [controllers/upload.controller.js]: [uploadVideo], [deleteVideo] *)

(** [req.file] as multer leaves it. *)
Record UploadedFile := {
  f_path : string;
  f_size : Z;
  f_originalname : string;
  f_filename : string;
  f_mimetype : string;
}.

(** The fields of the multipart body that reach the document. *)
Record UploadBody := {
  u_title : option string;
  u_isPublic : option string;
}.

(** The [settings] sub-document of a tenant. *)
Record TenantSettings := {
  maxStorageGB : Z;
  maxVideoSizeMB : Z;
}.

(** The document [Video.create] is given, with the setters and defaults
    of the schema applied.  Of the fields of the schema the model keeps
    those some modelled code reads. *)
Definition new_video (user : ReqUser) (file : UploadedFile)
    (body : UploadBody) : Video :=
  {| title := JSMore.trim (or_else (u_title body) (f_originalname file));
     originalFilename := f_originalname file;
     filePath := f_path file;
     mimeType := f_mimetype file;
     duration := None;
     processingStatus := PENDING;
     processingError := None;
     metadata := None;
     tenantId := ru_tenantId user;
     uploadedBy := ru_id user;
     isPublic := match u_isPublic body with
                 | Some s => String.eqb s "true"
                 | None => false
                 end;
     views := 0 |}.

(** The handler of [uploadVideo]: the file, if it is still there, is
    removed, and the answer is a 500. *)
Definition upload_failed (env : Env) (file : option UploadedFile)
    (error : string) : Async Response :=
  match file with
  | Some f =>
      (if JS.truthy (f_path f) then
         present ← fs_read (f_path f);
         match present with
         | Some _ => fs_unlink (f_path f)
         | None => mret tt
         end
       else mret tt);;
      mret (json500 env "Error uploading video" error)
  | None => mret (json500 env "Error uploading video" error)
  end.

(** [settings] gives the limits of each tenant, [newId] is the id the
    new document gets. *)
Definition uploadVideo (env : Env) (settings : string -> TenantSettings)
    (newId : string) (user : ReqUser) (file : option UploadedFile)
    (body : UploadBody) : Async Response :=
  try_catch
    (match file with
     | None => mret (json 400 "No video file provided")
     | Some f =>
         tenant ← Tenant_findById (ru_tenantId user);
         match tenant with
         | None =>
             fs_unlink (f_path f);;
             mret (json 404 "Tenant not found")
         | Some _ =>
             let limit := maxVideoSizeMB (settings (ru_tenantId user)) in
             let maxSizeBytes := limit * 1024 * 1024 in
             if maxSizeBytes <? f_size f then
               fs_unlink (f_path f);;
               mret (json 400
                       ("File size exceeds tenant limit of " +:+
                        JS.Number_toString (Some limit) +:+ "MB"))
             else
               let video := new_video user f body in
               Video_create newId (f_filename f) video;;
               populate;;
               populate;;
               startProcessing env newId (ru_tenantId user);;
               mret {| status := 201; res_headers := [];
                       res_body :=
                         VideoDoc (Some "Video uploaded successfully")
                           newId video |}
         end
     end)
    (upload_failed env file).

(** [router.post('/upload', authorize('ADMIN', 'EDITOR'),
    ensureTenantAccess, upload.single('video'), handleMulterError,
    uploadVideo)].  The two checks run before multer reads the form:
    [bodyTenant] is the [tenantId] of the body as they find it. *)
Definition route_post_upload (env : Env)
    (settings : string -> TenantSettings) (newId : string) (user : ReqUser)
    (bodyTenant : option string) (file : option UploadedFile)
    (body : UploadBody) : Async Response :=
  authorize [ADMIN; EDITOR] user
    (ensureTenantAccess user bodyTenant
       (uploadVideo env settings newId user file body)).

(** The query of [deleteVideo]: the id, the requester's tenant and, for
    an EDITOR, the requester as uploader (written as a one-clause
    [$or]). *)
Definition delete_query (id : string) (user : ReqUser) : Query :=
  {| q_id := id; q_tenantId := ru_tenantId user;
     q_or := match ru_role user with
             | EDITOR => Some [c_uploadedBy (ru_id user)]
             | _ => None
             end |}.

Definition deleted_answer : Response :=
  {| status := 200; res_headers := [];
     res_body := Json {| success := true;
                         message := "Video deleted successfully";
                         j_processingStatus := None;
                         j_processingError := None; j_error := None |} |}.

(** No document ever gets a [thumbnailPath], so that branch is left
    out. *)
Definition deleteVideo (env : Env) (id : string) (user : ReqUser)
  : Async Response :=
  try_catch
    (found ← Video_findOne (delete_query id user);
     match found with
     | None => mret (json 404 "Video not found or access denied")
     | Some video =>
         present ← fs_read (filePath video);
         match present with
         | Some _ => fs_unlink (filePath video)
         | None => mret tt
         end;;
         Video_deleteOne id;;
         mret deleted_answer
     end)
    (fun error => mret (json500 env "Error deleting video" error)).

(** [router.delete('/:id', authorize('ADMIN', 'EDITOR'),
    ensureTenantAccess, deleteVideo)] *)
Definition route_delete (env : Env) (id : string) (user : ReqUser)
    (bodyTenant : option string) : Async Response :=
  authorize [ADMIN; EDITOR] user
    (ensureTenantAccess user bodyTenant (deleteVideo env id user)).

(** ** [controllers/upload.controller.js]: the query of [getVideos] *)

Inductive ListClause :=
| lc_regex (field regex : string)     (* { field: { $regex, $options: 'i' } } *)
| lc_isPublic (b : bool)
| lc_uploadedBy (u : string).

Record ListQuery := {
  lq_tenantId : string;
  lq_processingStatus : option Status;
  lq_or : option (list ListClause);
}.

(** The query object as [getVideos] builds it from [req.user] and from
    the [status] and [search] parameters. *)
Definition getVideos_query (user : ReqUser) (status search : option string)
  : ListQuery :=
  let filtered :=
    match status with
    | Some s => if JS.truthy s then Status_ofString s else None
    | None => None
    end in
  let searched :=
    match search with
    | Some s => if JS.truthy s
                then Some [lc_regex "title" s; lc_regex "description" s]
                else None
    | None => None
    end in
  {| lq_tenantId := ru_tenantId user;
     lq_processingStatus := filtered;
     lq_or := match ru_role user with
              | VIEWER => Some [lc_isPublic true; lc_uploadedBy (ru_id user)]
              | _ => searched
              end |}.

(** Whether the query selects a document; [regex_hit field regex v] is
    what the database says of a regular expression on a field. *)
Definition list_clause_holds (regex_hit : string -> string -> Video -> bool)
    (v : Video) (c : ListClause) : bool :=
  match c with
  | lc_regex field regex => regex_hit field regex v
  | lc_isPublic b => Bool.eqb (isPublic v) b
  | lc_uploadedBy u => String.eqb (uploadedBy v) u
  end.

Definition list_selects (regex_hit : string -> string -> Video -> bool)
    (q : ListQuery) (v : Video) : bool :=
  String.eqb (tenantId v) (lq_tenantId q) &&
  match lq_processingStatus q with
  | Some st => bool_decide (processingStatus v = st)
  | None => true
  end &&
  match lq_or q with
  | Some cs => existsb (list_clause_holds regex_hit v) cs
  | None => true
  end.

(** The handler.  The page and the count come from the database; which
    of the selected documents make the page, and in which order, is its
    doing: [page_of] stands for [find] with its [sort], [skip] and
    [limit], and answers with an error or with the page.  The pagination
    block of the answer, computed from the parameters and the count, is
    left out. *)
Definition getVideos (env : Env)
    (regex_hit : string -> string -> Video -> bool)
    (page_of : ListQuery -> JS.Num -> JS.Num -> gmap string Video ->
               string + list (string * Video))
    (user : ReqUser) (page limit status search : option string)
  : Async Response :=
  try_catch
    (let page_n :=
       match page with Some p => JS.parseInt p | None => Some 1 end in
     let limit_n :=
       match limit with Some l => JS.parseInt l | None => Some 10 end in
     let skip := JSMore.mul (JS.sub page_n (Some 1)) limit_n in
     let query := getVideos_query user status search in
     found ← db_call (gets (fun w => page_of query skip limit_n (videos w)));
     match found with
     | inl message => throw message
     | inr listed =>
         total ← db_call (gets (fun w =>
                    Z.of_nat (size (filter
                      (fun p => list_selects regex_hit query p.2 = true)
                      (videos w)))));
         mret {| status := 200; res_headers := [];
                 res_body := Listing listed total |}
     end)
    (fun error => mret (json500 env "Error fetching videos" error)).

(** ** [frontend/src/components/Dashboard.jsx]: the progress overlay *)

Record Processing := {
  p_progress : Z;
  p_stage : string;
  p_message : string;
}.

(** The three listeners on the socket, as updates of [processingVideos]. *)
Definition Dashboard_on (prev : gmap string Processing) (ev : Event)
  : gmap string Processing :=
  match ev with
  | video_processing_progress _ videoId progress stage data =>
      <[videoId := {| p_progress := progress; p_stage := stage;
                      p_message := pd_message data |}]> prev
  | video_processing_complete _ videoId _ _ => delete videoId prev
  | video_processing_error _ videoId _ => delete videoId prev
  end.

(** ** [frontend/src/components/VideoCard.jsx]: the duration badge *)

Module Card.

(** [s.padStart(target, '0')] *)
Fixpoint zeros (n : nat) (s : string) : string :=
  match n with
  | O => s
  | S n' => String "0" (zeros n' s)
  end.

Definition padStart (target : nat) (s : string) : string :=
  zeros (target - String.length s) s.

(** What [{video.duration && (<span>...</span>)}] puts on the card: for a
    missing duration nothing, for 0 the number itself, as React renders
    a falsy number, and else minutes and seconds. *)
Inductive Shown :=
| nothing
| number (z : Z)
| text (s : string).

Definition duration_badge (duration : option Z) : Shown :=
  match duration with
  | None => nothing
  | Some 0 => number 0
  | Some d =>
      text (JS.Number_toString (Some (d / 60)) +:+ ":" +:+
            padStart 2 (JS.Number_toString (Some (Z.rem d 60))))
  end.

End Card.

(** * The vocabulary of the further properties *)

(** ** The events of a run, in order *)

Definition events (t : list Obs) : list Event := fst <$> emitted t.

(** The percentages of the progress events. *)
Definition progresses (evs : list Event) : list Z :=
  omap (fun ev => match ev with
                  | video_processing_progress _ _ progress _ _ => Some progress
                  | _ => None
                  end) evs.

(** An event that ends the reporting of a run. *)
Definition closing (ev : Event) : bool :=
  match ev with
  | video_processing_progress _ _ _ _ _ => false
  | _ => true
  end.

(** Strictly ascending percentages between [lo] and 100. *)
Fixpoint ascending_from (lo : Z) (l : list Z) : bool :=
  match l with
  | [] => true
  | p :: rest => (lo <=? p) && (p <=? 100) && ascending_from (p + 1) rest
  end.

(** A document that differs from [v] at most in what processing fills
    in: status, status detail, duration and metadata. *)
Definition processed_from (v d : Video) : Prop :=
  title d = title v /\ originalFilename d = originalFilename v /\
  filePath d = filePath v /\ mimeType d = mimeType v /\
  tenantId d = tenantId v /\ uploadedBy d = uploadedBy v /\
  isPublic d = isPublic v /\ views d = views v.

(** The name holds one of the configured keywords. *)
Definition has_keyword (name : string) : Prop :=
  exists kw, In kw SENSITIVITY_KEYWORDS /\ contains_ci name kw.

(** The draw is below the one-in-ten threshold. *)
Definition unlucky (env : Env) : Prop := (Math_random env < 1 # 10)%Q.

(** ** Sockets *)

(** The events, out of [evs], that reach a socket. *)
Definition received (s : Socket) (evs : list Event) : list Event :=
  List.filter (delivered_to s) evs.

(** The client never asks to leave the room of its own tenant. *)
Definition stays (who : SocketIdentity) (ms : list ClientMessage) : Prop :=
  Forall (fun m => m <> leave_room (tenantRoom (sock_tenantId who))) ms.

(** ** Who a token stands for *)

(** The requester a token identifies in a world: the token verifies, the
    next call to the database is not rejected, the user it names is there
    and active, and so is the user's tenant. *)
Definition identity_of (env : Env) (w : World) (token : string)
  : option ReqUser :=
  match db_faults w with
  | Some _ :: _ => None
  | _ =>
      match jwt_verify env token with
      | None => None
      | Some userId =>
          match users w !! userId with
          | None => None
          | Some user =>
              match tenants w !! user_tenantId user with
              | None => None
              | Some tenant =>
                  if user_isActive user && tenant_isActive tenant
                  then Some {| ru_id := userId; ru_role := user_role user;
                               ru_tenantId := user_tenantId user |}
                  else None
              end
          end
      end
  end.

(** The identity a door let through, if it did. *)
Definition accepted {E A} (o : Outcome (E + A)) : option A :=
  match o with Return (inr a) => Some a | _ => None end.

Definition as_socket (u : ReqUser) : SocketIdentity :=
  {| sock_userId := ru_id u; sock_userRole := ru_role u;
     sock_tenantId := ru_tenantId u |}.

Definition as_triple (u : ReqUser) : string * Role * string :=
  (ru_id u, ru_role u, ru_tenantId u).

(** The requester of a streaming request: the user of the session if a
    middleware set one, else the one the [token] of the query string
    stands for. *)
Definition requester (env : Env) (w : World) (req : Request)
  : option ReqUser :=
  match req_user req with
  | Some u => Some u
  | None =>
      match query_token req with
      | Some token =>
          if JS.truthy token then identity_of env w token else None
      | None => None
      end
  end.

(** ** Uploads *)

(** The size limit of a tenant, in bytes. *)
Definition limit_bytes (settings : string -> TenantSettings)
    (tenant : string) : Z :=
  maxVideoSizeMB (settings tenant) * 1024 * 1024.

Definition too_large_answer (limit : Z) : Response :=
  json 400 ("File size exceeds tenant limit of " +:+
            JS.Number_toString (Some limit) +:+ "MB").

Definition uploaded_answer (newId : string) (doc : Video) : Response :=
  {| status := 201; res_headers := [];
     res_body := VideoDoc (Some "Video uploaded successfully") newId doc |}.

(** ** Deletions *)

(** The requester may delete the document: it is in the requester's
    tenant, and the requester is an ADMIN or the EDITOR who uploaded
    it. *)
Definition may_delete (user : ReqUser) (v : Video) : Prop :=
  tenantId v = ru_tenantId user /\
  (ru_role user = ADMIN \/
   (ru_role user = EDITOR /\ uploadedBy v = ru_id user)).

Definition not_found_answer : Response :=
  json 404 "Video not found or access denied".

(** ** Reading *)

(** The detail read hands the document out to the requester. *)
Definition readable (id : string) (user : ReqUser) (v : Video) : bool :=
  query_matches
    (access_query id (ru_id user) (ru_role user) (ru_tenantId user)) v.

(** The world after [k] detail reads of [id] by [user], one after the
    other. *)
Fixpoint after_reads (env : Env) (id : string) (user : ReqUser) (k : nat)
    (w : World) : World :=
  match k with
  | O => w
  | S k' => after (getVideoById env id user (after_reads env id user k' w))
  end.

(** The body of a status correction. *)
Definition correction (st : string) (detail : option string) : StatusPatch :=
  {| b_processingStatus := st; b_processingError := detail;
     b_tenantId := None |}.

(** ** More concrete worlds *)

Module SampleUploads.

(** The limits a tenant gets by default. *)
Definition settings (tenant : string) : TenantSettings :=
  {| maxStorageGB := 100; maxVideoSizeMB := 500 |}.

Definition file : UploadedFile :=
  {| f_path := "/uploads/video-7.mp4"; f_size := 2048;
     f_originalname := "garden.mp4"; f_filename := "video-7.mp4";
     f_mimetype := "video/mp4" |}.

(** One byte over 500 MB. *)
Definition huge : UploadedFile :=
  {| f_path := "/uploads/video-7.mp4"; f_size := 524288001;
     f_originalname := "garden.mp4"; f_filename := "video-7.mp4";
     f_mimetype := "video/mp4" |}.

Definition body : UploadBody :=
  {| u_title := Some "Garden"; u_isPublic := Some "true" |}.

Definition blank_body : UploadBody :=
  {| u_title := Some "   "; u_isPublic := None |}.

(** The sample world once multer has written the file, with the database
    failing as [faults] says. *)
Definition world_with (faults : list (option string)) : World :=
  with_files (<["/uploads/video-7.mp4" := Sample.bytes 2048]>
                (files Sample.world))
    (with_db_faults faults Sample.world).

Definition world : World := world_with [].

End SampleUploads.

Module SampleSockets.

Definition member : SocketIdentity :=
  {| sock_userId := "u1"; sock_userRole := EDITOR; sock_tenantId := "t1" |}.

Definition progress_of (tenant : string) : Event :=
  video_processing_progress (tenantRoom tenant) "v1" 10 "Extracting Metadata"
    {| pd_message := "Analyzing video file..."; pd_extra := NoExtra |}.

End SampleSockets.

Module SampleReads.

(** The sample artifact made public, so that the VIEWER can read it. *)
Definition shared : Video :=
  {| title := "Holiday"; originalFilename := "holiday.mp4";
     filePath := "/uploads/holiday.mp4"; mimeType := "video/mp4";
     duration := None; processingStatus := PENDING;
     processingError := None; metadata := None;
     tenantId := "t1"; uploadedBy := "u1"; isPublic := true;
     views := 0 |}.

Definition jwt_failure (token : string) : JwtFailure := JsonWebTokenError.

(** The request of the player: the token in the query string, and no
    session. *)
Definition by_token (token id : string) (range : option string) : Request :=
  {| params_id := id; req_user := None; query_token := Some token;
     headers_range := range |}.

End SampleReads.

(** * Properties *)

(** ** Facts about the string primitives *)

Module JSFacts.
Import JS JSSpec.

Lemma append_cons c p s : String c p +:+ s = String c (p +:+ s).
Proof. reflexivity. Qed.

Lemma startsWith_app p s : startsWith (p +:+ s) p = true.
Proof.
  induction p as [|c p IH]; simpl; [reflexivity|].
  destruct (ascii_dec c c); [exact IH | congruence].
Qed.

Lemma drop_app p s : drop (String.length p) (p +:+ s) = s.
Proof. induction p as [|c p IH]; simpl; [reflexivity | exact IH]. Qed.

Lemma replace_first_prefix pat s :
  replace_first_by_empty pat (pat +:+ s) = s.
Proof.
  assert (Hunfold : forall t,
    replace_first_by_empty pat t =
    if startsWith t pat then drop (String.length pat) t
    else match t with
         | EmptyString => EmptyString
         | String c t' => String c (replace_first_by_empty pat t')
         end) by (intros []; reflexivity).
  rewrite Hunfold, startsWith_app. apply drop_app.
Qed.

(** [includes] is the substring relation. *)
Lemma startsWith_spec s p :
  startsWith s p = true <-> exists post, s = p +:+ post.
Proof.
  revert s. induction p as [|a p IH]; intros s; simpl.
  - split; eauto.
  - destruct s as [|b s].
    + split; [discriminate|].
      intros [post H]; rewrite append_cons in H; discriminate.
    + destruct (ascii_dec a b) as [->|Hne].
      * rewrite IH. split; intros [post H]; exists post;
          rewrite append_cons in *; congruence.
      * split; [discriminate|].
        intros [post H]; rewrite append_cons in H; congruence.
Qed.

Lemma includes_spec s sub :
  includes s sub = true <-> exists pre post, s = pre +:+ sub +:+ post.
Proof.
  induction s as [|c s IH]; cbn [includes].
  - rewrite orb_false_r, startsWith_spec. split.
    + intros [post H]. exists EmptyString, post. exact H.
    + intros ([|? pre] & post & H); [eauto | discriminate].
  - rewrite orb_true_iff, startsWith_spec, IH. split.
    + intros [[post H] | (pre & post & H)].
      * exists EmptyString, post. exact H.
      * exists (String c pre), post. rewrite append_cons. congruence.
    + intros ([|c' pre] & post & H).
      * left. exists post. exact H.
      * right. exists pre, post. rewrite append_cons in H. congruence.
Qed.

Lemma split_no_sep sep a :
  all_chars (fun c => negb (bool_decide (c = sep))) a = true ->
  split sep a = [a].
Proof.
  induction a as [|c a IH]; simpl; [reflexivity|].
  rewrite andb_true_iff, negb_true_iff, bool_decide_eq_false.
  intros [Hc Ha]. destruct (ascii_dec c sep); [contradiction|].
  rewrite (IH Ha). reflexivity.
Qed.

Lemma split_at_sep sep a b :
  all_chars (fun c => negb (bool_decide (c = sep))) a = true ->
  split sep (a +:+ String sep b) = a :: split sep b.
Proof.
  induction a as [|c a IH]; simpl.
  - intros _. destruct (ascii_dec sep sep); [reflexivity | congruence].
  - rewrite andb_true_iff, negb_true_iff, bool_decide_eq_false.
    intros [Hc Ha]. destruct (ascii_dec c sep); [contradiction|].
    rewrite (IH Ha). reflexivity.
Qed.

Lemma all_chars_impl (P Q : ascii -> bool) s :
  (forall c, P c = true -> Q c = true) ->
  all_chars P s = true -> all_chars Q s = true.
Proof.
  intros HPQ. induction s as [|c s IH]; simpl; [reflexivity|].
  rewrite !andb_true_iff. intros [Hc Hs]. auto.
Qed.

Lemma uint_value_pos d p :
  uint_value d (Z.pos p) = Z.pos (Pos.of_uint_acc d p).
Proof.
  revert p. induction d; intros p; cbn [uint_value Pos.of_uint_acc];
    [reflexivity | rewrite <- IHd; f_equal; lia ..].
Qed.

Lemma uint_value_0 d : uint_value d 0 = Z.of_N (Pos.of_uint d).
Proof.
  induction d; cbn [uint_value Pos.of_uint Z.of_N];
    [reflexivity | exact IHd | apply (uint_value_pos d) ..].
Qed.

Lemma parse_digits_step c d s acc :
  is_digit c = Some d ->
  parse_digits (String c s) acc
  = parse_digits s (Some (10 * default 0 acc + d)).
Proof. intros H. cbn [parse_digits]. rewrite H. reflexivity. Qed.

Lemma parse_digits_uint d a :
  parse_digits (NilEmpty.string_of_uint d) (Some a) = Some (uint_value d a).
Proof.
  revert a; induction d; intros a;
    cbn [NilEmpty.string_of_uint uint_value]; [reflexivity | ..];
    (erewrite parse_digits_step by (vm_compute; reflexivity));
    rewrite IHd; do 2 f_equal; cbn [default from_option id]; unfold id; lia.
Qed.

Lemma parse_digits_uint_start d :
  d <> Decimal.Nil ->
  parse_digits (NilEmpty.string_of_uint d) None = Some (uint_value d 0).
Proof.
  destruct d; intros Hd; [congruence | ..];
    cbn [NilEmpty.string_of_uint uint_value];
    (erewrite parse_digits_step by (vm_compute; reflexivity));
    apply parse_digits_uint.
Qed.

Lemma string_of_uint_digits d :
  all_chars digit_char (NilEmpty.string_of_uint d) = true.
Proof.
  induction d; cbn [NilEmpty.string_of_uint all_chars];
    [reflexivity | rewrite IHd; vm_compute; reflexivity ..].
Qed.

Lemma to_uint_not_nil n : N.to_uint n <> Decimal.Nil.
Proof.
  destruct n as [|p]; [discriminate|]. cbn.
  intros H. pose proof (DecimalPos.Unsigned.of_to p) as Hp.
  rewrite H in Hp. discriminate.
Qed.

Lemma dec_digits n : all_chars digit_char (dec n) = true.
Proof. apply string_of_uint_digits. Qed.

Lemma dec_not_empty n : truthy (dec n) = true.
Proof.
  unfold dec. pose proof (to_uint_not_nil n) as H.
  destruct (N.to_uint n); [congruence | reflexivity ..].
Qed.

Lemma parse_digits_dec n : parse_digits (dec n) None = Some (Z.of_N n).
Proof.
  unfold dec. rewrite parse_digits_uint_start by apply to_uint_not_nil.
  rewrite uint_value_0. change (Pos.of_uint ?d) with (N.of_uint d).
  now rewrite DecimalN.Unsigned.of_to.
Qed.

(** A string of digits starts neither with white space nor with a
    sign, so [parseInt] reads it as it stands. *)
Lemma parseInt_digits s :
  all_chars digit_char s = true -> parseInt s = parse_digits s None.
Proof.
  destruct s as [|c s]; [reflexivity|].
  cbn [all_chars]. rewrite andb_true_iff. intros [Hc _].
  unfold parseInt. cbn [trimStart].
  destruct c as [[] [] [] [] [] [] [] []];
    vm_compute in Hc; try discriminate Hc; reflexivity.
Qed.

(** Reading back what was printed. *)
Lemma parseInt_dec n : parseInt (dec n) = Some (Z.of_N n).
Proof. rewrite parseInt_digits by apply dec_digits. apply parse_digits_dec. Qed.

Lemma dec_no_dash n :
  all_chars (fun c => negb (bool_decide (c = "-"%char))) (dec n) = true.
Proof.
  eapply all_chars_impl; [|apply dec_digits].
  intros c Hc. apply negb_true_iff, bool_decide_eq_false. intros ->.
  vm_compute in Hc. discriminate Hc.
Qed.

Lemma Number_toString_nonneg z :
  0 <= z -> Number_toString (Some z) = dec (Z.to_N z).
Proof.
  intros Hz. unfold Number_toString.
  destruct (Z.ltb_spec z 0); [lia | reflexivity].
Qed.

End JSFacts.

(** ** Reasoning about runs *)

Section WpRules.
Context {A B : Type}.

Lemma wp_run (m : Async A) w Q :
  Q (outcome (m w)) (after (m w)) (trace (m w)) -> wp m w Q.
Proof. exact id. Qed.

Lemma wp_ret (a : A) w Q : Q (Return a) w [] -> wp (mret a) w Q.
Proof. exact id. Qed.

Lemma wp_throw e w (Q : Outcome A -> World -> list Obs -> Prop) :
  Q (Throw e) w [] -> wp (throw e) w Q.
Proof. exact id. Qed.

Lemma wp_gets (f : World -> A) w Q :
  Q (Return (f w)) w [] -> wp (gets f) w Q.
Proof. exact id. Qed.

Lemma wp_bind (m : Async A) (k : A -> Async B) w Q :
  wp m w (fun o w' t =>
    match o with
    | Return a => wp (k a) w' (fun o' w'' t' => Q o' w'' (t ++ t'))
    | Throw e => Q (Throw e) w' t
    end) ->
  wp (m ≫= k) w Q.
Proof.
  unfold wp, mbind, Async_bind. cbn.
  destruct (outcome (m w)); cbn; auto.
Qed.

Lemma wp_try_catch (m : Async A) h w Q :
  wp m w (fun o w' t =>
    match o with
    | Return a => Q (Return a) w' t
    | Throw e => wp (h e) w' (fun o' w'' t' => Q o' w'' (t ++ t'))
    end) ->
  wp (try_catch m h) w Q.
Proof.
  unfold wp, try_catch. cbn.
  destruct (outcome (m w)) eqn:E; cbn; [rewrite E|]; auto.
Qed.

Lemma with_db_faults_same w : with_db_faults (db_faults w) w = w.
Proof. destruct w; reflexivity. Qed.

(** Any call may be rejected or go through; what is left of the schedule
    is not known. *)
Lemma wp_db_call (op : Async A) w Q :
  (forall fs e, Q (Throw e) (with_db_faults fs w) []) ->
  (forall fs, wp op (with_db_faults fs w) Q) ->
  wp (db_call op) w Q.
Proof.
  intros Hf Hok. unfold wp, db_call.
  destruct (db_faults w) as [|[e|] rest] eqn:E.
  - specialize (Hok []). rewrite <- E, with_db_faults_same in Hok.
    exact Hok.
  - apply Hf.
  - apply Hok.
Qed.

(** Without faults every call goes through, and no fault appears. *)
Lemma wp_db_call_ok (op : Async A) w Q :
  no_faults w ->
  (forall fs, Forall (fun f => f = None) fs ->
              wp op (with_db_faults fs w) Q) ->
  wp (db_call op) w Q.
Proof.
  unfold no_faults. intros Hnf Hok. unfold wp, db_call.
  destruct (db_faults w) as [|[e|] rest] eqn:E.
  - specialize (Hok [] Hnf).
    rewrite <- E, with_db_faults_same in Hok. exact Hok.
  - inversion Hnf; discriminate.
  - apply Hok. inversion Hnf; assumption.
Qed.

End WpRules.

Lemma wp_io_emit ev w Q :
  Q (Return tt) w (if io w then [Emitted ev (videos w)] else []) ->
  wp (io_emit ev) w Q.
Proof. exact id. Qed.

Arguments JS.Math_round : simpl never.
Arguments tenantRoom : simpl never.
Arguments show_dim : simpl never.
Arguments or_else : simpl never.

(** Projections of an updated world and of an updated document. *)
Ltac wsimpl :=
  cbn beta iota delta [outcome after trace io videos users tenants files
                       db_faults object_ids with_videos with_db_faults
                       title originalFilename filePath mimeType duration
                       processingStatus processingError metadata tenantId
                       uploadedBy isPublic views
                       set_processingStatus set_processingError set_duration
                       set_metadata set_views].

(** A document that was changed is not the document it was. *)
Ltac changed :=
  let H := fresh in
  intros H;
  first [ apply (f_equal processingStatus) in H; cbn in H; congruence
        | apply (f_equal views) in H; cbn in H; lia ].

(** One step of symbolic execution, whatever the database does. *)
Ltac wp_head :=
  lazymatch goal with
  | |- wp (try_catch _ _) _ _ => apply wp_try_catch
  | |- wp (mbind _ _) _ _ => apply wp_bind
  | |- wp (mret _) _ _ => apply wp_ret
  | |- wp (throw _) _ _ => apply wp_throw
  | |- wp (gets _) _ _ => apply wp_gets
  | |- wp (io_emit _) _ _ => apply wp_io_emit
  | |- wp (match <[_:=_]> _ !! _ with _ => _ end) _ _ =>
      rewrite lookup_insert_eq        (* reading back what was stored *)
  | |- wp (if bool_decide (?a = ?b) then _ else _) _ _ =>
      first [ rewrite (bool_decide_eq_false_2 (a = b)) by changed
            | destruct (bool_decide (a = b)) eqn:? ]
  | |- wp (match ?x with _ => _ end) _ _ =>
      first [ match goal with H : x = _ |- _ => rewrite H end  (* known *)
            | destruct x eqn:? ]
  | |- wp (by_id _ _) _ _ => unfold by_id
  | |- wp (Video_findById _) _ _ => unfold Video_findById
  | |- wp (Video_findOne _) _ _ => unfold Video_findOne
  | |- wp (User_findById_populated _) _ _ => unfold User_findById_populated
  | |- wp (Video_save _ _ _) _ _ => unfold Video_save
  | |- wp (emitProgress _ _ _ _ _) _ _ => unfold emitProgress
  | |- wp (emitCompletion _ _ _ _) _ _ => unfold emitCompletion
  | |- wp (emitError _ _ _) _ _ => unfold emitError
  | |- wp (extractMetadata _ _) _ _ => unfold extractMetadata
  | |- wp (fs_read _) _ _ => unfold fs_read
  | |- wp (simulateAISensitivityScan _ _) _ _ =>
      unfold simulateAISensitivityScan
  | |- wp (resolve_identity _ _) _ _ => unfold resolve_identity
  | |- wp (stream_found _ _) _ _ => unfold stream_found
  | |- wp (serve_file _ _ _) _ _ => unfold serve_file
  | |- wp (fs_createReadStream _ _ _) _ _ => unfold fs_createReadStream
  | |- wp (authorize _ _ _) _ _ => unfold authorize
  | |- wp (ensureTenantAccess _ _ _) _ _ => unfold ensureTenantAccess
  | |- wp (fun w => _) _ _ => apply wp_run
  end.

Ltac wp_step :=
  first [ wp_head
        | lazymatch goal with
          | |- wp (db_call _) _ _ => apply wp_db_call; [intros ? ? | intros ?]
          end ];
  wsimpl.

(** The same when the database is known not to fail. *)
Ltac wp_step_ok :=
  first [ wp_head
        | lazymatch goal with
          | |- wp (db_call _) _ _ =>
              apply wp_db_call_ok;
              [unfold no_faults; wsimpl; assumption | intros ? ?]
          end ];
  wsimpl.

(** A save that sent nothing: the document is the one that was read. *)
Ltac unchanged :=
  repeat match goal with
  | H : bool_decide (?a = ?b) = true |- _ =>
      apply bool_decide_eq_true in H;
      let Hs := fresh "Hsame" in
      pose proof (f_equal processingStatus H) as Hs; cbn in Hs;
      let Hd := fresh "Hdetail" in
      pose proof (f_equal processingError H) as Hd; cbn in Hd
  end.

(** What is left to show once a run has been executed symbolically. *)
Ltac leaf :=
  simplify_eq; unchanged; destruct (io _); cbn;
  rewrite ?lookup_insert_eq;
  repeat match goal with H : videos _ !! _ = _ |- _ => rewrite H end;
  cbn.

(** ** Stepping through the rest of the code *)

(** A statement about the run of [m] from [w], as a [wp]. *)
Ltac run_of m w :=
  pattern (outcome (m w)), (after (m w)), (trace (m w));
  lazymatch goal with |- ?Q _ _ _ => change (wp m w Q) end.

Ltac wsimpl_more :=
  cbn beta iota delta [outcome after trace io videos users tenants files
                       db_faults object_ids with_videos with_db_faults
                       with_files
                       title originalFilename filePath mimeType duration
                       processingStatus processingError metadata tenantId
                       uploadedBy isPublic views
                       set_processingStatus set_processingError set_duration
                       set_metadata set_views
                       SampleRequests.fetch params_id req_user query_token
                       headers_range correction b_processingStatus
                       b_processingError b_tenantId].

Ltac wp_more :=
  lazymatch goal with
  | |- wp (Tenant_findById _) _ _ => unfold Tenant_findById
  | |- wp populate _ _ => unfold populate
  | |- wp (Video_deleteOne _) _ _ => unfold Video_deleteOne
  | |- wp (Video_create _ _ _) _ _ => unfold Video_create
  | |- wp (fs_unlink _) _ _ => unfold fs_unlink
  | |- wp (upload_failed _ _ _) _ _ => unfold upload_failed
  | |- wp (startProcessing _ _ _) _ _ => unfold startProcessing
  | |- wp (processVideo _ _ _) _ _ => unfold processVideo
  | |- wp (getVideoById _ _ _) _ _ => unfold getVideoById
  | |- wp (streamVideo _ _) _ _ => unfold streamVideo
  | |- wp (deleteVideo _ _ _) _ _ => unfold deleteVideo
  | |- wp (uploadVideo _ _ _ _ _ _) _ _ => unfold uploadVideo
  | |- wp (updateProcessingStatus _ _ _ _) _ _ =>
      unfold updateProcessingStatus
  end.

(** One step, whatever the database does, and one when it rejects
    nothing. *)
Ltac step :=
  first [ wp_head | wp_more
        | lazymatch goal with
          | |- wp (db_call _) _ _ => apply wp_db_call; [intros ? ? | intros ?]
          end ];
  wsimpl_more.

Ltac step_ok :=
  first [ wp_head | wp_more
        | lazymatch goal with
          | |- wp (db_call _) _ _ =>
              apply wp_db_call_ok;
              [unfold no_faults; wsimpl_more; assumption | intros ? ?]
          end ];
  wsimpl_more.

(** A call under a known schedule. *)
Lemma wp_db_call_next {A} (op : Async A) w Q :
  match db_faults w with
  | Some e :: rest => Q (Throw e) (with_db_faults rest w) []
  | None :: rest => wp op (with_db_faults rest w) Q
  | [] => wp op w Q
  end ->
  wp (db_call op) w Q.
Proof. unfold wp, db_call. destruct (db_faults w) as [|[e|] rest]; auto. Qed.

Ltac step_next :=
  first [ wp_head | wp_more
        | lazymatch goal with
          | |- wp (db_call _) _ _ =>
              apply wp_db_call_next; wsimpl_more;
              repeat match goal with
                | H : db_faults _ = _ |- _ => rewrite H
                end;
              cbn beta iota
          end ];
  wsimpl_more.

(** ** The status state machine of a run (C1) *)

Lemma run_sequences env id tenant w v :
  videos w !! id = Some v -> processingStatus v = PENDING ->
  wp (processVideo env id tenant) w (fun _ w' t =>
    Forall (fun p => p.1 = id) (saves t) /\
    In (status_sequence v t) forward_sequences /\
    processingStatus <$> (videos w' !! id) = last (status_sequence v t)).
Proof.
  intros Hv Hp.
  unfold processVideo, status_sequence, persisted_statuses, forward_sequences.
  repeat wp_step.
  all: leaf; rewrite ?Hp.
  all: split; [repeat constructor | split; [tauto | reflexivity]].
Qed.

(** On an artifact that does not show PROCESSING yet, a run that the
    database does not fail stores PROCESSING and then one terminal
    status. *)
Lemma run_stores_twice env id tenant w v :
  videos w !! id = Some v -> processingStatus v <> PROCESSING ->
  no_faults w ->
  wp (processVideo env id tenant) w (fun _ w' t =>
    hd_error t = Some (Saved id (set_processingStatus PROCESSING v)) /\
    (persisted_statuses t = [PROCESSING; COMPLETED] \/
     persisted_statuses t = [PROCESSING; FLAGGED])).
Proof.
  intros Hv Hne Hnf. unfold processVideo, persisted_statuses.
  repeat wp_step_ok.
  all: leaf; auto.
Qed.

(** C1, as the code has it: a run on a PENDING artifact stores only under
    the artifact's id; the statuses the collection shows are PENDING, then
    PROCESSING, then at most one terminal status, or FLAGGED directly when
    the save of PROCESSING was rejected; the last of them is the status
    the collection holds at the end; and when no database call is rejected
    the sequence is exactly PENDING, PROCESSING, COMPLETED or PENDING,
    PROCESSING, FLAGGED, the failure of a stage included. *)
Theorem status_sequence_of_a_run env id tenant w v :
  videos w !! id = Some v -> processingStatus v = PENDING ->
  let r := processVideo env id tenant w in
  Forall (fun p => p.1 = id) (saves (trace r)) /\
  In (status_sequence v (trace r)) forward_sequences /\
  processingStatus <$> (videos (after r) !! id)
    = last (status_sequence v (trace r)) /\
  (no_faults w -> In (status_sequence v (trace r)) claimed_sequences).
Proof.
  intros Hv Hp r.
  destruct (run_sequences env id tenant w v Hv Hp) as (H1 & H2 & H3).
  repeat split; try assumption.
  intros Hnf.
  assert (Hne : processingStatus v <> PROCESSING)
    by (rewrite Hp; discriminate).
  destruct (run_stores_twice env id tenant w v Hv Hne Hnf) as (_ & H).
  unfold status_sequence, claimed_sequences. rewrite Hp.
  fold r in H. destruct H as [-> | ->]; simpl; auto.
Qed.

Lemma status_sequence_of_a_run_witness :
  In (status_sequence Sample.clip
        (trace (processVideo Sample.env "v1" "t1" Sample.world)))
     claimed_sequences.
Proof.
  apply (status_sequence_of_a_run Sample.env "v1" "t1" Sample.world
           Sample.clip); [reflexivity | reflexivity |].
  constructor.
Defined.

(** The find succeeds, the save of PROCESSING is rejected, the handler's
    own find and save go through: FLAGGED follows PENDING directly. *)
Lemma status_sequence_skips_processing :
  let w := Sample.world_with Sample.clip [None; Some "connection lost"] in
  videos w !! "v1" = Some Sample.clip /\
  processingStatus Sample.clip = PENDING /\
  status_sequence Sample.clip (trace (processVideo Sample.env "v1" "t1" w))
    = [PENDING; FLAGGED] /\
  ~ In (status_sequence Sample.clip
          (trace (processVideo Sample.env "v1" "t1" w)))
       claimed_sequences.
Proof.
  repeat split; try reflexivity.
  vm_compute. intros [H | [H | []]]; discriminate H.
Qed.

(** ** Broadcasts and what is persisted when they are sent (C2) *)

Lemma run_status_persisted env id tenant w :
  wp (processVideo env id tenant) w (fun _ _ t =>
    Forall (fun p => status_persisted p.1 p.2) (emitted t) /\
    Forall (metadata_pending (videos w)) (emitted t)).
Proof.
  unfold processVideo. repeat wp_step.
  all: leaf.
  all: split; repeat constructor; cbn;
    unfold persisted_status; rewrite ?lookup_insert_eq; eauto.
  all: repeat match goal with H : videos _ !! _ = _ |- _ => rewrite H end.
  all: try (cbn; congruence).
  all: eexists; split; [reflexivity | congruence].
Qed.

Lemma run_failure_persisted env id tenant w v :
  videos w !! id = Some v -> no_faults w ->
  wp (processVideo env id tenant) w (fun _ _ t =>
    Forall (fun p => failure_persisted p.1 p.2) (emitted t)).
Proof.
  intros Hv Hnf. unfold processVideo. repeat wp_step_ok.
  all: leaf.
  all: repeat constructor; cbn; rewrite ?lookup_insert_eq; eauto.
  all: congruence.
Qed.

(** C2, as the code has it: in every run each progress event below 100% is
    sent while the collection holds PROCESSING, the 100% event and the
    completion event are sent while it holds the terminal status they
    announce, the completion payload being read off the stored document;
    the metadata carried by the "Metadata Extracted" event is not stored
    yet at that moment, the document being the one the run found, marked
    PROCESSING; and a failure event reports a FLAGGED status that is stored
    whenever the artifact exists and the database rejects no call. *)
Theorem broadcasts_announce_persisted_status env id tenant w :
  let r := processVideo env id tenant w in
  Forall (fun p => status_persisted p.1 p.2) (emitted (trace r)) /\
  Forall (metadata_pending (videos w)) (emitted (trace r)) /\
  (forall v, videos w !! id = Some v -> no_faults w ->
     Forall (fun p => failure_persisted p.1 p.2) (emitted (trace r))).
Proof.
  intros r.
  destruct (run_status_persisted env id tenant w) as [H1 H2].
  split; [exact H1 | split; [exact H2 |]].
  intros v Hv Hnf. exact (run_failure_persisted env id tenant w v Hv Hnf).
Qed.

Lemma broadcasts_announce_persisted_status_witness :
  Forall (fun p => failure_persisted p.1 p.2)
    (emitted (trace (processVideo Sample.env "v1" "t1" Sample.world))).
Proof.
  apply (broadcasts_announce_persisted_status Sample.env "v1" "t1"
           Sample.world) with (v := Sample.clip);
    [reflexivity | constructor].
Defined.

(** In a run where nothing fails, the third event sent announces a
    duration and a codec while the stored document has neither. *)
Lemma metadata_announced_before_saved :
  ~ Forall announced_is_persisted
      (emitted (trace (processVideo Sample.env "v1" "t1" Sample.world))).
Proof.
  intros H.
  pose proof (Forall_lookup_1 _ _ 2%nat _ H eq_refl) as (_ & Hm & _).
  destruct Hm as (d & m & Hd & Hdur & _).
  vm_compute in Hd. injection Hd as <-. discriminate Hdur.
Qed.

(** ** Failures inside a run (C8) *)

Lemma run_returns env id tenant w :
  wp (processVideo env id tenant) w (fun o _ t =>
    o = Return tt /\ (length (failures t) <= 1)%nat).
Proof.
  unfold processVideo. repeat wp_step.
  all: leaf; split; (reflexivity || lia).
Qed.











(** ** Starting again on an artifact that is being processed (C9) *)

(** Without faults a call to the database runs its operation and uses up
    one entry of the schedule, if there is one. *)
Lemma db_call_ok {A} (op : Async A) w :
  no_faults w -> db_call op w = op (with_db_faults (tail (db_faults w)) w).
Proof.
  unfold no_faults, db_call. intros Hnf.
  destruct (db_faults w) as [|[e|] rest] eqn:E; cbn [tail].
  - rewrite <- E, with_db_faults_same. reflexivity.
  - inversion Hnf; discriminate.
  - reflexivity.
Qed.

Lemma bind_after_return {A B} (m : Async A) (k : A -> Async B) w a w' :
  m w = {| outcome := Return a; after := w'; trace := [] |} ->
  (m ≫= k) w = k a w'.
Proof.
  unfold mbind, Async_bind. intros ->. cbn. destruct (k a w'); reflexivity.
Qed.

Lemma bind_same_run {A B} (m : Async A) (k : A -> Async B) w1 w2 :
  m w1 = m w2 -> (m ≫= k) w1 = (m ≫= k) w2.
Proof. unfold mbind, Async_bind. intros ->. reflexivity. Qed.

Lemma try_catch_same_run {A} (m : Async A) h w1 w2 :
  m w1 = m w2 -> try_catch m h w1 = try_catch m h w2.
Proof. unfold try_catch. intros ->. reflexivity. Qed.

(** A run on an artifact that shows PROCESSING, beside the run the same
    artifact gets when it shows PENDING. *)
Lemma rerun_matches_first_start env id tenant w v :
  videos w !! id = Some v -> processingStatus v = PROCESSING ->
  no_faults w ->
  let r := processVideo env id tenant w in
  let first_start :=
    processVideo env id tenant (with_status id PENDING v w) in
  events (trace r) = events (trace first_start) /\
  videos (after r) = videos (after first_start) /\
  (exists d, saves (trace r) = [(id, d)] /\
             terminal (processingStatus d) = true) /\
  (io w = true ->
   hd_error (events (trace r))
   = Some (video_processing_progress (tenantRoom tenant) id 0 "Initializing"
             {| pd_message := "Video processing started";
                pd_extra := NoExtra |})).
Proof.
  intros Hv Hp Hnf r first_start. subst r first_start.
  assert (Hsame : set_processingStatus PROCESSING v = v)
    by (destruct v; cbn in *; subst; reflexivity).
  assert (Hnoop : bool_decide (set_processingStatus PROCESSING v = v) = true)
    by (apply bool_decide_eq_true; exact Hsame).
  assert (Hnf' : no_faults (with_status id PENDING v w)) by exact Hnf.
  pattern (outcome (processVideo env id tenant w)),
          (after (processVideo env id tenant w)),
          (trace (processVideo env id tenant w)).
  lazymatch goal with
  | |- ?Q _ _ _ => change (wp (processVideo env id tenant) w Q)
  end.
  unfold processVideo at 1.
  repeat wp_step_ok.
  all: simplify_eq.
  all: pattern
         (outcome (processVideo env id tenant (with_status id PENDING v w))),
         (after (processVideo env id tenant (with_status id PENDING v w))),
         (trace (processVideo env id tenant (with_status id PENDING v w))).
  all: lazymatch goal with
       | |- ?Q _ _ _ =>
           change (wp (processVideo env id tenant)
                     (with_status id PENDING v w) Q)
       end.
  all: unfold processVideo, with_status.
  all: repeat wp_step_ok.
  all: simplify_eq; destruct (io w); cbn.
  all: rewrite ?insert_insert_eq.
  all: split; [reflexivity | split; [reflexivity|]].
  all: split; [eexists; split; reflexivity|].
  all: intros Hio; try discriminate Hio; reflexivity.
Qed.

(** C9, as the code has it: a start on an artifact that shows PROCESSING
    is neither rejected nor ignored.  The run does not look at the status
    it finds: when the database rejects no call, the stages run again
    from the start, the run reports the events, and leaves the
    collection, of the run the artifact gets when it shows PENDING.  Its
    first save sends nothing, the status being PROCESSING already, and
    its last stores a terminal status: the record is written once. *)
Theorem start_on_processing_runs_again env id tenant w v :
  videos w !! id = Some v -> processingStatus v = PROCESSING ->
  no_faults w ->
  let r := startProcessing env id tenant w in
  let first_start :=
    startProcessing env id tenant (with_status id PENDING v w) in
  events (trace r) = events (trace first_start) /\
  videos (after r) = videos (after first_start) /\
  (exists d, saves (trace r) = [(id, d)] /\
             terminal (processingStatus d) = true) /\
  (io w = true ->
   hd_error (events (trace r))
   = Some (video_processing_progress (tenantRoom tenant) id 0 "Initializing"
             {| pd_message := "Video processing started";
                pd_extra := NoExtra |})) /\
  ~ is_no_op w r.
Proof.
  intros Hv Hp Hnf r first_start.
  assert (Hr : r = processVideo env id tenant w).
  { unfold r, startProcessing, try_catch.
    destruct (run_returns env id tenant w) as [-> _]. reflexivity. }
  assert (Hf : first_start
               = processVideo env id tenant (with_status id PENDING v w)).
  { unfold first_start, startProcessing, try_catch.
    destruct (run_returns env id tenant (with_status id PENDING v w))
      as [-> _]. reflexivity. }
  rewrite Hr, Hf.
  destruct (rerun_matches_first_start env id tenant w v Hv Hp Hnf)
    as (H1 & H2 & H3 & H4).
  split; [exact H1 | split; [exact H2 | split; [exact H3 | split]]].
  - exact H4.
  - intros [Ht _]. destruct H3 as (d & Hd & _).
    rewrite Ht in Hd. discriminate Hd.
Qed.

Lemma start_on_processing_runs_again_witness :
  let w := Sample.world_with
             (set_processingStatus PROCESSING Sample.clip) [] in
  exists d, saves (trace (startProcessing Sample.env "v1" "t1" w))
            = [("v1", d)] /\
            terminal (processingStatus d) = true.
Proof.
  apply (start_on_processing_runs_again Sample.env "v1" "t1"
           (Sample.world_with (set_processingStatus PROCESSING Sample.clip) [])
           (set_processingStatus PROCESSING Sample.clip));
    [reflexivity | reflexivity | constructor].
Defined.

(** A second start while the first run has stored PROCESSING: the events
    are sent again and the record is written. *)
Lemma second_start_is_not_a_no_op :
  let w := Sample.world_with
             (set_processingStatus PROCESSING Sample.clip) [] in
  let r := startProcessing Sample.env "v1" "t1" w in
  processingStatus <$> videos w !! "v1" = Some PROCESSING /\
  length (saves (trace r)) = 1%nat /\
  length (emitted (trace r)) = 8%nat /\
  processingStatus <$> videos (after r) !! "v1" = Some COMPLETED /\
  ~ is_no_op w r.
Proof.
  intros w r.
  split; [reflexivity | split; [reflexivity | split; [reflexivity |]]].
  split; [reflexivity|].
  intros [H _]. vm_compute in H. discriminate H.
Qed.

(** ** The keyword rule (C7) *)

Lemma keyword_in_spec name kw :
  keyword_in (JS.toLowerCase name) kw = true <-> contains_ci name kw.
Proof. apply JSFacts.includes_spec. Qed.






(** ** Who writes the record (C10) *)

Ltac read_only_leaf :=
  unfold read_only, same_data; wsimpl; eauto 10.

Lemma resolve_identity_pure env req w :
  wp (resolve_identity env req) w (read_only w).
Proof. repeat wp_step; read_only_leaf. Qed.

Lemma streamVideo_read_only env req w :
  wp (streamVideo env req) w (read_only w).
Proof. unfold streamVideo. repeat wp_step; read_only_leaf. Qed.

Lemma getStreamInfo_read_only env id user w :
  wp (getStreamInfo env id user) w (read_only w).
Proof. unfold getStreamInfo. repeat wp_step; read_only_leaf. Qed.

Lemma getVideos_read_only env regex_hit page_of user page limit st search w :
  wp (getVideos env regex_hit page_of user page limit st search) w
    (read_only w).
Proof. unfold getVideos. repeat wp_step; read_only_leaf. Qed.

(** What the query of a reading handler selects, if anything. *)
Lemma selected_is_stored q w v :
  match videos w !! q_id q with
  | Some v => if query_matches q v then Some v else None
  | None => None
  end = Some v ->
  videos w !! q_id q = Some v /\ query_matches q v = true.
Proof.
  destruct (videos w !! q_id q) as [v'|]; [|discriminate].
  destruct (query_matches q v') eqn:E; [|discriminate].
  intros [= ->]. auto.
Qed.

(** The one write of [getVideoById]: the view counter, one up, exactly
    when the read succeeds. *)
Lemma getVideoById_writes env id user w :
  wp (getVideoById env id user) w (fun o w' t =>
    emitted t = [] /\
    forall resp, o = Return resp ->
      (status resp = 200 ->
       exists v, videos w !! id = Some v /\
         saves t = [(id, set_views (views v + 1) v)] /\
         videos w' = <[id := set_views (views v + 1) v]> (videos w)) /\
      (status resp <> 200 -> t = [] /\ videos w' = videos w)).
Proof.
  unfold getVideoById. repeat wp_step.
  all: split; [reflexivity|]; intros resp Hresp; simplify_eq; cbn.
  all: split; [intros Hst; try discriminate Hst | intros Hst; try easy].
  all: match goal with
       | H : match videos _ !! _ with _ => _ end = Some _ |- _ =>
           apply selected_is_stored in H; cbn [q_id access_query] in H;
           destruct H as [H _]
       end.
  all: eexists; split; [eassumption | split; reflexivity].
Qed.

Lemma detail_read_succeeds env id user w v :
  videos w !! id = Some v ->
  query_matches (access_query id (ru_id user) (ru_role user)
                   (ru_tenantId user)) v = true ->
  no_faults w ->
  outcome (getVideoById env id user w)
  = Return {| status := 200; res_headers := [];
              res_body := VideoDoc None id (set_views (views v + 1) v) |}.
Proof.
  intros Hv Hq Hnf.
  set (q := access_query id (ru_id user) (ru_role user) (ru_tenantId user))
    in *.
  assert (Hstored : videos w !! q_id q = Some v) by exact Hv.
  assert (Hfound :
    match videos w !! q_id q with
    | Some v => if query_matches q v then Some v else None
    | None => None
    end = Some v) by (rewrite Hstored, Hq; reflexivity).
  run_of (getVideoById env id user) w.
  unfold getVideoById. fold q.
  repeat wp_step_ok.
  reflexivity.
Qed.

Lemma route_patch_status_writes env id user body w :
  wp (route_patch_status env id user body) w (fun o w' t =>
    emitted t = [] /\
    (ru_role user <> ADMIN -> t = [] /\ videos w' = videos w) /\
    forall resp, o = Return resp ->
      (status resp = 200 ->
       exists v st,
         videos w !! id = Some v /\
         Status_ofString (b_processingStatus body) = Some st /\
         let d := corrected st (b_processingError body) v in
         status_correction_of v d /\
         saves t = (if bool_decide (d = v) then [] else [(id, d)]) /\
         videos w' = <[id := d]> (videos w)) /\
      (status resp <> 200 -> t = [] /\ videos w' = videos w)).
Proof.
  unfold route_patch_status, updateProcessingStatus.
  repeat wp_step.
  all: split; [reflexivity | split].
  all: try (intros _; split; reflexivity).
  all: try (intros Hrole; exfalso;
            match goal with H : bool_decide (_ ∈ _) = true |- _ =>
              apply bool_decide_eq_true in H;
              apply list_elem_of_singleton in H end; contradiction).
  all: intros resp Hresp; simplify_eq; cbn.
  all: split; [intros Hst; try discriminate Hst | intros Hst; try easy].
  all: match goal with
       | H : match videos _ !! _ with _ => _ end = Some _ |- _ =>
           apply selected_is_stored in H; destruct H as [H _]
       end.
  all: cbn [q_id] in *; simplify_eq.
  all: match goal with
       | Hv : videos _ !! _ = Some ?v,
         Hs : Status_ofString (b_processingStatus ?body) = Some ?st |- _ =>
           exists v, st; split; [exact Hv | split; [reflexivity|]];
           change (match b_processingError body with
                   | Some e =>
                       if JS.truthy e
                       then set_processingError e (set_processingStatus st v)
                       else set_processingStatus st v
                   | None => set_processingStatus st v
                   end)
             with (corrected st (b_processingError body) v) in *;
           cbv zeta; split;
           [ unfold corrected, status_correction_of;
             destruct (b_processingError body) as [e|];
             [destruct (JS.truthy e)|]; eauto 10
           | match goal with
             | Hd : bool_decide _ = _ |- _ => rewrite Hd
             end;
             split; [reflexivity|] ]
       end.
  all: try reflexivity.
  all: match goal with
       | Hd : bool_decide _ = true |- _ =>
           apply bool_decide_eq_true in Hd; rewrite Hd;
           symmetry; apply insert_id; assumption
       end.
Qed.

Lemma delete_query_needs id user v :
  bool_decide (ru_role user ∈ [ADMIN; EDITOR]) = true ->
  query_matches (delete_query id user) v = true ->
  may_delete user v.
Proof.
  unfold query_matches, delete_query, may_delete. cbn.
  intros Hin Hq. apply andb_true_iff in Hq as [Ht Hor].
  apply String.eqb_eq in Ht. split; [exact Ht|].
  destruct (ru_role user); cbn in *.
  - left. reflexivity.
  - right. split; [reflexivity|].
    rewrite orb_false_r in Hor. apply String.eqb_eq in Hor. exact Hor.
  - discriminate Hin.
Qed.

(** The one mutation of the delete route: the document is removed,
    exactly when the answer is 200. *)
Lemma route_delete_writes env id user bodyTenant w :
  wp (route_delete env id user bodyTenant) w (fun o w' t =>
    t = [] /\
    forall resp, o = Return resp ->
      (status resp = 200 ->
       exists v, videos w !! id = Some v /\ may_delete user v /\
                 videos w' = delete id (videos w)) /\
      (status resp <> 200 -> videos w' = videos w)).
Proof.
  unfold route_delete.
  repeat step.
  all: split; [reflexivity|]; intros resp Hresp; simplify_eq; cbn.
  all: split; [intros Hst; try discriminate Hst | intros Hst; try easy].
  all: match goal with
       | H : match videos _ !! _ with _ => _ end = Some _ |- _ =>
           apply selected_is_stored in H; destruct H as [H Hq]
       end.
  all: cbn [q_id delete_query] in *; simplify_eq.
  all: eexists; split; [eassumption | split; [|reflexivity]].
  all: eapply delete_query_needs; eassumption.
Qed.

(** C10, as the code has it.  The streaming fetch, the stream-info query
    and the listing never write, whatever the status of the record.  The
    detail read [getVideoById] stores the document with its view counter
    one up exactly when it answers 200, which it does for every
    requester who can read the document when no call is rejected, before
    a terminal status as well as after, and changes nothing else.  The
    status-correction route writes nothing for a requester who is not
    ADMIN; when it answers 200 it has set the status, and the detail if
    one is given, and nothing else, at any status, sending an update
    only if that changes the document.  The delete route removes the
    record exactly when it answers 200, which it does only for an ADMIN
    of the record's tenant or the EDITOR who uploaded it, at any
    status. *)
Theorem record_writers env w :
  (forall req, let r := streamVideo env req w in
     trace r = [] /\ videos (after r) = videos w) /\
  (forall id user, let r := getStreamInfo env id user w in
     trace r = [] /\ videos (after r) = videos w) /\
  (forall regex_hit page_of user page limit st search,
     let r := getVideos env regex_hit page_of user page limit st search w in
     trace r = [] /\ videos (after r) = videos w) /\
  (forall id user, let r := getVideoById env id user w in
     emitted (trace r) = [] /\
     (forall resp, outcome r = Return resp ->
        (status resp = 200 ->
         exists v, videos w !! id = Some v /\
           saves (trace r) = [(id, set_views (views v + 1) v)] /\
           videos (after r)
             = <[id := set_views (views v + 1) v]> (videos w)) /\
        (status resp <> 200 ->
         trace r = [] /\ videos (after r) = videos w)) /\
     (forall v, videos w !! id = Some v ->
        query_matches (access_query id (ru_id user) (ru_role user)
                         (ru_tenantId user)) v = true ->
        no_faults w ->
        outcome r
        = Return {| status := 200; res_headers := [];
                    res_body :=
                      VideoDoc None id (set_views (views v + 1) v) |})) /\
  (forall id user body, let r := route_patch_status env id user body w in
     emitted (trace r) = [] /\
     (ru_role user <> ADMIN -> trace r = [] /\ videos (after r) = videos w) /\
     forall resp, outcome r = Return resp ->
       (status resp = 200 ->
        exists v st,
          videos w !! id = Some v /\
          Status_ofString (b_processingStatus body) = Some st /\
          let d := corrected st (b_processingError body) v in
          status_correction_of v d /\
          saves (trace r) = (if bool_decide (d = v) then [] else [(id, d)]) /\
          videos (after r) = <[id := d]> (videos w)) /\
       (status resp <> 200 ->
        trace r = [] /\ videos (after r) = videos w)) /\
  (forall id user bodyTenant,
     let r := route_delete env id user bodyTenant w in
     trace r = [] /\
     forall resp, outcome r = Return resp ->
       (status resp = 200 ->
        exists v, videos w !! id = Some v /\ may_delete user v /\
                  videos (after r) = delete id (videos w)) /\
       (status resp <> 200 -> videos (after r) = videos w)).
Proof.
  split; [|split; [|split; [|split; [|split]]]].
  - intros req r.
    destruct (streamVideo_read_only env req w) as (Ht & (Hv & _) & _).
    split; assumption.
  - intros id user r.
    destruct (getStreamInfo_read_only env id user w) as (Ht & (Hv & _) & _).
    split; assumption.
  - intros regex_hit page_of user page limit st search r.
    destruct (getVideos_read_only env regex_hit page_of user page limit st
                search w) as (Ht & (Hv & _) & _).
    split; assumption.
  - intros id user r.
    destruct (getVideoById_writes env id user w) as [H1 H2].
    split; [exact H1 | split; [exact H2|]].
    intros v Hv Hq Hnf. exact (detail_read_succeeds env id user w v Hv Hq Hnf).
  - intros id user body r. exact (route_patch_status_writes env id user body w).
  - intros id user bodyTenant r.
    exact (route_delete_writes env id user bodyTenant w).
Qed.

Lemma record_writers_witness :
  let r := getVideoById Sample.env "v1" SampleRequests.editor Sample.world in
  saves (trace r) = [("v1", set_views 1 Sample.clip)] /\
  let patch := {| b_processingStatus := "COMPLETED";
                  b_processingError := None; b_tenantId := None |} in
  let r' := route_patch_status Sample.env "v1" SampleRequests.editor patch
              Sample.world in
  trace r' = [] /\ videos (after r') = videos Sample.world.
Proof.
  split.
  - destruct (record_writers Sample.env Sample.world)
      as (_ & _ & _ & Hread & _).
    destruct (Hread "v1" SampleRequests.editor) as (_ & Hwrites & Hok).
    destruct (Hwrites _ (Hok Sample.clip eq_refl eq_refl
                           ltac:(constructor))) as [H200 _].
    destruct (H200 eq_refl) as (v & Hv & Hs & _).
    injection Hv as <-. exact Hs.
  - intros patch r'.
    apply (record_writers Sample.env Sample.world). discriminate.
Defined.

(** Two writes the specification does not allow.  A detail read of a
    PENDING artifact stores the document.  And the delete route, called
    by an EDITOR on a COMPLETED artifact of their own, removes the
    record. *)
Lemma read_writes_before_terminal :
  (let r := getVideoById Sample.env "v1" SampleRequests.editor
              Sample.world in
   processingStatus <$> videos Sample.world !! "v1" = Some PENDING /\
   saves (trace r) = [("v1", set_views 1 Sample.clip)] /\
   ~ untouched_by_read Sample.world r) /\
  (let w := Sample.world_with SampleRequests.completed [] in
   let r := route_delete Sample.env "v1" SampleRequests.editor None w in
   processingStatus <$> videos w !! "v1" = Some COMPLETED /\
   ru_role SampleRequests.editor = EDITOR /\
   videos (after r) !! "v1" = None /\
   videos (after r) <> videos w).
Proof.
  split.
  - intros r. split; [reflexivity | split; [reflexivity |]].
    intros [H _]. discriminate H.
  - intros w r. split; [reflexivity | split; [reflexivity |]].
    split; [reflexivity|].
    intros H. apply (f_equal (fun m => m !! "v1")) in H.
    vm_compute in H. discriminate H.
Qed.

(** ** Equations for runs *)

Lemma bind_outcome_return {A B} (m : Async A) (k : A -> Async B) w a :
  outcome (m w) = Return a ->
  outcome ((m ≫= k) w) = outcome (k a (after (m w))).
Proof. unfold mbind, Async_bind. cbn. intros ->. reflexivity. Qed.

Lemma try_catch_outcome_return {A} (m : Async A) h w a :
  outcome (m w) = Return a -> outcome (try_catch m h w) = Return a.
Proof. unfold try_catch. cbn. intros H. rewrite H. exact H. Qed.

Lemma try_catch_agree {A} (m1 m2 : Async A) h w :
  m1 w = m2 w -> try_catch m1 h w = try_catch m2 h w.
Proof. unfold try_catch. intros ->. reflexivity. Qed.

Lemma bind_agree_first {A B} (m1 m2 : Async A) (k : A -> Async B) w :
  m1 w = m2 w -> (m1 ≫= k) w = (m2 ≫= k) w.
Proof. unfold mbind, Async_bind. intros ->. reflexivity. Qed.

(** Two continuations that agree on what the first part returns. *)
Lemma bind_agree {A B} (m : Async A) (k1 k2 : A -> Async B) w :
  (forall a, outcome (m w) = Return a ->
             k1 a (after (m w)) = k2 a (after (m w))) ->
  (m ≫= k1) w = (m ≫= k2) w.
Proof.
  unfold mbind, Async_bind. cbn. intros H.
  destruct (outcome (m w)) as [a|e]; [|reflexivity].
  rewrite (H a eq_refl). reflexivity.
Qed.

(** Two reads that see the same thing are the same database call. *)
Lemma db_call_gets_agree {A} (f1 f2 : World -> A) w :
  (forall fs, f1 (with_db_faults fs w) = f2 (with_db_faults fs w)) ->
  db_call (gets f1) w = db_call (gets f2) w.
Proof.
  intros H. unfold db_call, gets.
  destruct (db_faults w) as [|[e|] rest] eqn:E; [|reflexivity|].
  - specialize (H (db_faults w)). rewrite with_db_faults_same in H.
    rewrite H. reflexivity.
  - rewrite H. reflexivity.
Qed.

(** A query by id is one database call when the id can be cast, as the
    id of a stored document always can. *)
Lemma by_id_one_call {A} id (select : World -> A) w :
  is_Some (videos w !! id) \/ object_ids w id = true ->
  by_id id select w = db_call (gets select) w.
Proof.
  intros H. unfold by_id, mbind, Async_bind, gets. cbn.
  destruct (videos w !! id) as [v|] eqn:E; cbn.
  - destruct (db_call _ w) as [o w' t]. reflexivity.
  - destruct H as [[v Hv] | ->]; [discriminate Hv|]. cbn.
    destruct (db_call _ w) as [o w' t]. reflexivity.
Qed.

(** ** Hidden artifacts (C6) *)

Lemma hidden_not_matched id userId userRole tenant v :
  hidden_from userId userRole tenant v ->
  query_matches (access_query id userId userRole tenant) v = false.
Proof.
  unfold query_matches, access_query. cbn.
  intros [Ht | (-> & Hp & Hu)].
  - apply String.eqb_neq in Ht. rewrite Ht. reflexivity.
  - cbn. rewrite Hp. apply String.eqb_neq in Hu. rewrite Hu.
    cbn. apply andb_false_r.
Qed.

(** C6: once the requester is identified, the fetch of an artifact that is
    hidden from them, because it is another tenant's or because they are a
    VIEWER and it is private and not theirs, is the fetch of a well-formed
    id the collection does not hold: the same answer, the same effects.
    The id has to be well formed, a string that casts to an ObjectId: the
    query throws for any other. *)
Theorem hidden_artifact_looks_absent env w req hidden absent v
    userId userRole tenant :
  outcome (resolve_identity env req w)
    = Return (inr (userId, userRole, tenant)) ->
  videos w !! hidden = Some v ->
  hidden_from userId userRole tenant v ->
  videos w !! absent = None ->
  object_ids w absent = true ->
  streamVideo env (for_id hidden req) w = streamVideo env (for_id absent req) w.
Proof.
  intros Hwho Hv Hhid Habs Hcast. unfold streamVideo.
  apply try_catch_agree. cbv zeta.
  change (resolve_identity env (for_id hidden req))
    with (resolve_identity env req).
  change (resolve_identity env (for_id absent req))
    with (resolve_identity env req).
  apply bind_agree. intros who Hret.
  rewrite Hwho in Hret. injection Hret as <-.
  destruct (resolve_identity_pure env req w)
    as (_ & (Hvid & _ & _ & _ & _ & Hids) & _).
  cbn [params_id for_id headers_range].
  apply bind_agree_first. unfold Video_findOne.
  cbn [q_id access_query].
  rewrite !by_id_one_call.
  - apply db_call_gets_agree. intros fs. wsimpl.
    rewrite Hvid, Hv, Habs.
    rewrite (hidden_not_matched hidden userId userRole tenant v Hhid).
    reflexivity.
  - right. rewrite Hids. exact Hcast.
  - left. rewrite Hvid, Hv. eexists; reflexivity.
Qed.

Lemma hidden_artifact_looks_absent_witness :
  let w := Sample.world_with SampleRequests.completed [] in
  streamVideo Sample.env
    (for_id "v1" (SampleRequests.fetch SampleRequests.outsider "v1" None)) w
  = streamVideo Sample.env
      (for_id "v7" (SampleRequests.fetch SampleRequests.outsider "v1" None)) w
  /\
  streamVideo Sample.env
    (for_id "v1" (SampleRequests.fetch SampleRequests.viewer "v1" None)) w
  = streamVideo Sample.env
      (for_id "v7" (SampleRequests.fetch SampleRequests.viewer "v1" None)) w.
Proof.
  intros w. split.
  - apply (hidden_artifact_looks_absent Sample.env w _ "v1" "v7"
             SampleRequests.completed "u9" ADMIN "t2");
      [reflexivity | reflexivity | left; discriminate | reflexivity
      | reflexivity].
  - apply (hidden_artifact_looks_absent Sample.env w _ "v1" "v7"
             SampleRequests.completed "u2" VIEWER "t1");
      [reflexivity | reflexivity | | reflexivity | reflexivity].
    right. split; [reflexivity | split; [reflexivity | discriminate]].
Defined.

(** An absent id that is not well formed is told apart from a hidden
    artifact.  The requester of another tenant is answered 404 for the
    artifact they may not see and 500 for a string that is no ObjectId,
    with no document under it: the query throws before it reaches the
    collection and the handler answers for the exception. *)
Lemma malformed_id_is_told_apart :
  let w := Sample.world_with SampleRequests.completed [] in
  let req := SampleRequests.fetch SampleRequests.outsider "v1" None in
  videos w !! "v1" = Some SampleRequests.completed /\
  hidden_from "u9" ADMIN "t2" SampleRequests.completed /\
  videos w !! "nope" = None /\
  object_ids w "nope" = false /\
  status <$> response (streamVideo Sample.env (for_id "v1" req) w)
    = Some 404 /\
  response (streamVideo Sample.env (for_id "nope" req) w)
    = Some (json500 Sample.env "Error streaming video"
              (CastError "nope")) /\
  streamVideo Sample.env (for_id "v1" req) w
    <> streamVideo Sample.env (for_id "nope" req) w.
Proof.
  intros w req.
  split; [reflexivity|]. split; [left; discriminate|].
  split; [reflexivity|]. split; [reflexivity|].
  split; [reflexivity|]. split; [reflexivity|].
  intros H. apply (f_equal (fun r => status <$> response r)) in H.
  vm_compute in H. discriminate H.
Qed.

(** ** The status gate (C5) *)

Lemma Video_findOne_pure q w :
  wp (Video_findOne q) w (fun _ w' t => t = [] /\ same_data w w').
Proof. repeat wp_step; unfold same_data; wsimpl; auto 10. Qed.

(** For an authorized fetch the answer is the one [stream_found] gives,
    in a world with the same data. *)
Lemma streamVideo_authorized env req w video :
  authorized_fetch env req w video ->
  exists w', same_data w w' /\
    forall resp,
      outcome (stream_found video (headers_range req) w') = Return resp ->
      outcome (streamVideo env req w) = Return resp.
Proof.
  intros (userId & userRole & tenant & Hwho & Hfound).
  set (w1 := after (resolve_identity env req w)) in *.
  set (q := access_query (params_id req) userId userRole tenant) in *.
  exists (after (Video_findOne q w1)). split.
  - destruct (resolve_identity_pure env req w) as (_ & H1 & _).
    destruct (Video_findOne_pure q w1) as (_ & H2).
    fold w1 in H1. unfold same_data in *.
    destruct H1 as (? & ? & ? & ? & ? & ?), H2 as (? & ? & ? & ? & ? & ?).
    repeat split; congruence.
  - intros resp Hresp. unfold streamVideo.
    apply try_catch_outcome_return. cbv zeta.
    rewrite (bind_outcome_return _ _ _ _ Hwho). fold w1. cbv beta iota.
    fold q. rewrite (bind_outcome_return _ _ _ _ Hfound). exact Hresp.
Qed.

Lemma stream_needs_completed env req w :
  wp (streamVideo env req) w (fun o _ _ =>
    forall resp, o = Return resp -> streams resp ->
      exists video, videos w !! params_id req = Some video /\
                    processingStatus video = COMPLETED).
Proof.
  unfold streamVideo. repeat wp_step.
  all: intros resp Hresp Hs; injection Hresp as <-.
  all: try (destruct Hs as [Hs | [Hs | [bs Hs]]]; discriminate Hs).
  all: cbn [q_id access_query] in *.
  all: repeat match goal with
         | H : match ?x with _ => _ end = Some _ |- _ =>
             destruct x eqn:?; try discriminate H
         end; simplify_eq.
  all: eexists; (split; [first [eassumption | reflexivity]|]).
  all: repeat match goal with
         | H : bool_decide _ = false |- _ =>
             apply bool_decide_eq_false in H
         end.
  all: match goal with |- processingStatus ?v = _ =>
         destruct (processingStatus v);
         first [ reflexivity
               | exfalso;
                 match goal with H : ~ (_ <> _) |- _ =>
                   apply H; discriminate end ]
       end.
Qed.

Lemma Video_findOne_selects q w :
  wp (Video_findOne q) w (fun o _ _ =>
    forall v, o = Return (Some v) ->
      videos w !! q_id q = Some v /\ query_matches q v = true).
Proof.
  repeat wp_step.
  all: intros v' Hret; simplify_eq.
  all: apply selected_is_stored in Hret; destruct Hret as [Hv' Hq].
  all: split; [congruence | exact Hq].
Qed.

Lemma Video_findOne_found q w v :
  outcome (Video_findOne q w) = Return (Some v) ->
  videos w !! q_id q = Some v.
Proof.
  intros H. exact (proj1 (Video_findOne_selects q w v H)).
Qed.

(** C5: for a fetch by an identified requester to whom the collection
    hands out the artifact, whatever their role: a FLAGGED artifact is
    answered with 403 and its status detail, a PENDING or PROCESSING one
    with 403 "Video is still processing", and an answer that carries
    content, by status 200 or 206 or by a streamed body, is given only
    when the status is COMPLETED. *)
Theorem status_gate env req w video :
  authorized_fetch env req w video ->
  (processingStatus video = FLAGGED ->
   response (streamVideo env req w) = Some (flagged_answer video)) /\
  (processingStatus video = PENDING \/ processingStatus video = PROCESSING ->
   response (streamVideo env req w)
     = Some (still_processing_answer (processingStatus video))) /\
  (forall resp, response (streamVideo env req w) = Some resp ->
     streams resp -> processingStatus video = COMPLETED).
Proof.
  intros Hauth.
  destruct (streamVideo_authorized env req w video Hauth) as (w' & _ & H).
  split; [|split].
  - intros Hst. unfold response. erewrite H; [reflexivity|].
    unfold stream_found. rewrite Hst. reflexivity.
  - intros Hst. unfold response. erewrite H; [reflexivity|].
    unfold stream_found. destruct Hst as [-> | ->]; reflexivity.
  - intros resp Hresp Hs. unfold response in Hresp.
    pose proof (stream_needs_completed env req w) as Hc. unfold wp in Hc.
    destruct (outcome (streamVideo env req w)) as [resp'|]; [|discriminate].
    injection Hresp as ->.
    destruct (Hc resp eq_refl Hs) as (video' & Hv' & Hst).
    destruct Hauth as (userId & userRole & tenant & Hwho & Hfound).
    apply Video_findOne_found in Hfound. cbn [q_id access_query] in Hfound.
    destruct (resolve_identity_pure env req w) as (_ & (Hvid & _) & _).
    rewrite Hvid in Hfound. congruence.
Qed.

Lemma status_gate_witness :
  let flagged :=
    set_processingError "Sensitivity keyword detected"
      (set_processingStatus FLAGGED Sample.clip) in
  response (streamVideo Sample.env
              (SampleRequests.fetch SampleRequests.editor "v1" None)
              (Sample.world_with flagged []))
  = Some (flagged_answer flagged)
  /\
  response (streamVideo Sample.env
              (SampleRequests.fetch SampleRequests.editor "v1" None)
              Sample.world)
  = Some (still_processing_answer PENDING).
Proof.
  intros flagged. split.
  - apply (status_gate Sample.env
             (SampleRequests.fetch SampleRequests.editor "v1" None)
             (Sample.world_with flagged []) flagged); [|reflexivity].
    exists "u1", EDITOR, "t1". split; reflexivity.
  - apply (status_gate Sample.env
             (SampleRequests.fetch SampleRequests.editor "v1" None)
             Sample.world Sample.clip); [|left; reflexivity].
    exists "u1", EDITOR, "t1". split; reflexivity.
Defined.

(** ** Byte ranges (C4) *)

Lemma span_length content start last :
  0 <= start <= last -> last < Z.of_nat (length content) ->
  Z.of_nat (length (span content start last)) = last - start + 1.
Proof.
  intros H1 H2. unfold span. rewrite length_take, length_drop. lia.
Qed.

Lemma span_lookup content start last i :
  0 <= start <= last -> 0 <= i <= last - start ->
  span content start last !! Z.to_nat i = content !! Z.to_nat (start + i).
Proof.
  intros H1 H2. unfold span.
  rewrite lookup_take_lt by lia. rewrite lookup_drop. f_equal. lia.
Qed.

(** How the code reads a header of the form [bytes=start-end]. *)
Lemma range_header_parts start end_ :
  JS.split "-" (JS.replace_first_by_empty "bytes=" (range_header start end_))
  = [JS.dec (Z.to_N start);
     match end_ with Some e => JS.dec (Z.to_N e) | None => EmptyString end].
Proof.
  unfold range_header. rewrite JSFacts.replace_first_prefix.
  change ("-" +:+ ?s) with (String "-" s).
  rewrite JSFacts.split_at_sep by apply JSFacts.dec_no_dash.
  destruct end_ as [e|]; [|reflexivity].
  rewrite JSFacts.split_no_sep by apply JSFacts.dec_no_dash. reflexivity.
Qed.

Lemma serve_file_range video content start last end_ w :
  0 <= start <= last -> last < Z.of_nat (length content) ->
  end_ = Some last \/ (end_ = None /\ last = Z.of_nat (length content) - 1) ->
  outcome (serve_file video content (Some (range_header start end_)) w)
  = Return (partial_content video content start last).
Proof.
  intros H1 H2 Hend. unfold serve_file.
  change (JS.truthy (range_header start end_)) with true. cbv iota zeta.
  rewrite range_header_parts. cbn [lookup list_lookup default from_option id].
  rewrite JSFacts.parseInt_dec, Z2N.id by lia.
  set (tail := match end_ with
               | Some e => JS.dec (Z.to_N e)
               | None => EmptyString
               end).
  assert (Hlast : (if JS.truthy tail then JS.parseInt tail
                   else Some (Z.of_nat (length content) - 1)) = Some last).
  { subst tail. destruct Hend as [-> | [-> ->]]; [|reflexivity].
    rewrite JSFacts.dec_not_empty, JSFacts.parseInt_dec, Z2N.id by lia.
    reflexivity. }
  rewrite Hlast. clear Hlast tail.
  unfold JS.ge.
  destruct (Z.leb_spec (Z.of_nat (length content)) start); [lia|].
  destruct (Z.leb_spec (Z.of_nat (length content)) last); [lia|].
  cbn [orb]. unfold fs_createReadStream.
  destruct (Z.ltb_spec start 0); [lia|].
  destruct (Z.ltb_spec last 0); [lia|].
  destruct (Z.ltb_spec last start); [lia|].
  cbn [orb]. unfold JS.add, JS.sub.
  rewrite !JSFacts.Number_toString_nonneg by lia.
  rewrite <- nat_N_Z, N2Z.id. reflexivity.
Qed.

Lemma serve_file_whole video content w :
  outcome (serve_file video content None w)
  = Return (full_content video content).
Proof.
  unfold serve_file, full_content, mret, Async_ret. cbn [outcome].
  rewrite JSFacts.Number_toString_nonneg by lia.
  rewrite <- nat_N_Z, N2Z.id. reflexivity.
Qed.

Lemma stream_found_completed video range w content :
  processingStatus video = COMPLETED ->
  files w !! filePath video = Some content ->
  outcome (stream_found video range w)
  = outcome (serve_file video content range w).
Proof.
  intros Hst Hfile. unfold stream_found. rewrite Hst. cbn [bool_decide].
  change (bool_decide (COMPLETED = FLAGGED)) with false.
  change (bool_decide (COMPLETED <> COMPLETED)) with false.
  cbv iota.
  rewrite (bind_outcome_return (fs_read (filePath video)) _ w
             (files w !! filePath video) eq_refl).
  cbn [fs_read gets after]. rewrite Hfile. reflexivity.
Qed.

(** C4: for a fetch by an identified requester to whom the collection
    hands out a COMPLETED artifact whose file holds N bytes: with no Range
    header the answer is 200, the whole file and [Accept-Ranges: bytes];
    with the header [bytes=start-end] where 0 <= start <= end < N, the end
    left out standing for N-1, the answer is 206 with
    [Content-Range: bytes start-end/N] and the bytes of the file from
    index start to index end, both included, which are end-start+1
    bytes. *)
Theorem range_served env req w video content :
  authorized_fetch env req w video ->
  processingStatus video = COMPLETED ->
  files w !! filePath video = Some content ->
  (headers_range req = None ->
   response (streamVideo env req w) = Some (full_content video content)) /\
  (forall start last end_,
     0 <= start <= last -> last < Z.of_nat (length content) ->
     end_ = Some last \/
       (end_ = None /\ last = Z.of_nat (length content) - 1) ->
     headers_range req = Some (range_header start end_) ->
     response (streamVideo env req w)
       = Some (partial_content video content start last) /\
     Z.of_nat (length (span content start last)) = last - start + 1 /\
     forall i, 0 <= i <= last - start ->
       span content start last !! Z.to_nat i
       = content !! Z.to_nat (start + i)).
Proof.
  intros Hauth Hst Hfile.
  destruct (streamVideo_authorized env req w video Hauth)
    as (w' & (_ & _ & _ & Hfiles & _) & H).
  rewrite <- Hfiles in Hfile.
  split.
  - intros Hrange. unfold response. erewrite H; [reflexivity|].
    rewrite (stream_found_completed _ _ _ content Hst Hfile), Hrange.
    apply serve_file_whole.
  - intros start last end_ H1 H2 Hend Hrange. split; [|split].
    + unfold response. erewrite H; [reflexivity|].
      rewrite (stream_found_completed _ _ _ content Hst Hfile), Hrange.
      apply serve_file_range; assumption.
    + apply span_length; assumption.
    + intros i Hi. apply span_lookup; assumption.
Qed.

Lemma range_served_witness :
  let w := Sample.world_with SampleRequests.completed [] in
  response (streamVideo Sample.env
              (SampleRequests.fetch SampleRequests.editor "v1"
                 (Some "bytes=0-99")) w)
  = Some (partial_content SampleRequests.completed (Sample.bytes 1000) 0 99)
  /\ Z.of_nat (length (span (Sample.bytes 1000) 0 99)) = 100
  /\ response (streamVideo Sample.env
                 (SampleRequests.fetch SampleRequests.editor "v1" None) w)
     = Some (full_content SampleRequests.completed (Sample.bytes 1000)).
Proof.
  intros w.
  assert (Hauth : forall range,
    authorized_fetch Sample.env
      (SampleRequests.fetch SampleRequests.editor "v1" range) w
      SampleRequests.completed).
  { intros range. exists "u1", EDITOR, "t1". split; reflexivity. }
  split; [|split].
  - apply (range_served Sample.env _ w SampleRequests.completed
             (Sample.bytes 1000) (Hauth _) eq_refl eq_refl)
      with (end_ := Some 99); [lia | reflexivity | left; reflexivity |].
    reflexivity.
  - apply (range_served Sample.env _ w SampleRequests.completed
             (Sample.bytes 1000) (Hauth (Some "bytes=0-99")) eq_refl eq_refl)
      with (end_ := Some 99); [lia | reflexivity | left; reflexivity |].
    reflexivity.
  - apply (range_served Sample.env _ w SampleRequests.completed
             (Sample.bytes 1000) (Hauth None) eq_refl eq_refl).
    reflexivity.
Defined.

(** ** Ranges the validation lets through (C3) *)

(** The part of the validation that is there: a bound at or beyond the
    size of the file is answered with 416. *)
Lemma serve_file_beyond video content start last w :
  0 <= start -> 0 <= last ->
  Z.of_nat (length content) <= start \/ Z.of_nat (length content) <= last ->
  outcome (serve_file video content
             (Some (range_header start (Some last))) w)
  = Return (json 416 "Range Not Satisfiable").
Proof.
  intros H1 H2 Hb. unfold serve_file.
  change (JS.truthy (range_header start (Some last))) with true.
  cbv iota zeta.
  rewrite range_header_parts. cbn [lookup list_lookup default from_option id].
  rewrite JSFacts.parseInt_dec, Z2N.id by lia.
  rewrite JSFacts.dec_not_empty, JSFacts.parseInt_dec, Z2N.id by lia.
  unfold JS.ge.
  destruct (Z.leb_spec (Z.of_nat (length content)) start);
    destruct (Z.leb_spec (Z.of_nat (length content)) last);
    try lia; reflexivity.
Qed.

Lemma range_beyond_file_is_416 env req w video content start last :
  authorized_fetch env req w video ->
  processingStatus video = COMPLETED ->
  files w !! filePath video = Some content ->
  0 <= start -> 0 <= last ->
  Z.of_nat (length content) <= start \/ Z.of_nat (length content) <= last ->
  headers_range req = Some (range_header start (Some last)) ->
  response (streamVideo env req w)
  = Some (json 416 "Range Not Satisfiable").
Proof.
  intros Hauth Hst Hfile H1 H2 Hb Hrange.
  destruct (streamVideo_authorized env req w video Hauth)
    as (w' & (_ & _ & _ & Hfiles & _) & H).
  rewrite <- Hfiles in Hfile.
  unfold response. erewrite H; [reflexivity|].
  rewrite (stream_found_completed _ _ _ content Hst Hfile), Hrange.
  apply serve_file_beyond; assumption.
Qed.

(** The part that is missing: a range that ends before it starts passes
    the validation, the stream cannot be made, and the generic handler
    answers 500. *)
Lemma serve_file_inverted video content start last w :
  0 <= last < start -> start < Z.of_nat (length content) ->
  outcome (serve_file video content
             (Some (range_header start (Some last))) w)
  = Throw "ERR_OUT_OF_RANGE".
Proof.
  intros H1 H2. unfold serve_file.
  change (JS.truthy (range_header start (Some last))) with true.
  cbv iota zeta.
  rewrite range_header_parts. cbn [lookup list_lookup default from_option id].
  rewrite JSFacts.parseInt_dec, Z2N.id by lia.
  rewrite JSFacts.dec_not_empty, JSFacts.parseInt_dec, Z2N.id by lia.
  unfold JS.ge.
  destruct (Z.leb_spec (Z.of_nat (length content)) start); [lia|].
  destruct (Z.leb_spec (Z.of_nat (length content)) last); [lia|].
  cbn [orb]. unfold fs_createReadStream.
  destruct (Z.ltb_spec start 0); [lia|].
  destruct (Z.ltb_spec last 0); [lia|].
  destruct (Z.ltb_spec last start); [|lia].
  reflexivity.
Qed.

Lemma try_catch_outcome_throw {A} (m : Async A) h w e :
  outcome (m w) = Throw e ->
  outcome (try_catch m h w) = outcome (h e (after (m w))).
Proof. unfold try_catch. cbn. intros ->. reflexivity. Qed.

Lemma inverted_range_is_500 env req w video content start last :
  authorized_fetch env req w video ->
  processingStatus video = COMPLETED ->
  files w !! filePath video = Some content ->
  0 <= last < start -> start < Z.of_nat (length content) ->
  headers_range req = Some (range_header start (Some last)) ->
  response (streamVideo env req w)
  = Some (json500 env "Error streaming video" "ERR_OUT_OF_RANGE").
Proof.
  intros Hauth Hst Hfile H1 H2 Hrange.
  destruct (resolve_identity_pure env req w) as (_ & (_ & _ & _ & Hf1 & _) & _).
  destruct Hauth as (userId & userRole & tenant & Hwho & Hfound).
  set (w1 := after (resolve_identity env req w)) in *.
  set (q := access_query (params_id req) userId userRole tenant) in *.
  destruct (Video_findOne_pure q w1) as (_ & (_ & _ & _ & Hf2 & _)).
  set (w2 := after (Video_findOne q w1)) in *.
  assert (Hfile2 : files w2 !! filePath video = Some content)
    by (rewrite Hf2, Hf1; exact Hfile).
  unfold response, streamVideo.
  erewrite try_catch_outcome_throw; [reflexivity|].
  cbv zeta. rewrite (bind_outcome_return _ _ _ _ Hwho). fold w1.
  cbv beta iota. fold q.
  rewrite (bind_outcome_return _ _ _ _ Hfound). fold w2.
  rewrite (stream_found_completed _ _ _ content Hst Hfile2), Hrange.
  apply serve_file_inverted; assumption.
Qed.

(** C3, on the code: on a COMPLETED artifact of 1000 bytes, a range whose
    start lies after its end, and a range that is not a number, are both
    answered with 500 and no content, the check before
    [fs.createReadStream] comparing each bound with the file size only; a
    range without its unit is served as 206; a range beyond the file is
    answered with 416. *)
Theorem unsatisfiable_ranges_on_the_code :
  let w := Sample.world_with SampleRequests.completed [] in
  let fetch range :=
    response (streamVideo Sample.env
                (SampleRequests.fetch SampleRequests.editor "v1" (Some range))
                w) in
  fetch "bytes=5-2" = Some (json 500 "Error streaming video") /\
  fetch "bytes=abc-def" = Some (json 500 "Error streaming video") /\
  fetch "bytes=-500" = Some (json 500 "Error streaming video") /\
  status <$> fetch "0-99" = Some 206 /\
  fetch "bytes=2000-2100" = Some (json 416 "Range Not Satisfiable") /\
  fetch "bytes=0-1000" = Some (json 416 "Range Not Satisfiable").
Proof. vm_compute. repeat split; reflexivity. Qed.

(** * Further properties *)

(** ** What a run reports and what it leaves alone *)

(** The events of a run are addressed to the room of the tenant the run
    was started for and name the run's artifact; the percentages go up
    strictly and stay between 0 and 100; when the hub is up there is one
    closing event, completion or failure, and it is the last event. *)
Theorem run_reporting env id tenant w :
  let evs := events (trace (processVideo env id tenant w)) in
  Forall (fun ev => event_room ev = tenantRoom tenant /\
                    event_videoId ev = id) evs /\
  ascending_from 0 (progresses evs) = true /\
  (io w = true ->
   exists before last_, evs = before ++ [last_] /\
     closing last_ = true /\ forallb (fun ev => negb (closing ev)) before = true).
Proof.
  intros evs. subst evs. run_of (processVideo env id tenant) w.
  unfold processVideo, events.
  repeat wp_step.
  all: simplify_eq; destruct (io _) eqn:Hio; cbn.
  all: split; [repeat constructor | split; [reflexivity |]].
  all: intros Hup; try discriminate Hup.
  all: first
    [ eexists [], _; split; [reflexivity|]; split; reflexivity
    | eexists [_], _; split; [reflexivity|]; split; reflexivity
    | eexists [_;_], _; split; [reflexivity|]; split; reflexivity
    | eexists [_;_;_], _; split; [reflexivity|]; split; reflexivity
    | eexists [_;_;_;_], _; split; [reflexivity|]; split; reflexivity
    | eexists [_;_;_;_;_], _; split; [reflexivity|]; split; reflexivity
    | eexists [_;_;_;_;_;_], _; split; [reflexivity|]; split; reflexivity
    | eexists [_;_;_;_;_;_;_], _; split; [reflexivity|]; split; reflexivity ].
Qed.

(** A run touches one record and nothing else: users, tenants and files
    stay as they are, so does every other document, no document appears
    under an id that had none, and the run's own document keeps its
    title, names, path, type, tenant, uploader, visibility and views.
    This holds whatever the database rejects. *)
Theorem run_frame env id tenant w :
  let w' := after (processVideo env id tenant w) in
  users w' = users w /\ tenants w' = tenants w /\ files w' = files w /\
  (forall other, other <> id -> videos w' !! other = videos w !! other) /\
  match videos w !! id with
  | Some v => exists d, videos w' !! id = Some d /\ processed_from v d
  | None => videos w' !! id = None
  end.
Proof.
  intros w'. subst w'.
  destruct (videos w !! id) as [v|] eqn:Hv.
  all: run_of (processVideo env id tenant) w.
  all: unfold processVideo, processed_from.
  all: repeat wp_step.
  all: simplify_eq; cbn.
  all: rewrite ?lookup_insert_eq, ?Hv.
  all: repeat split; try reflexivity.
  all: try (intros other Hother;
            rewrite ?lookup_insert_ne by congruence; reflexivity).
  all: try (eexists; split; [reflexivity | cbn; repeat split; reflexivity]).
  all: try (eexists; split; [eassumption | cbn; repeat split; reflexivity]).
Qed.

(** ** The verdict of the scan *)

Lemma has_keyword_spec name :
  existsb (keyword_in (JS.toLowerCase name)) SENSITIVITY_KEYWORDS = true
  <-> has_keyword name.
Proof.
  unfold has_keyword. rewrite existsb_exists.
  split; intros (kw & Hin & H); exists kw; split; try assumption;
    apply keyword_in_spec; assumption.
Qed.

Lemma unlucky_spec env :
  negb (Qle_bool (1 # 10) (Math_random env)) = true <-> unlucky env.
Proof.
  unfold unlucky. rewrite negb_true_iff.
  split.
  - intros H. apply Qnot_le_lt. intros Hle.
    apply Qle_bool_iff in Hle. congruence.
  - intros H. destruct (Qle_bool (1 # 10) (Math_random env)) eqn:E;
      [|reflexivity].
    apply Qle_bool_iff in E. exfalso. exact (Qlt_not_le _ _ H E).
Qed.

(** The scan flags a name exactly when the name holds a keyword or the
    draw is below one in ten; a flag that no keyword explains carries the
    generic reason, and a safe verdict carries none.  The scan neither
    fails nor touches anything. *)
Theorem scan_verdict env name w :
  exists res,
    simulateAISensitivityScan env name w
      = {| outcome := Return res; after := w; trace := [] |} /\
    (scan_status res = SCAN_FLAGGED <-> has_keyword name \/ unlucky env) /\
    (~ has_keyword name -> unlucky env ->
     scan_reason res
       = Some "AI analysis detected potential content issues") /\
    (scan_status res = SAFE -> scan_reason res = None).
Proof.
  unfold simulateAISensitivityScan.
  destruct (existsb _ SENSITIVITY_KEYWORDS) eqn:Hk.
  - apply has_keyword_spec in Hk.
    eexists; split; [reflexivity|]. cbn.
    split; [tauto | split; [tauto | discriminate]].
  - assert (Hno : ~ has_keyword name).
    { intros H. apply has_keyword_spec in H. congruence. }
    destruct (negb (Qle_bool (1 # 10) (Math_random env))) eqn:Hr.
    + apply unlucky_spec in Hr.
      eexists; split; [reflexivity|]. cbn.
      split; [tauto | split; [reflexivity | discriminate]].
    + assert (Hlucky : ~ unlucky env).
      { intros H. apply unlucky_spec in H. congruence. }
      eexists; split; [reflexivity|]. cbn.
      split; [|split; [tauto | reflexivity]].
      split; [discriminate | tauto].
Qed.

(** ** How a run ends *)


(** When the file is missing or the probe fails, and the database rejects
    nothing, the run ends FLAGGED with the failure of the extraction as
    detail, whatever the name of the file; duration and metadata stay as
    they were, nothing is reported after 10%, and one failure event
    carries the same message. *)
Theorem run_extraction_failure env id tenant w v reason :
  videos w !! id = Some v -> no_faults w ->
  (files w !! filePath v = None /\ reason = "Video file not found") \/
  (exists content cause,
     files w !! filePath v = Some content /\
     ffprobe env (filePath v) = inl cause /\
     reason = "FFprobe error: " +:+ cause) ->
  let r := processVideo env id tenant w in
  let message := "Metadata extraction failed: " +:+ reason in
  videos (after r) !! id
    = Some (set_processingError message (set_processingStatus FLAGGED v)) /\
  events (trace r)
    = (if io w
       then [video_processing_progress (tenantRoom tenant) id 0
               "Initializing"
               {| pd_message := "Video processing started";
                  pd_extra := NoExtra |};
             video_processing_progress (tenantRoom tenant) id 10
               "Extracting Metadata"
               {| pd_message := "Analyzing video file...";
                  pd_extra := NoExtra |};
             video_processing_error (tenantRoom tenant) id message]
       else []).
Proof.
  intros Hv Hnf Hcase r message. subst r message.
  run_of (processVideo env id tenant) w.
  unfold processVideo, events.
  destruct Hcase as [[Hfile ->] | (content & cause & Hfile & Hprobe & ->)].
  all: repeat wp_step_ok.
  all: simplify_eq; unchanged; try congruence.
  all: rewrite ?lookup_insert_eq; destruct (io w); cbn.
  all: split; reflexivity.
Qed.


Lemma run_extraction_failure_witness :
  videos (after (processVideo Sample.env "v1" "t1"
                   (Sample.world_with Sample.orphan []))) !! "v1"
  = Some (set_processingError
            "Metadata extraction failed: Video file not found"
            (set_processingStatus FLAGGED Sample.orphan)).
Proof.
  apply (run_extraction_failure Sample.env "v1" "t1"
           (Sample.world_with Sample.orphan []) Sample.orphan
           "Video file not found").
  - reflexivity.
  - constructor.
  - left. split; reflexivity.
Defined.

(** ** Rooms and who hears what *)

Lemma append_assoc (a b c : string) : (a +:+ b) +:+ c = a +:+ (b +:+ c).
Proof.
  induction a as [|x a IH]; [reflexivity|].
  rewrite !JSFacts.append_cons, IH. reflexivity.
Qed.

Lemma length_append (a b : string) :
  String.length (a +:+ b) = (String.length a + String.length b)%nat.
Proof.
  induction a as [|x a IH]; [reflexivity|].
  rewrite JSFacts.append_cons. cbn [String.length]. rewrite IH. reflexivity.
Qed.

Lemma append_empty_r (a : string) : a +:+ EmptyString = a.
Proof.
  induction a as [|x a IH]; [reflexivity|].
  rewrite JSFacts.append_cons, IH. reflexivity.
Qed.

(** One tenant room is a prefix of another when the tenant ids are. *)
Lemma tenantRoom_prefix own tenant :
  JS.startsWith (tenantRoom tenant) (tenantRoom own) = true
  <-> exists rest, tenant = own +:+ rest.
Proof.
  rewrite JSFacts.startsWith_spec. unfold tenantRoom.
  split; intros [rest H]; exists rest.
  - rewrite append_assoc in H. exact (String.app_inj _ _ _ H).
  - rewrite H, append_assoc. reflexivity.
Qed.

(** The handlers keep the identity of a socket, and every room they put
    it in starts with the name of its tenant room. *)
Lemma on_message_keeps s m :
  socket_who (on_message s m).1 = socket_who s /\
  ((forall room, room ∈ socket_rooms s ->
      JS.startsWith room (tenantRoom (sock_tenantId (socket_who s))) = true) ->
   forall room, room ∈ socket_rooms (on_message s m).1 ->
      JS.startsWith room (tenantRoom (sock_tenantId (socket_who s))) = true).
Proof.
  destruct m as [roomName | roomName]; cbn.
  - destruct (JS.startsWith roomName _) eqn:E; cbn.
    + split; [reflexivity|]. intros Hs room Hin.
      apply elem_of_union in Hin as [Hin | Hin]; [|auto].
      apply elem_of_singleton in Hin. subst. exact E.
    + split; [reflexivity | auto].
  - split; [reflexivity|]. intros Hs room Hin.
    apply elem_of_difference in Hin as [Hin _]. auto.
Qed.

Lemma foldl_on_message_keeps ms s :
  (forall room, room ∈ socket_rooms s ->
     JS.startsWith room (tenantRoom (sock_tenantId (socket_who s))) = true) ->
  let s' := foldl (fun s m => (on_message s m).1) s ms in
  socket_who s' = socket_who s /\
  forall room, room ∈ socket_rooms s' ->
    JS.startsWith room (tenantRoom (sock_tenantId (socket_who s))) = true.
Proof.
  revert s. induction ms as [|m ms IH]; intros s Hs; cbn.
  - auto.
  - destruct (on_message_keeps s m) as [Hwho Hrooms].
    specialize (IH (on_message s m).1).
    rewrite Hwho in IH. apply IH. auto.
Qed.

Lemma socket_after_keeps who ms :
  socket_who (socket_after who ms) = who /\
  forall room, room ∈ socket_rooms (socket_after who ms) ->
    JS.startsWith room (tenantRoom (sock_tenantId who)) = true.
Proof.
  unfold socket_after.
  apply (foldl_on_message_keeps ms (on_connection who).1).
  cbn. intros room Hin. apply elem_of_singleton in Hin. subst.
  apply tenantRoom_prefix. exists EmptyString.
  symmetry. apply append_empty_r.
Qed.

(** A client that does not leave the room of its tenant stays in it. *)
Lemma socket_after_stays who ms :
  stays who ms ->
  tenantRoom (sock_tenantId who) ∈ socket_rooms (socket_after who ms).
Proof.
  unfold stays, socket_after.
  assert (Hgen : forall s,
    socket_who s = who ->
    tenantRoom (sock_tenantId who) ∈ socket_rooms s ->
    Forall (fun m => m <> leave_room (tenantRoom (sock_tenantId who))) ms ->
    tenantRoom (sock_tenantId who)
      ∈ socket_rooms (foldl (fun s m => (on_message s m).1) s ms)).
  { induction ms as [|m ms IH]; intros s Hwho Hin Hms; cbn; [exact Hin|].
    inversion Hms as [|? ? Hm Hrest]; subst.
    apply IH; [apply on_message_keeps | | exact Hrest].
    destruct m as [roomName | roomName]; cbn.
    - destruct (JS.startsWith roomName _); cbn; [|exact Hin].
      apply elem_of_union. right. exact Hin.
    - apply elem_of_difference. split; [exact Hin|].
      intros Heq. apply elem_of_singleton in Heq. congruence. }
  intros Hms. apply Hgen; [reflexivity | | exact Hms].
  cbn. apply elem_of_singleton. reflexivity.
Qed.

(** Which sockets can hear the events of a tenant.  An event addressed to
    the room of [tenant] can be made to reach the socket of a client,
    by some messages of that client, exactly when the client's tenant id
    is a prefix of [tenant]; between tenant ids of one length, as the
    ids of the database are, that is the client's own tenant only. *)
Theorem who_can_hear who tenant ev :
  event_room ev = tenantRoom tenant ->
  ((exists ms, delivered_to (socket_after who ms) ev = true) <->
   (exists rest, tenant = sock_tenantId who +:+ rest)) /\
  (String.length tenant = String.length (sock_tenantId who) ->
   forall ms, delivered_to (socket_after who ms) ev = true ->
   tenant = sock_tenantId who).
Proof.
  intros Hroom. unfold delivered_to. rewrite Hroom.
  assert (Hprefix : forall ms,
    bool_decide (tenantRoom tenant ∈ socket_rooms (socket_after who ms))
      = true -> exists rest, tenant = sock_tenantId who +:+ rest).
  { intros ms H. apply bool_decide_eq_true in H.
    apply tenantRoom_prefix. exact (proj2 (socket_after_keeps who ms) _ H). }
  split; [split|].
  - intros [ms H]. exact (Hprefix ms H).
  - intros Hrest. exists [join_room (tenantRoom tenant)].
    apply bool_decide_eq_true. unfold socket_after. cbn.
    apply tenantRoom_prefix in Hrest. rewrite Hrest. cbn.
    apply elem_of_union. left. apply elem_of_singleton. reflexivity.
  - intros Hlen ms H. destruct (Hprefix ms H) as [rest Hrest].
    assert (Hz : String.length rest = 0%nat).
    { rewrite Hrest, length_append in Hlen. lia. }
    destruct rest; [|discriminate Hz].
    rewrite append_empty_r in Hrest. exact Hrest.
Qed.

Lemma run_addresses_tenant env id tenant w :
  Forall (fun ev => event_room ev = tenantRoom tenant)
    (events (trace (processVideo env id tenant w))).
Proof.
  run_of (processVideo env id tenant) w.
  unfold processVideo, events.
  repeat wp_step.
  all: simplify_eq; destruct (io _); cbn; repeat constructor.
Qed.

Lemma received_all who ms evs :
  stays who ms ->
  Forall (fun ev => event_room ev = tenantRoom (sock_tenantId who)) evs ->
  received (socket_after who ms) evs = evs.
Proof.
  intros Hstay Hevs. unfold received.
  induction Hevs as [|ev evs Hev _ IH]; [reflexivity|].
  cbn [List.filter]. unfold delivered_to at 1.
  rewrite Hev, bool_decide_eq_true_2 by (apply socket_after_stays; exact Hstay).
  rewrite IH. reflexivity.
Qed.

Lemma received_none who ms tenant evs :
  String.length tenant = String.length (sock_tenantId who) ->
  tenant <> sock_tenantId who ->
  Forall (fun ev => event_room ev = tenantRoom tenant) evs ->
  received (socket_after who ms) evs = [].
Proof.
  intros Hlen Hne Hevs. unfold received.
  induction Hevs as [|ev evs Hev _ IH]; [reflexivity|].
  cbn [List.filter]. unfold delivered_to at 1.
  rewrite Hev, bool_decide_eq_false_2; [exact IH|].
  intros Hin. apply (proj2 (socket_after_keeps who ms)) in Hin.
  apply tenantRoom_prefix in Hin as [rest Hrest].
  assert (Hz : String.length rest = 0%nat).
  { rewrite Hrest, length_append in Hlen. lia. }
  destruct rest; [|discriminate Hz].
  rewrite append_empty_r in Hrest. contradiction.
Qed.

(** The events of a run are heard in the run's tenant and nowhere else:
    a client of that tenant that has not left the tenant's room receives
    every event of the run, in order, and a client of another tenant,
    whose id has the same length, receives none, whatever rooms it asked
    for. *)
Theorem run_heard_in_its_tenant env id tenant w who ms :
  let evs := events (trace (processVideo env id tenant w)) in
  (sock_tenantId who = tenant -> stays who ms ->
   received (socket_after who ms) evs = evs) /\
  (String.length tenant = String.length (sock_tenantId who) ->
   tenant <> sock_tenantId who ->
   received (socket_after who ms) evs = []).
Proof.
  intros evs. split.
  - intros <- Hstay. apply received_all; [exact Hstay|].
    apply run_addresses_tenant.
  - intros Hlen Hne. apply (received_none who ms tenant); try assumption.
    apply run_addresses_tenant.
Qed.

(** ** The progress overlay of the dashboard *)

Lemma overlay_after_run env id tenant w prev :
  io w = true ->
  let board :=
    foldl Dashboard_on prev (events (trace (processVideo env id tenant w))) in
  board !! id = None /\
  forall other, other <> id -> board !! other = prev !! other.
Proof.
  intros Hio board. subst board.
  run_of (processVideo env id tenant) w.
  unfold processVideo, events.
  repeat wp_step.
  all: simplify_eq; rewrite Hio; cbn.
  all: split; [apply lookup_delete_eq|].
  all: intros other Hother;
       rewrite lookup_delete_ne by congruence;
       rewrite ?lookup_insert_ne by congruence; reflexivity.
Qed.

(** A dashboard whose socket stayed in the room of its tenant shows no
    progress entry for an artifact once a run on it is over, however the
    run ended and whatever the overlay held before, and the entries of
    other artifacts are as they were. *)
Theorem overlay_cleared env id w who ms prev :
  io w = true -> stays who ms ->
  let board :=
    foldl Dashboard_on prev
      (received (socket_after who ms)
         (events (trace (processVideo env id (sock_tenantId who) w)))) in
  board !! id = None /\
  forall other, other <> id -> board !! other = prev !! other.
Proof.
  intros Hio Hstay.
  rewrite received_all by (try assumption; apply run_addresses_tenant).
  apply overlay_after_run. exact Hio.
Qed.

Lemma who_can_hear_witness :
  (exists ms,
     delivered_to (socket_after SampleSockets.member ms)
       (SampleSockets.progress_of "t12") = true) /\
  forall ms,
    delivered_to (socket_after SampleSockets.member ms)
      (SampleSockets.progress_of "t2") = false.
Proof.
  split.
  - apply (who_can_hear SampleSockets.member "t12"
             (SampleSockets.progress_of "t12") eq_refl).
    exists "2". reflexivity.
  - intros ms.
    destruct (delivered_to (socket_after SampleSockets.member ms)
                (SampleSockets.progress_of "t2")) eqn:E; [|reflexivity].
    pose proof (proj2 (who_can_hear SampleSockets.member "t2"
                         (SampleSockets.progress_of "t2") eq_refl)
                  eq_refl ms E) as H.
    discriminate H.
Defined.

Lemma overlay_cleared_witness :
  foldl Dashboard_on
    {[ "v1" := {| p_progress := 0; p_stage := "Initializing";
                  p_message := "Video processing started" |} ]}
    (received (socket_after SampleSockets.member [join_room "tenant_t1-ops"])
       (events (trace (processVideo Sample.env "v1" "t1" Sample.world))))
    !! "v1" = None.
Proof.
  apply (overlay_cleared Sample.env "v1" Sample.world SampleSockets.member
           [join_room "tenant_t1-ops"]).
  - reflexivity.
  - repeat constructor. discriminate.
Defined.

(** ** The three doors: header, handshake, query token *)

Lemma truthy_app_cons c p s : JS.truthy (String c p +:+ s) = true.
Proof. reflexivity. Qed.

Ltac run_door :=
  unfold try_catch, mbind, Async_bind, User_findById_populated, db_call,
    gets, throw, mret, Async_ret, json;
  cbn;
  repeat (case_match; simplify_eq; cbn in *; try reflexivity; try congruence);
  repeat match goal with
    | H : context [user_isActive ?u] |- _ => destruct (user_isActive u)
    | H : context [tenant_isActive ?t] |- _ => destruct (tenant_isActive t)
    end;
  cbn in *; congruence.

Lemma authenticate_accepts env jwt_failure w token :
  JS.truthy token = true ->
  accepted (outcome (authenticate env jwt_failure
                       (Some ("Bearer " +:+ token)) w))
  = identity_of env w token.
Proof.
  intros Htoken. unfold authenticate, accepted, identity_of.
  rewrite truthy_app_cons, JSFacts.startsWith_app.
  change 7%nat with (String.length "Bearer "). rewrite JSFacts.drop_app.
  cbn [andb]. rewrite Htoken. cbn [negb].
  run_door.
Qed.

Lemma socket_authenticate_accepts env jwt_failure w h token :
  JS.truthy token = true ->
  handshake_token h = Some token ->
  accepted (outcome (socket_authenticate env jwt_failure h w))
  = as_socket <$> identity_of env w token.
Proof.
  intros Htoken Hh. unfold socket_authenticate, accepted, identity_of.
  rewrite Hh, Htoken.
  run_door.
Qed.

Lemma resolve_identity_accepts env w req token :
  JS.truthy token = true ->
  req_user req = None -> query_token req = Some token ->
  accepted (outcome (resolve_identity env req w))
  = as_triple <$> identity_of env w token.
Proof.
  intros Htoken Hu Hq. unfold resolve_identity, accepted, identity_of.
  rewrite Hu, Hq, Htoken.
  run_door.
Qed.

(** A token opens the three doors of the server to the same requester:
    the [Authorization] header of a request, the handshake of a socket
    (token given directly or as a header) and the [token] parameter of a
    streaming request let through the same identity, and they let one
    through exactly when the token verifies, the database answers, and
    the user it names and that user's tenant are there and active. *)
Theorem doors_agree env jwt_failure w token header req :
  JS.truthy token = true ->
  req_user req = None -> query_token req = Some token ->
  let by_header :=
    authenticate env jwt_failure (Some ("Bearer " +:+ token)) w in
  let by_handshake :=
    socket_authenticate env jwt_failure
      {| hs_auth_token := Some token; hs_authorization := header |} w in
  let by_handshake_header :=
    socket_authenticate env jwt_failure
      {| hs_auth_token := None;
         hs_authorization := Some ("Bearer " +:+ token) |} w in
  let by_query := resolve_identity env req w in
  accepted (outcome by_header) = identity_of env w token /\
  accepted (outcome by_handshake) = as_socket <$> identity_of env w token /\
  accepted (outcome by_handshake_header)
    = as_socket <$> identity_of env w token /\
  accepted (outcome by_query) = as_triple <$> identity_of env w token.
Proof.
  intros Htoken Hu Hq.
  split; [apply authenticate_accepts; exact Htoken|].
  split; [apply socket_authenticate_accepts; [exact Htoken|]|].
  { unfold handshake_token. cbn. rewrite Htoken. reflexivity. }
  split; [apply socket_authenticate_accepts; [exact Htoken|]|].
  { unfold handshake_token. cbn.
    rewrite JSFacts.replace_first_prefix. reflexivity. }
  apply resolve_identity_accepts; assumption.
Qed.

(** The middleware of the HTTP routes never throws and never writes, and
    when it does not hand the request on its answer is a 401, a 403 or a
    500. *)
Theorem authenticate_answers env jwt_failure authorization w :
  let r := authenticate env jwt_failure authorization w in
  trace r = [] /\ same_data w (after r) /\
  exists result, outcome r = Return result /\
    match result with
    | inl answer =>
        status answer = 401 \/ status answer = 403 \/ status answer = 500
    | inr user => True
    end.
Proof.
  intros r. subst r. run_of (authenticate env jwt_failure authorization) w.
  unfold authenticate, same_data.
  repeat wp_step.
  all: simplify_eq; cbn.
  all: split; [reflexivity|]; split; [tauto|].
  all: eexists; split; [reflexivity|]; cbn; auto.
Qed.

(** A request whose requester is known is let through as that
    requester. *)
Lemma requester_resolves env w req reader :
  requester env w req = Some reader ->
  outcome (resolve_identity env req w) = Return (inr (as_triple reader)).
Proof.
  unfold requester. intros H.
  destruct (req_user req) as [u|] eqn:Hu.
  - injection H as ->. unfold resolve_identity. rewrite Hu. reflexivity.
  - destruct (query_token req) as [token|] eqn:Hq; [|discriminate H].
    destruct (JS.truthy token) eqn:Htoken; [|discriminate H].
    pose proof (resolve_identity_accepts env w req token Htoken Hu Hq) as Ha.
    rewrite H in Ha. unfold accepted in Ha. cbn in Ha.
    destruct (outcome (resolve_identity env req w)) as [[answer|who]|e];
      congruence.
Qed.

(** The requester of a request depends on the users and the tenants
    only, as long as the database answers. *)
Lemma requester_stable env w w' req reader :
  users w' = users w -> tenants w' = tenants w -> no_faults w' ->
  requester env w req = Some reader -> requester env w' req = Some reader.
Proof.
  unfold requester, identity_of, no_faults. intros Hu Ht Hnf.
  destruct (req_user req); [auto|].
  destruct (query_token req) as [token|]; [|auto].
  destruct (JS.truthy token); [|auto].
  rewrite Hu, Ht.
  destruct (db_faults w') as [|[e'|] rest'].
  - destruct (db_faults w) as [|[e|] rest]; auto; discriminate.
  - inversion Hnf; discriminate.
  - destruct (db_faults w) as [|[e|] rest]; auto; discriminate.
Qed.

Lemma resolve_identity_calm env req w :
  no_faults w -> no_faults (after (resolve_identity env req w)).
Proof.
  intros Hnf.
  pattern (after (resolve_identity env req w)).
  lazymatch goal with
  | |- ?Q _ => change (wp (resolve_identity env req) w (fun _ w' _ => Q w'))
  end.
  repeat step_ok.
  all: unfold no_faults; wsimpl_more; assumption.
Qed.

(** A requester who can read a document is handed it by the query of the
    streaming fetch. *)
Lemma readable_authorized env req reader w d :
  requester env w req = Some reader ->
  videos w !! params_id req = Some d ->
  readable (params_id req) reader d = true -> no_faults w ->
  authorized_fetch env req w d.
Proof.
  intros Hwho Hd Hread Hnf.
  exists (ru_id reader), (ru_role reader), (ru_tenantId reader).
  split; [exact (requester_resolves env w req reader Hwho)|].
  destruct (resolve_identity_pure env req w) as (_ & (Hvid & _) & _).
  unfold Video_findOne. cbn [q_id access_query].
  rewrite by_id_one_call
    by (left; rewrite Hvid, Hd; eexists; reflexivity).
  rewrite db_call_ok by (apply resolve_identity_calm; exact Hnf).
  cbn. wsimpl. rewrite Hvid, Hd. unfold readable in Hread. rewrite Hread.
  reflexivity.
Qed.

(** The streaming fetch of an id that names no document. *)
Lemma streamVideo_absent env req w reader :
  requester env w req = Some reader -> no_faults w ->
  videos w !! params_id req = None ->
  object_ids w (params_id req) = true ->
  outcome (streamVideo env req w) = Return not_found_answer.
Proof.
  intros Hwho Hnf Hnone Hcast.
  unfold streamVideo. apply try_catch_outcome_return. cbv zeta.
  rewrite (bind_outcome_return _ _ _ _ (requester_resolves env w req reader
                                          Hwho)).
  cbv beta iota. unfold as_triple.
  destruct (resolve_identity_pure env req w)
    as (_ & (Hvid & _ & _ & _ & _ & Hids) & _).
  rewrite (bind_outcome_return _ _ _ None); [reflexivity|].
  unfold Video_findOne. cbn [q_id access_query].
  rewrite by_id_one_call by (right; rewrite Hids; exact Hcast).
  rewrite db_call_ok by (apply resolve_identity_calm; exact Hnf).
  cbn. wsimpl. rewrite Hvid, Hnone. reflexivity.
Qed.

(** The same for a request of any kind: who is not identified is
    answered 401. *)
Lemma streamVideo_absent_any env req w :
  no_faults w -> videos w !! params_id req = None ->
  object_ids w (params_id req) = true ->
  exists resp, outcome (streamVideo env req w) = Return resp /\
    (status resp = 401 \/ resp = not_found_answer).
Proof.
  intros Hnf Hnone Hcast.
  run_of (streamVideo env req) w.
  unfold streamVideo.
  repeat step_ok.
  all: simplify_eq.
  all: try match goal with
       | H : match videos _ !! _ with _ => _ end = Some _ |- _ =>
           apply selected_is_stored in H; cbn [q_id access_query] in H;
           destruct H; congruence
       end.
  all: cbn [q_id access_query] in *; try congruence.
  all: eexists; split; [reflexivity|].
  all: first [ left; reflexivity | right; reflexivity ].
Qed.

(** ** A read behind the session *)

Lemma bind_outcome_inv {A B} (m : Async A) (k : A -> Async B) w b :
  outcome ((m ≫= k) w) = Return b ->
  exists a, outcome (m w) = Return a /\
            outcome (k a (after (m w))) = Return b.
Proof.
  unfold mbind, Async_bind. cbn.
  destruct (outcome (m w)) as [a|e]; cbn; [eauto | discriminate].
Qed.

(** What the middleware hands on, and what it leaves of the world. *)
Lemma authenticate_hands_on env jwt_failure authorization w result :
  outcome (authenticate env jwt_failure authorization w) = Return result ->
  same_data w (after (authenticate env jwt_failure authorization w)) /\
  match result with
  | inl answer => exists j, res_body answer = Json j
  | inr user =>
      exists token, authorization = Some ("Bearer " +:+ token) /\
                    identity_of env w token = Some user
  end.
Proof.
  intros Hout. split.
  - run_of (authenticate env jwt_failure authorization) w.
    unfold authenticate, same_data.
    repeat wp_step.
    all: simplify_eq; cbn; tauto.
  - destruct result as [answer | user].
    + revert Hout.
      run_of (authenticate env jwt_failure authorization) w.
      unfold authenticate.
      repeat wp_step.
      all: simplify_eq; cbn; intros Hout; simplify_eq; cbn; eauto.
    + destruct authorization as [header|].
      2:{ vm_compute in Hout. discriminate Hout. }
      destruct (JS.startsWith header "Bearer ") eqn:Hstart.
      2:{ unfold authenticate in Hout. rewrite Hstart, andb_false_r in Hout.
          vm_compute in Hout. discriminate Hout. }
      apply JSFacts.startsWith_spec in Hstart as [token ->].
      exists token. split; [reflexivity|].
      destruct (JS.truthy token) eqn:Htoken.
      * rewrite <- (authenticate_accepts env jwt_failure w token Htoken).
        rewrite Hout. reflexivity.
      * destruct token; [|discriminate Htoken].
        vm_compute in Hout. discriminate Hout.
Qed.

(** The document a detail read hands out. *)
Lemma getVideoById_hands_out env id user w resp note id' doc :
  outcome (getVideoById env id user w) = Return resp ->
  res_body resp = VideoDoc note id' doc ->
  exists v, videos w !! id = Some v /\ readable id user v = true /\
            doc = set_views (views v + 1) v.
Proof.
  revert resp.
  run_of (getVideoById env id user) w.
  repeat step.
  all: simplify_eq; cbn; intros resp Hout Hbody; simplify_eq.
  all: cbn in Hbody; try discriminate Hbody.
  all: try (unfold json500 in Hbody; cbn in Hbody; discriminate Hbody).
  all: injection Hbody as <- <- <-.
  all: match goal with
       | H : match videos _ !! _ with _ => _ end = Some _ |- _ =>
           apply selected_is_stored in H; cbn [q_id access_query] in H;
           destruct H as [Hv Hq]
       end.
  all: simplify_eq.
  all: eexists; split; [eassumption|]; split; [exact Hq | reflexivity].
Qed.

(** No document leaves the detail route without a token that stands for
    a requester, and the document handed out is then one of that
    requester's tenant, public or their own if they are a VIEWER; a
    [tenantId] given in the query is the requester's own tenant. *)
Theorem session_read_is_isolated env jwt_failure authorization queryTenant
    id w resp note id' doc :
  outcome (behind_session env jwt_failure authorization queryTenant
             (getVideoById env id) w) = Return resp ->
  res_body resp = VideoDoc note id' doc ->
  exists token user,
    authorization = Some ("Bearer " +:+ token) /\
    identity_of env w token = Some user /\
    tenantId doc = ru_tenantId user /\
    (ru_role user = VIEWER ->
     isPublic doc = true \/ uploadedBy doc = ru_id user) /\
    (forall t, queryTenant = Some t -> JS.truthy t = true ->
               t = ru_tenantId user).
Proof.
  intros Hout Hbody. unfold behind_session in Hout.
  apply bind_outcome_inv in Hout as (who & Hwho & Hrest).
  destruct (authenticate_hands_on env jwt_failure authorization w who Hwho)
    as [Hsame Hresult].
  destruct who as [answer | user].
  { destruct Hresult as [j Hj]. cbn in Hrest. injection Hrest as <-.
    congruence. }
  destruct Hresult as (token & -> & Hid).
  exists token, user. split; [reflexivity|]. split; [exact Hid|].
  cbv beta iota in Hrest. unfold filterByTenant in Hrest.
  destruct (negb (JS.truthy (ru_tenantId user)));
    [cbn in Hrest; injection Hrest as <-; discriminate Hbody|].
  assert (Hdoc :
    forall w1, outcome (getVideoById env id user w1) = Return resp ->
    tenantId doc = ru_tenantId user /\
    (ru_role user = VIEWER ->
     isPublic doc = true \/ uploadedBy doc = ru_id user)).
  { intros w1 H1.
    destruct (getVideoById_hands_out env id user w1 resp note id' doc H1
                Hbody) as (v & _ & Hread & ->).
    unfold readable, query_matches, access_query in Hread. cbn in Hread.
    apply andb_true_iff in Hread as [Ht Hor].
    apply String.eqb_eq in Ht. split; [exact Ht|].
    intros Hrole. rewrite Hrole in Hor. cbn in Hor.
    rewrite orb_false_r in Hor. apply orb_true_iff in Hor as [Hp | Hu].
    - left. cbn. destruct (isPublic v); [reflexivity | discriminate Hp].
    - right. cbn. apply String.eqb_eq in Hu. exact Hu. }
  destruct queryTenant as [t|].
  - destruct (JS.truthy t) eqn:Ht; cbn [negb] in Hrest.
    + destruct (String.eqb t (ru_tenantId user)) eqn:Heq; cbn [negb] in Hrest.
      * destruct (Hdoc _ Hrest) as [H1 H2].
        split; [exact H1 | split; [exact H2|]].
        intros t' [= <-] _. apply String.eqb_eq. exact Heq.
      * cbn in Hrest. injection Hrest as <-. discriminate Hbody.
    + destruct (Hdoc _ Hrest) as [H1 H2].
      split; [exact H1 | split; [exact H2|]].
      intros t' [= <-] Ht'. congruence.
  - destruct (Hdoc _ Hrest) as [H1 H2].
    split; [exact H1 | split; [exact H2|]].
    intros t' [=].
Qed.

Lemma doors_agree_witness :
  accepted (outcome (authenticate Sample.env SampleReads.jwt_failure
                       (Some "Bearer token-of-u2") Sample.world))
  = Some SampleRequests.viewer.
Proof.
  apply (doors_agree Sample.env SampleReads.jwt_failure Sample.world
           "token-of-u2" None
           {| params_id := "v1"; req_user := None;
              query_token := Some "token-of-u2"; headers_range := None |}).
  - reflexivity.
  - reflexivity.
  - reflexivity.
Defined.

Lemma session_read_is_isolated_witness :
  exists token user,
    Some "Bearer token-of-u2" = Some ("Bearer " +:+ token) /\
    identity_of Sample.env (Sample.world_with SampleReads.shared []) token
      = Some user /\
    ru_tenantId user = "t1".
Proof.
  destruct (session_read_is_isolated Sample.env SampleReads.jwt_failure
              (Some "Bearer token-of-u2") (Some "t1") "v1"
              (Sample.world_with SampleReads.shared [])
              {| status := 200; res_headers := [];
                 res_body := VideoDoc None "v1"
                               (set_views 1 SampleReads.shared) |}
              None "v1" (set_views 1 SampleReads.shared))
    as (token & user & Hheader & Hid & Htenant & _).
  - reflexivity.
  - reflexivity.
  - exists token, user. split; [exact Hheader|]. split; [exact Hid|].
    symmetry. exact Htenant.
Defined.

(** ** Uploads *)

(** A file larger than the limit of the requester's tenant is answered
    400, the limit named in the message: the file is removed, no
    document is created and nothing is sent. *)
Theorem upload_too_large env settings newId user f body w tenant content :
  tenants w !! ru_tenantId user = Some tenant ->
  files w !! f_path f = Some content ->
  no_faults w ->
  limit_bytes settings (ru_tenantId user) < f_size f ->
  let r := uploadVideo env settings newId user (Some f) body w in
  outcome r
    = Return (too_large_answer (maxVideoSizeMB (settings (ru_tenantId user))))
  /\ files (after r) = delete (f_path f) (files w)
  /\ videos (after r) = videos w /\ trace r = [].
Proof.
  intros Htenant Hfile Hnf Hbig r. subst r. unfold limit_bytes in Hbig.
  apply Z.ltb_lt in Hbig.
  run_of (uploadVideo env settings newId user (Some f) body) w.
  repeat step_ok.
  all: simplify_eq.
  repeat split; reflexivity.
Qed.

(** An upload that is accepted, followed to the end of the run it
    starts.  For an ADMIN or an EDITOR, with the tenant on record, a
    file within the limit (the limit itself included), a document the
    schema accepts, a fresh id and no call rejected: the answer is 201
    and shows the document as it was created, PENDING, in the
    requester's tenant and under the requester's name; the collection
    then shows PENDING, PROCESSING and one terminal status for it; the
    file stays on disk and no other document is touched. *)
Theorem upload_then_run env settings newId user f body w tenant :
  ru_role user <> VIEWER ->
  tenants w !! ru_tenantId user = Some tenant ->
  no_faults w ->
  f_size f <= limit_bytes settings (ru_tenantId user) ->
  required_failures (f_filename f) (new_video user f body) = [] ->
  videos w !! newId = None ->
  let r := route_post_upload env settings newId user None (Some f) body w in
  let created := new_video user f body in
  outcome r = Return (uploaded_answer newId created) /\
  processingStatus created = PENDING /\
  tenantId created = ru_tenantId user /\ uploadedBy created = ru_id user /\
  (persisted_statuses (trace r) = [PENDING; PROCESSING; COMPLETED] \/
   persisted_statuses (trace r) = [PENDING; PROCESSING; FLAGGED]) /\
  (exists d, videos (after r) !! newId = Some d /\
             processed_from created d /\
             terminal (processingStatus d) = true) /\
  files (after r) = files w /\
  (forall other, other <> newId ->
     videos (after r) !! other = videos w !! other).
Proof.
  intros Hrole Htenant Hnf Hfits Hvalid Hfresh r created. subst r created.
  unfold limit_bytes in Hfits. apply Z.ltb_ge in Hfits.
  assert (Hin : bool_decide (ru_role user ∈ [ADMIN; EDITOR]) = true).
  { apply bool_decide_eq_true. destruct (ru_role user);
      [left | right; left | congruence]. }
  run_of (route_post_upload env settings newId user None (Some f) body) w.
  unfold route_post_upload, processed_from.
  repeat step_ok.
  all: simplify_eq; unfold persisted_statuses; destruct (io _); cbn.
  all: rewrite ?lookup_insert_eq.
  all: split; [reflexivity|].
  all: split; [reflexivity|].
  all: split; [reflexivity|].
  all: split; [reflexivity|].
  all: split; [auto|].
  all: split; [eexists; split; [reflexivity|];
               cbn; repeat split; reflexivity|].
  all: split; [reflexivity|].
  all: intros other Hother;
       rewrite ?lookup_insert_ne by congruence; reflexivity.
Qed.

(** Whatever goes wrong, a refused upload leaves no file behind: the
    handler always answers, and unless the answer is 201 the uploaded
    file is no longer on disk afterwards; after a 201 the files are as
    they were; no other file is ever touched. *)
Theorem upload_cleans_up env settings newId user f body w :
  JS.truthy (f_path f) = true ->
  let r := uploadVideo env settings newId user (Some f) body w in
  exists resp, outcome r = Return resp /\
    (status resp = 201 -> files (after r) = files w) /\
    (status resp <> 201 -> files (after r) !! f_path f = None) /\
    (forall p, p <> f_path f -> files (after r) !! p = files w !! p).
Proof.
  intros Hpath r. subst r.
  run_of (uploadVideo env settings newId user (Some f) body) w.
  repeat step.
  all: simplify_eq; cbn.
  all: eexists; split; [reflexivity|]; cbn.
  all: split; [intros Hst; try reflexivity; try discriminate Hst|].
  all: split; [intros Hst; try congruence;
               rewrite ?lookup_delete_eq; try reflexivity; try assumption|].
  all: intros p Hp; rewrite ?lookup_delete_ne by congruence; reflexivity.
Qed.

(** An upload is not one step.  When the document has been created and
    one of the two [populate] calls that follow is rejected, the answer
    is 500 and the file is removed, but the document stays in the
    collection, PENDING, pointing to a file that is gone, and no run is
    started for it. *)
Theorem upload_is_not_atomic env settings newId user f body w tenant content
    e rest :
  tenants w !! ru_tenantId user = Some tenant ->
  files w !! f_path f = Some content ->
  JS.truthy (f_path f) = true ->
  f_size f <= limit_bytes settings (ru_tenantId user) ->
  required_failures (f_filename f) (new_video user f body) = [] ->
  videos w !! newId = None ->
  db_faults w = None :: None :: Some e :: rest \/
  db_faults w = None :: None :: None :: Some e :: rest ->
  let r := uploadVideo env settings newId user (Some f) body w in
  let created := new_video user f body in
  outcome r = Return (json500 env "Error uploading video" e) /\
  videos (after r) = <[newId := created]> (videos w) /\
  processingStatus created = PENDING /\
  files (after r) !! filePath created = None /\
  trace r = [Saved newId created].
Proof.
  intros Htenant Hfile Hpath Hfits Hvalid Hfresh Hfaults r created.
  subst r created.
  unfold limit_bytes in Hfits. apply Z.ltb_ge in Hfits.
  run_of (uploadVideo env settings newId user (Some f) body) w.
  destruct Hfaults as [Hfaults | Hfaults].
  all: repeat step_next.
  all: simplify_eq; cbn.
  all: rewrite lookup_delete_eq; repeat split; reflexivity.
Qed.

Lemma trim_blank s :
  JSSpec.all_chars JS.is_space s = true -> JSMore.trim s = EmptyString.
Proof.
  unfold JSMore.trim.
  induction s as [|c s IH]; cbn; [reflexivity|].
  intros H. apply andb_true_iff in H as [Hc Hs].
  rewrite Hc. exact (IH Hs).
Qed.

(** A title made of white space only is not replaced by the name of the
    file: it is trimmed to nothing, the document fails the schema, and
    the upload is answered 500, with the file removed and no document
    created. *)
Theorem upload_blank_title env settings newId user f body w tenant content
    blank :
  tenants w !! ru_tenantId user = Some tenant ->
  files w !! f_path f = Some content ->
  JS.truthy (f_path f) = true ->
  no_faults w ->
  f_size f <= limit_bytes settings (ru_tenantId user) ->
  u_title body = Some blank -> JS.truthy blank = true ->
  JSSpec.all_chars JS.is_space blank = true ->
  let r := uploadVideo env settings newId user (Some f) body w in
  (exists detail,
     outcome r = Return (json500 env "Error uploading video" detail) /\
     JS.startsWith detail
       "Video validation failed: title: Video title is required" = true) /\
  videos (after r) = videos w /\
  files (after r) = delete (f_path f) (files w) /\
  trace r = [].
Proof.
  intros Htenant Hfile Hpath Hnf Hfits Htitle Htruthy Hblank r. subst r.
  unfold limit_bytes in Hfits. apply Z.ltb_ge in Hfits.
  assert (Hfail : exists more,
    required_failures (f_filename f) (new_video user f body)
    = "title: Video title is required" :: more).
  { unfold required_failures, new_video. cbn.
    rewrite Htitle. unfold or_else. rewrite Htruthy, (trim_blank _ Hblank).
    cbn. eexists. reflexivity. }
  destruct Hfail as [more Hfail].
  run_of (uploadVideo env settings newId user (Some f) body) w.
  repeat step_ok.
  all: simplify_eq.
  split; [|repeat split; reflexivity].
  eexists. split; [reflexivity|].
  apply JSFacts.startsWith_spec.
  destruct more as [|next more]; cbn [join].
  - exists EmptyString. rewrite append_empty_r. reflexivity.
  - eexists. rewrite <- append_assoc. reflexivity.
Qed.

Lemma upload_too_large_witness :
  outcome (uploadVideo Sample.env SampleUploads.settings "v7"
             SampleRequests.editor (Some SampleUploads.huge)
             SampleUploads.body SampleUploads.world)
  = Return (too_large_answer 500) /\
  files (after (uploadVideo Sample.env SampleUploads.settings "v7"
                  SampleRequests.editor (Some SampleUploads.huge)
                  SampleUploads.body SampleUploads.world))
    !! "/uploads/video-7.mp4" = None.
Proof.
  destruct (upload_too_large Sample.env SampleUploads.settings "v7"
              SampleRequests.editor SampleUploads.huge SampleUploads.body
              SampleUploads.world {| tenant_isActive := true |}
              (Sample.bytes 2048))
    as (Hanswer & Hfiles & _).
  - reflexivity.
  - reflexivity.
  - constructor.
  - reflexivity.
  - split; [exact Hanswer|]. rewrite Hfiles. reflexivity.
Defined.

Lemma upload_then_run_witness :
  persisted_statuses
    (trace (route_post_upload Sample.env SampleUploads.settings "v7"
              SampleRequests.editor None (Some SampleUploads.file)
              SampleUploads.body SampleUploads.world))
  = [PENDING; PROCESSING; COMPLETED].
Proof.
  destruct (upload_then_run Sample.env SampleUploads.settings "v7"
              SampleRequests.editor SampleUploads.file SampleUploads.body
              SampleUploads.world {| tenant_isActive := true |})
    as (_ & _ & _ & _ & [H | H] & _).
  - discriminate.
  - reflexivity.
  - constructor.
  - vm_compute. discriminate.
  - reflexivity.
  - reflexivity.
  - exact H.
  - vm_compute in H. discriminate H.
Defined.

Lemma upload_cleans_up_witness :
  exists resp,
    outcome (uploadVideo Sample.env SampleUploads.settings "v7"
               SampleRequests.editor (Some SampleUploads.file)
               SampleUploads.body
               (SampleUploads.world_with [Some "connection lost"]))
      = Return resp /\
    status resp = 500 /\
    files (after (uploadVideo Sample.env SampleUploads.settings "v7"
                    SampleRequests.editor (Some SampleUploads.file)
                    SampleUploads.body
                    (SampleUploads.world_with [Some "connection lost"])))
      !! "/uploads/video-7.mp4" = None.
Proof.
  destruct (upload_cleans_up Sample.env SampleUploads.settings "v7"
              SampleRequests.editor SampleUploads.file SampleUploads.body
              (SampleUploads.world_with [Some "connection lost"]))
    as (resp & Hout & _ & Hgone & _).
  - reflexivity.
  - exists resp. split; [exact Hout|].
    assert (Hst : status resp = 500).
    { vm_compute in Hout. injection Hout as <-. reflexivity. }
    split; [exact Hst|]. apply Hgone. rewrite Hst. discriminate.
Defined.

Lemma upload_is_not_atomic_witness :
  let r := uploadVideo Sample.env SampleUploads.settings "v7"
             SampleRequests.editor (Some SampleUploads.file)
             SampleUploads.body
             (SampleUploads.world_with [None; None; Some "connection lost"]) in
  (processingStatus <$> videos (after r) !! "v7") = Some PENDING /\
  files (after r) !! "/uploads/video-7.mp4" = None.
Proof.
  intros r.
  destruct (upload_is_not_atomic Sample.env SampleUploads.settings "v7"
              SampleRequests.editor SampleUploads.file SampleUploads.body
              (SampleUploads.world_with [None; None; Some "connection lost"])
              {| tenant_isActive := true |} (Sample.bytes 2048)
              "connection lost" [])
    as (_ & Hvid & _ & Hfile & _).
  - reflexivity.
  - reflexivity.
  - reflexivity.
  - vm_compute. discriminate.
  - reflexivity.
  - reflexivity.
  - left. reflexivity.
  - split; [|exact Hfile]. fold r in Hvid. rewrite Hvid.
    rewrite lookup_insert_eq. reflexivity.
Defined.

Lemma upload_blank_title_witness :
  exists detail,
    outcome (uploadVideo Sample.env SampleUploads.settings "v7"
               SampleRequests.editor (Some SampleUploads.file)
               SampleUploads.blank_body SampleUploads.world)
    = Return (json500 Sample.env "Error uploading video" detail).
Proof.
  destruct (upload_blank_title Sample.env SampleUploads.settings "v7"
              SampleRequests.editor SampleUploads.file
              SampleUploads.blank_body SampleUploads.world
              {| tenant_isActive := true |} (Sample.bytes 2048) "   ")
    as ((detail & Hout & _) & _).
  - reflexivity.
  - reflexivity.
  - reflexivity.
  - constructor.
  - vm_compute. discriminate.
  - reflexivity.
  - reflexivity.
  - reflexivity.
  - exists detail. exact Hout.
Defined.

(** ** Deletions *)

Lemma may_delete_matches id user v :
  may_delete user v ->
  ru_role user <> VIEWER /\ query_matches (delete_query id user) v = true.
Proof.
  unfold may_delete, query_matches, delete_query. cbn.
  intros [Ht [Hr | [Hr Hu]]]; rewrite Hr, Ht, String.eqb_refl; cbn.
  - split; [discriminate | reflexivity].
  - rewrite Hu, String.eqb_refl. split; [discriminate | reflexivity].
Qed.

(** A deletion that goes through.  For an ADMIN of the document's tenant,
    or the EDITOR who uploaded it, and with no call rejected, the answer
    is 200, the document and its file are gone, and nothing else is
    touched or sent.  From then on the id, an ObjectId as the id of every
    document is, names nothing: the detail read answers 404 to every
    requester, and the streaming fetch answers 404 to every request whose
    requester it identifies, by session or by query token, and 401 to
    the others. *)
Theorem delete_removes env id user w v :
  videos w !! id = Some v -> may_delete user v -> no_faults w ->
  object_ids w id = true ->
  let r := route_delete env id user None w in
  outcome r = Return deleted_answer /\
  videos (after r) = delete id (videos w) /\
  files (after r) = delete (filePath v) (files w) /\
  users (after r) = users w /\ tenants (after r) = tenants w /\
  trace r = [] /\
  (forall reader,
     outcome (getVideoById env id reader (after r))
     = Return not_found_answer) /\
  (forall req reader,
     requester env w req = Some reader ->
     outcome (streamVideo env (for_id id req) (after r))
     = Return not_found_answer) /\
  (forall req, exists resp,
     outcome (streamVideo env (for_id id req) (after r)) = Return resp /\
     (status resp = 401 \/ resp = not_found_answer)).
Proof.
  intros Hv Hmay Hnf Hcast r. subst r.
  destruct (may_delete_matches id user v Hmay) as [Hrole Hq].
  run_of (route_delete env id user None) w.
  unfold route_delete.
  assert (Hin : bool_decide (ru_role user ∈ [ADMIN; EDITOR]) = true).
  { apply bool_decide_eq_true. destruct (ru_role user);
      [left | right; left | congruence]. }
  assert (Hstored : videos w !! q_id (delete_query id user) = Some v)
    by exact Hv.
  assert (Hfound :
    match videos w !! q_id (delete_query id user) with
    | Some v => if query_matches (delete_query id user) v then Some v
                else None
    | None => None
    end = Some v) by (cbn [q_id delete_query]; rewrite Hv, Hq; reflexivity).
  repeat step_ok.
  all: simplify_eq.
  all: split; [reflexivity|]; split; [reflexivity|].
  all: split; [try reflexivity; symmetry; apply delete_id; assumption|].
  all: split; [reflexivity|]; split; [reflexivity|]; split; [reflexivity|].
  all: lazymatch goal with
       | |- (forall reader, outcome (_ ?w') = _) /\ _ =>
           assert (Hgone : videos w' !! id = None)
             by (wsimpl_more; apply lookup_delete_eq);
           assert (Hcalm : no_faults w')
             by (unfold no_faults; wsimpl_more; assumption);
           assert (Hids : object_ids w' id = true) by exact Hcast;
           assert (Husers : users w' = users w) by reflexivity;
           assert (Htenants : tenants w' = tenants w) by reflexivity;
           generalize dependent w'
       end.
  all: intros w' Hgone Hcalm Hids Husers Htenants.
  all: split; [|split].
  all: lazymatch goal with
       | |- forall reader : ReqUser, _ =>
           intros reader;
           assert (Hstored' :
             videos w' !! q_id (access_query id (ru_id reader)
                                  (ru_role reader) (ru_tenantId reader))
             = None) by exact Hgone;
           assert (Hids' :
             object_ids w' (q_id (access_query id (ru_id reader)
                                    (ru_role reader) (ru_tenantId reader)))
             = true) by exact Hids;
           run_of (getVideoById env id reader) w';
           repeat step_ok
       | |- forall (req : Request) (reader : ReqUser), _ =>
           intros req reader Hwho;
           apply (streamVideo_absent env (for_id id req) w' reader);
           [ exact (requester_stable env w w' req reader Husers Htenants
                      Hcalm Hwho)
           | exact Hcalm | exact Hgone | exact Hids ]
       | |- forall req : Request, _ =>
           intros req;
           exact (streamVideo_absent_any env (for_id id req) w' Hcalm Hgone
                    Hids)
       end.
  all: cbn [q_id access_query] in *.
  all: repeat match goal with
         | Hg : videos ?w1 !! ?i = None,
           H : context [videos ?w1 !! ?i] |- _ =>
             rewrite Hg in H; try discriminate H
         end.
  all: simplify_eq; reflexivity.
Qed.

(** A deletion that is refused changes nothing.  Unless the requester is
    an ADMIN of the document's tenant or the EDITOR who uploaded it, the
    route writes nothing, removes no file and sends nothing, whatever
    the database does, and answers 403, 404 or 500. *)
Theorem delete_refused env id user bodyTenant w :
  (forall v, videos w !! id = Some v -> ~ may_delete user v) ->
  let r := route_delete env id user bodyTenant w in
  trace r = [] /\ same_data w (after r) /\
  exists resp, outcome r = Return resp /\
    (status resp = 403 \/ status resp = 404 \/ status resp = 500).
Proof.
  intros Hno r. subst r.
  run_of (route_delete env id user bodyTenant) w.
  unfold route_delete, same_data.
  destruct (bool_decide (ru_role user ∈ [ADMIN; EDITOR])) eqn:Hin.
  - assert (Hnone :
      match videos w !! q_id (delete_query id user) with
      | Some v => if query_matches (delete_query id user) v then Some v
                  else None
      | None => None
      end = None).
    { cbn [q_id delete_query].
      destruct (videos w !! id) as [v|] eqn:Hv; [|reflexivity].
      destruct (query_matches _ v) eqn:Hq; [|reflexivity].
      destruct (Hno v eq_refl).
      exact (delete_query_needs id user v Hin Hq). }
    assert (Hstored : exists stored,
              videos w !! q_id (delete_query id user) = stored)
      by (eexists; reflexivity).
    destruct Hstored as [stored Hstored].
    repeat step.
    all: simplify_eq; cbn.
    all: split; [reflexivity|]; split; [tauto|].
    all: eexists; split; [reflexivity|]; cbn; auto.
  - repeat step.
    all: simplify_eq; cbn.
    all: split; [reflexivity|]; split; [tauto|].
    all: eexists; split; [reflexivity|]; cbn; auto.
Qed.

(** A deletion is not one step.  When the file has been removed and the
    call that deletes the document is rejected, the answer is 500 and
    the document stays in the collection, pointing to a file that is
    gone; a streaming fetch of it, had it been COMPLETED, is then
    answered 404 for the file, whoever of its readers asks, by session
    or by query token. *)
Theorem delete_is_not_atomic env id user w v content e rest :
  videos w !! id = Some v -> may_delete user v ->
  files w !! filePath v = Some content ->
  db_faults w = None :: Some e :: rest ->
  Forall (fun f => f = None) rest ->
  let r := route_delete env id user None w in
  outcome r = Return (json500 env "Error deleting video" e) /\
  videos (after r) = videos w /\
  files (after r) = delete (filePath v) (files w) /\
  (processingStatus v = COMPLETED ->
   forall req reader,
     requester env w req = Some reader -> readable id reader v = true ->
     outcome (streamVideo env (for_id id req) (after r))
     = Return (json 404 "Video file not found")).
Proof.
  intros Hv Hmay Hfile Hfaults Hrest r. subst r.
  destruct (may_delete_matches id user v Hmay) as [Hrole Hq].
  run_of (route_delete env id user None) w.
  unfold route_delete.
  assert (Hin : bool_decide (ru_role user ∈ [ADMIN; EDITOR]) = true).
  { apply bool_decide_eq_true. destruct (ru_role user);
      [left | right; left | congruence]. }
  assert (Hstored : videos w !! q_id (delete_query id user) = Some v)
    by exact Hv.
  assert (Hfound :
    match videos w !! q_id (delete_query id user) with
    | Some v => if query_matches (delete_query id user) v then Some v
                else None
    | None => None
    end = Some v) by (cbn [q_id delete_query]; rewrite Hv, Hq; reflexivity).
  repeat step_next.
  all: simplify_eq.
  split; [reflexivity|]; split; [reflexivity|]; split; [reflexivity|].
  intros Hdone req reader Hwho Hread.
  lazymatch goal with
  | |- outcome (_ ?w') = _ =>
      assert (Hkept : videos w' !! params_id (for_id id req) = Some v)
        by exact Hv;
      assert (Hcalm : no_faults w')
        by (unfold no_faults; wsimpl_more; assumption);
      assert (Hfiles : files w' = delete (filePath v) (files w))
        by reflexivity;
      assert (Husers : users w' = users w) by reflexivity;
      assert (Htenants : tenants w' = tenants w) by reflexivity;
      generalize dependent w'
  end.
  intros w' Hkept Hcalm Hfiles Husers Htenants.
  destruct (streamVideo_authorized env (for_id id req) w' v
              (readable_authorized env (for_id id req) reader w' v
                 (requester_stable env w w' req reader Husers Htenants
                    Hcalm Hwho)
                 Hkept Hread Hcalm))
    as (w'' & (_ & _ & _ & Hsame & _) & Hresp).
  apply Hresp. unfold stream_found. rewrite Hdone.
  change (bool_decide (COMPLETED = FLAGGED)) with false.
  change (bool_decide (COMPLETED <> COMPLETED)) with false.
  cbv iota.
  rewrite (bind_outcome_return (fs_read (filePath v)) _ w''
             (files w'' !! filePath v) eq_refl).
  cbn [fs_read gets after]. rewrite Hsame, Hfiles, lookup_delete_eq.
  reflexivity.
Qed.

Lemma delete_removes_witness :
  let r := route_delete Sample.env "v1" SampleRequests.editor None
             Sample.world in
  videos (after r) !! "v1" = None /\
  files (after r) !! "/uploads/holiday.mp4" = None /\
  outcome (getVideoById Sample.env "v1" SampleRequests.editor (after r))
    = Return not_found_answer /\
  outcome (streamVideo Sample.env
             (SampleReads.by_token "token-of-u2" "v1" None) (after r))
    = Return not_found_answer.
Proof.
  intros r.
  destruct (delete_removes Sample.env "v1" SampleRequests.editor
              Sample.world Sample.clip)
    as (_ & Hvid & Hfiles & _ & _ & _ & Hread & Hstream & _).
  - reflexivity.
  - split; [reflexivity|]. right. split; reflexivity.
  - constructor.
  - reflexivity.
  - fold r in Hvid, Hfiles, Hread, Hstream.
    split; [rewrite Hvid; reflexivity|].
    split; [rewrite Hfiles; reflexivity|].
    split; [apply Hread|].
    exact (Hstream (SampleReads.by_token "token-of-u2" "v1" None)
             SampleRequests.viewer eq_refl).
Defined.

Lemma delete_refused_witness :
  same_data Sample.world
    (after (route_delete Sample.env "v1" SampleRequests.outsider None
              Sample.world)).
Proof.
  apply (delete_refused Sample.env "v1" SampleRequests.outsider None
           Sample.world).
  intros v Hv [Htenant _].
  vm_compute in Hv. injection Hv as <-. discriminate Htenant.
Defined.

Lemma delete_is_not_atomic_witness :
  let w := Sample.world_with (set_processingStatus COMPLETED
                                SampleReads.shared)
             [None; Some "connection lost"] in
  let r := route_delete Sample.env "v1" SampleRequests.editor None w in
  videos (after r) !! "v1"
    = Some (set_processingStatus COMPLETED SampleReads.shared) /\
  files (after r) !! "/uploads/holiday.mp4" = None /\
  outcome (streamVideo Sample.env
             (SampleReads.by_token "token-of-u2" "v1" None) (after r))
    = Return (json 404 "Video file not found").
Proof.
  intros w r.
  destruct (delete_is_not_atomic Sample.env "v1" SampleRequests.editor
              w (set_processingStatus COMPLETED SampleReads.shared)
              (Sample.bytes 1000) "connection lost" [])
    as (_ & Hvid & Hfiles & Hstream).
  - reflexivity.
  - split; [reflexivity|]. right. split; reflexivity.
  - reflexivity.
  - reflexivity.
  - constructor.
  - fold r in Hvid, Hfiles, Hstream.
    split; [rewrite Hvid; reflexivity|].
    split; [rewrite Hfiles; reflexivity|].
    exact (Hstream eq_refl (SampleReads.by_token "token-of-u2" "v1" None)
             SampleRequests.viewer eq_refl eq_refl).
Defined.

(** ** Listing, reading and counting *)

(** What the listing shows is what the detail read hands out.  A
    document the listing selects, under any filter, is one the requester
    can read by id; without filters the two agree exactly; and the
    search term of a VIEWER is lost: the role filter takes the place of
    the search in the query. *)
Theorem listing_matches_reading regex_hit user st search id v :
  (list_selects regex_hit (getVideos_query user st search) v = true ->
   readable id user v = true) /\
  list_selects regex_hit (getVideos_query user None None) v
    = readable id user v /\
  (ru_role user = VIEWER ->
   getVideos_query user st search = getVideos_query user st None).
Proof.
  unfold list_selects, getVideos_query, readable, query_matches, access_query.
  cbn. split; [|split].
  - intros H. apply andb_true_iff in H as [H Hor].
    apply andb_true_iff in H as [Ht _]. rewrite Ht. cbn.
    destruct (ru_role user); try reflexivity. exact Hor.
  - rewrite andb_true_r. destruct (ru_role user); reflexivity.
  - intros ->. reflexivity.
Qed.

Lemma set_views_same v : set_views (views v) v = v.
Proof. destruct v; reflexivity. Qed.

Lemma read_counts env id user w v :
  videos w !! id = Some v -> readable id user v = true -> no_faults w ->
  let w' := after (getVideoById env id user w) in
  videos w' = <[id := set_views (views v + 1) v]> (videos w) /\
  files w' = files w /\ users w' = users w /\ tenants w' = tenants w /\
  no_faults w'.
Proof.
  intros Hv Hread Hnf w'. subst w'.
  assert (Hstored :
    videos w !! q_id (access_query id (ru_id user) (ru_role user)
                        (ru_tenantId user)) = Some v) by exact Hv.
  assert (Hfound :
    match videos w !! q_id (access_query id (ru_id user) (ru_role user)
                              (ru_tenantId user)) with
    | Some v => if query_matches (access_query id (ru_id user) (ru_role user)
                                    (ru_tenantId user)) v
                then Some v else None
    | None => None
    end = Some v).
  { cbn [q_id access_query]. rewrite Hv. unfold readable in Hread.
    rewrite Hread. reflexivity. }
  run_of (getVideoById env id user) w.
  repeat step_ok.
  all: simplify_eq.
  repeat split; try reflexivity. unfold no_faults. wsimpl_more. assumption.
Qed.

(** The view counter counts the detail reads.  After [k] reads of a
    document by a requester who can read it, with no call rejected, its
    counter is [k] higher and nothing else in it has changed; the other
    documents and the files are as they were. *)
Theorem views_count_reads env id user w v k :
  videos w !! id = Some v -> readable id user v = true -> no_faults w ->
  let w' := after_reads env id user k w in
  videos w' !! id = Some (set_views (views v + Z.of_nat k) v) /\
  (forall other, other <> id -> videos w' !! other = videos w !! other) /\
  files w' = files w.
Proof.
  intros Hv Hread Hnf. cbv zeta.
  assert (Hgen :
    videos (after_reads env id user k w) !! id
      = Some (set_views (views v + Z.of_nat k) v) /\
    (forall other, other <> id ->
       videos (after_reads env id user k w) !! other = videos w !! other) /\
    files (after_reads env id user k w) = files w /\
    no_faults (after_reads env id user k w)).
  { induction k as [|k IH].
    - cbn [after_reads]. rewrite Z.add_0_r, set_views_same. auto.
    - destruct IH as (Hk & Hothers & Hfiles & Hnfk).
      cbn [after_reads].
      destruct (read_counts env id user (after_reads env id user k w)
                  (set_views (views v + Z.of_nat k) v) Hk)
        as (Hvid & Hf & _ & _ & Hnf').
      { exact Hread. }
      { exact Hnfk. }
      rewrite Hvid. split; [|split; [|split]].
      + rewrite lookup_insert_eq. unfold set_views. cbn.
        do 2 f_equal. lia.
      + intros other Hother. rewrite lookup_insert_ne by congruence.
        auto.
      + congruence.
      + exact Hnf'. }
  destruct Hgen as (H1 & H2 & H3 & _). auto.
Qed.

(** ** Corrections and what they do to streaming *)

(** What a correction stores. *)
Lemma patch_stores env id admin body w v st :
  videos w !! id = Some v ->
  ru_role admin = ADMIN -> tenantId v = ru_tenantId admin ->
  Status_ofString (b_processingStatus body) = Some st ->
  b_tenantId body = None ->
  no_faults w ->
  let w' := after (route_patch_status env id admin body w) in
  videos w' = <[id := corrected st (b_processingError body) v]> (videos w) /\
  files w' = files w /\ users w' = users w /\ tenants w' = tenants w /\
  no_faults w'.
Proof.
  intros Hv Hadmin Htenant Hst Hbody Hnf w'. subst w'.
  assert (Hin : bool_decide (ru_role admin ∈ [ADMIN]) = true).
  { rewrite Hadmin. reflexivity. }
  set (q := {| q_id := id; q_tenantId := ru_tenantId admin;
               q_or := None |}).
  assert (Hstored : videos w !! q_id q = Some v) by exact Hv.
  assert (Hfound :
    match videos w !! q_id q with
    | Some v0 => if query_matches q v0 then Some v0 else None
    | None => None
    end = Some v).
  { cbn [q_id q]. rewrite Hv. unfold query_matches. cbn.
    rewrite Htenant, String.eqb_refl. reflexivity. }
  subst q.
  run_of (route_patch_status env id admin body) w.
  unfold route_patch_status.
  repeat step_ok.
  all: simplify_eq.
  all: change (match b_processingError body with
               | Some e => if JS.truthy e
                           then set_processingError e
                                  (set_processingStatus st v)
                           else set_processingStatus st v
               | None => set_processingStatus st v
               end)
         with (corrected st (b_processingError body) v) in *.
  all: repeat match goal with
         | H : bool_decide (_ = _) = true |- _ =>
             apply bool_decide_eq_true in H
         end.
  all: split;
    [ first [ reflexivity
            | match goal with
              | H : corrected _ _ _ = _ |- _ =>
                  rewrite H; symmetry; apply insert_id; assumption
              end ]|].
  all: split; [reflexivity|]; split; [reflexivity|]; split; [reflexivity|].
  all: unfold no_faults; wsimpl_more; assumption.
Qed.

(** The correction of an ADMIN overrides the verdict of the pipeline for
    the streaming fetch.  Once an ADMIN of the tenant has set a document
    to FLAGGED with a reason, every requester who can read it, identified
    by a session or by the token in the query string, is answered 403
    with that reason; once the ADMIN has set it to COMPLETED, the fetch
    without a Range header serves the whole file, whatever the status
    was before. *)
Theorem correction_rules_streaming env id admin req reader w v reason
    content :
  videos w !! id = Some v ->
  ru_role admin = ADMIN -> tenantId v = ru_tenantId admin ->
  requester env w req = Some reader ->
  readable id reader v = true ->
  headers_range req = None ->
  JS.truthy reason = true ->
  files w !! filePath v = Some content ->
  no_faults w ->
  let flagged :=
    after (route_patch_status env id admin
             (correction "FLAGGED" (Some reason)) w) in
  let released :=
    after (route_patch_status env id admin (correction "COMPLETED" None) w) in
  outcome (streamVideo env (for_id id req) flagged)
    = Return (flagged_answer (set_processingError reason v)) /\
  outcome (streamVideo env (for_id id req) released)
    = Return (full_content v content).
Proof.
  intros Hv Hadmin Htenant Hwho Hread Hrange Hreason Hfile Hnf
    flagged released.
  split.
  - destruct (patch_stores env id admin (correction "FLAGGED" (Some reason))
                w v FLAGGED Hv Hadmin Htenant eq_refl eq_refl Hnf)
      as (Hvid & Hfiles & Husers & Htenants & Hnf').
    fold flagged in Hvid, Hfiles, Husers, Htenants, Hnf'.
    cbn [correction b_processingError corrected] in Hvid.
    rewrite Hreason in Hvid.
    set (d := set_processingError reason (set_processingStatus FLAGGED v))
      in *.
    assert (Hd : videos flagged !! params_id (for_id id req) = Some d)
      by (rewrite Hvid; apply lookup_insert_eq).
    destruct (streamVideo_authorized env (for_id id req) flagged d
                (readable_authorized env (for_id id req) reader flagged d
                   (requester_stable env w flagged req reader Husers
                      Htenants Hnf' Hwho)
                   Hd Hread Hnf'))
      as (w'' & _ & Hresp).
    apply Hresp. reflexivity.
  - destruct (patch_stores env id admin (correction "COMPLETED" None)
                w v COMPLETED Hv Hadmin Htenant eq_refl eq_refl Hnf)
      as (Hvid & Hfiles & Husers & Htenants & Hnf').
    fold released in Hvid, Hfiles, Husers, Htenants, Hnf'.
    cbn [correction b_processingError corrected] in Hvid.
    set (d := set_processingStatus COMPLETED v) in *.
    assert (Hd : videos released !! params_id (for_id id req) = Some d)
      by (rewrite Hvid; apply lookup_insert_eq).
    destruct (streamVideo_authorized env (for_id id req) released d
                (readable_authorized env (for_id id req) reader released d
                   (requester_stable env w released req reader Husers
                      Htenants Hnf' Hwho)
                   Hd Hread Hnf'))
      as (w'' & (_ & _ & _ & Hsame & _) & Hresp).
    apply Hresp. cbn [for_id headers_range]. rewrite Hrange.
    rewrite (stream_found_completed d None w'' content eq_refl)
      by (rewrite Hsame, Hfiles; exact Hfile).
    rewrite serve_file_whole. reflexivity.
Qed.

(** ** Hidden documents and the other reads *)

Lemma findOne_hidden_absent hidden absent userId userRole tenant w v :
  videos w !! hidden = Some v ->
  hidden_from userId userRole tenant v ->
  videos w !! absent = None ->
  object_ids w absent = true ->
  Video_findOne (access_query hidden userId userRole tenant) w
  = Video_findOne (access_query absent userId userRole tenant) w /\
  forall a,
    outcome (Video_findOne (access_query absent userId userRole tenant) w)
      = Return a -> a = None.
Proof.
  intros Hv Hhid Habs Hcast. split.
  - unfold Video_findOne. cbn [q_id access_query].
    rewrite !by_id_one_call;
      [| right; exact Hcast | left; rewrite Hv; eexists; reflexivity].
    apply db_call_gets_agree. intros fs. wsimpl.
    rewrite Hv, Habs.
    rewrite (hidden_not_matched hidden userId userRole tenant v Hhid).
    reflexivity.
  - intros [d|] Ha; [|reflexivity].
    apply Video_findOne_found in Ha. cbn [q_id access_query] in Ha.
    congruence.
Qed.

(** The detail read and the stream-info query treat a document that is
    hidden from the requester, another tenant's or private and not
    theirs for a VIEWER, as they treat a well-formed id that names no
    document: the same answer and the same effects, so a hidden document
    is not counted as viewed, and the answer is 404 when no call is
    rejected.  The id has to be well formed, a string that casts to an
    ObjectId; for any other the query throws and the answer is 500. *)
Theorem hidden_reads_look_absent env w user hidden absent v :
  videos w !! hidden = Some v ->
  hidden_from (ru_id user) (ru_role user) (ru_tenantId user) v ->
  videos w !! absent = None ->
  object_ids w absent = true ->
  getVideoById env hidden user w = getVideoById env absent user w /\
  getStreamInfo env hidden user w = getStreamInfo env absent user w /\
  saves (trace (getVideoById env hidden user w)) = [] /\
  (no_faults w ->
   outcome (getVideoById env hidden user w) = Return not_found_answer).
Proof.
  intros Hv Hhid Habs Hcast.
  destruct (findOne_hidden_absent hidden absent _ _ _ w v Hv Hhid Habs Hcast)
    as [Hsame Hnone].
  assert (Hdetail :
    getVideoById env hidden user w = getVideoById env absent user w).
  { unfold getVideoById. apply try_catch_agree.
    etransitivity; [apply bind_agree_first; exact Hsame|].
    apply bind_agree. intros a Ha. rewrite (Hnone a Ha). reflexivity. }
  split; [exact Hdetail | split; [|split]].
  - unfold getStreamInfo. apply try_catch_agree.
    etransitivity; [apply bind_agree_first; exact Hsame|].
    apply bind_agree. intros a Ha. rewrite (Hnone a Ha). reflexivity.
  - rewrite Hdetail. clear Hsame Hnone Hdetail.
    assert (Hstored :
      videos w !! q_id (access_query absent (ru_id user) (ru_role user)
                          (ru_tenantId user)) = None) by exact Habs.
    run_of (getVideoById env absent user) w.
    repeat step.
    all: simplify_eq; try reflexivity.
    all: match goal with
         | H : match videos _ !! _ with _ => _ end = Some _ |- _ =>
             apply selected_is_stored in H; destruct H; congruence
         end.
  - intros Hnf. rewrite Hdetail. clear Hsame Hnone Hdetail.
    assert (Hstored :
      videos w !! q_id (access_query absent (ru_id user) (ru_role user)
                          (ru_tenantId user)) = None) by exact Habs.
    assert (Hids :
      object_ids w (q_id (access_query absent (ru_id user) (ru_role user)
                            (ru_tenantId user))) = true) by exact Hcast.
    run_of (getVideoById env absent user) w.
    repeat step_ok.
    all: simplify_eq; try reflexivity.
    all: match goal with
         | H : match videos _ !! _ with _ => _ end = Some _ |- _ =>
             apply selected_is_stored in H; destruct H; congruence
         end.
Qed.

Lemma views_count_reads_witness :
  views <$> videos (after_reads Sample.env "v1" SampleRequests.editor 3
                      Sample.world) !! "v1"
  = Some 3.
Proof.
  destruct (views_count_reads Sample.env "v1" SampleRequests.editor
              Sample.world Sample.clip 3) as (H & _).
  - reflexivity.
  - reflexivity.
  - constructor.
  - rewrite H. reflexivity.
Defined.

Lemma correction_rules_streaming_witness :
  let admin := {| ru_id := "u0"; ru_role := ADMIN; ru_tenantId := "t1" |} in
  let w := Sample.world_with SampleReads.shared [] in
  let request := SampleReads.by_token "token-of-u2" "v1" None in
  outcome
    (streamVideo Sample.env request
       (after (route_patch_status Sample.env "v1" admin
                 (correction "FLAGGED" (Some "reviewed by hand")) w)))
  = Return (flagged_answer
              (set_processingError "reviewed by hand" SampleReads.shared)) /\
  outcome
    (streamVideo Sample.env request
       (after (route_patch_status Sample.env "v1" admin
                 (correction "COMPLETED" None) w)))
  = Return (full_content SampleReads.shared (Sample.bytes 1000)).
Proof.
  intros admin w request.
  apply (correction_rules_streaming Sample.env "v1" admin request
           SampleRequests.viewer w SampleReads.shared "reviewed by hand"
           (Sample.bytes 1000)).
  - reflexivity.
  - reflexivity.
  - reflexivity.
  - reflexivity.
  - reflexivity.
  - reflexivity.
  - reflexivity.
  - reflexivity.
  - constructor.
Defined.

Lemma hidden_reads_look_absent_witness :
  getVideoById Sample.env "v1" SampleRequests.viewer Sample.world
  = getVideoById Sample.env "v404" SampleRequests.viewer Sample.world.
Proof.
  apply (hidden_reads_look_absent Sample.env Sample.world
           SampleRequests.viewer "v1" "v404" Sample.clip).
  - reflexivity.
  - right. split; [reflexivity|]. split; [reflexivity | discriminate].
  - reflexivity.
  - reflexivity.
Defined.

(** ** The duration badge of a card *)

Lemma seconds_field (r : nat) :
  (r < 60)%nat ->
  String.length (Card.padStart 2 (JS.dec (N.of_nat r))) = 2%nat /\
  JS.parseInt (Card.padStart 2 (JS.dec (N.of_nat r))) = Some (Z.of_nat r).
Proof.
  intros Hr.
  do 60 (destruct r as [|r]; [vm_compute; split; reflexivity|]).
  lia.
Qed.

(** The badge of a positive duration reads back to it: it shows
    minutes, a colon and seconds, the seconds always on two digits and
    below 60, and sixty times the minutes plus the seconds is the stored
    duration.  A duration of 0 is shown as the bare number 0. *)
Theorem duration_badge_reads_back d :
  0 < d ->
  Card.duration_badge (Some 0) = Card.number 0 /\
  exists minutes seconds m s,
    Card.duration_badge (Some d) = Card.text (minutes +:+ ":" +:+ seconds) /\
    String.length seconds = 2%nat /\
    JS.parseInt minutes = Some m /\ JS.parseInt seconds = Some s /\
    0 <= s < 60 /\ 60 * m + s = d.
Proof.
  intros Hd. split; [reflexivity|].
  assert (Hq : 0 <= d / 60) by (apply Z.div_pos; lia).
  assert (Hr : 0 <= Z.rem d 60 < 60) by (apply Z.rem_bound_pos; lia).
  destruct (seconds_field (Z.to_nat (Z.rem d 60)) ltac:(lia)) as [Hlen Hs].
  rewrite Z_nat_N, Z2Nat.id in Hs by lia.
  rewrite Z_nat_N in Hlen.
  exists (JS.dec (Z.to_N (d / 60))),
         (Card.padStart 2 (JS.dec (Z.to_N (Z.rem d 60)))),
         (d / 60), (Z.rem d 60).
  split; [|split; [exact Hlen | split; [|split; [exact Hs | split]]]].
  - unfold Card.duration_badge. destruct d as [|p|p]; try lia.
    rewrite !JSFacts.Number_toString_nonneg by lia. reflexivity.
  - rewrite JSFacts.parseInt_dec, Z2N.id by lia. reflexivity.
  - exact Hr.
  - rewrite Z.rem_mod_nonneg by lia.
    pose proof (Z.div_mod d 60 ltac:(lia)). lia.
Qed.

Lemma duration_badge_reads_back_witness :
  exists minutes seconds,
    Card.duration_badge (Some 125)
      = Card.text (minutes +:+ ":" +:+ seconds) /\
    String.length seconds = 2%nat.
Proof.
  destruct (duration_badge_reads_back 125 eq_refl)
    as (_ & minutes & seconds & m & s & Hshown & Hlen & _).
  exists minutes, seconds. split; [exact Hshown | exact Hlen].
Defined.
